(** * Brick planner of glusterd2: a shallow embedding and its properties

    The development follows [glusterd2/bricksplanner/planner.go]:
    the topology resolver ([handleReplicaSubvolReq],
    [handleDisperseSubvolReq]), the layout generator ([getBricksLayout])
    and the zone-aware greedy allocator ([PlanBricks]).

    Go's [int] and [uint64] are integers of [Z] with the wrap-around of
    64-bit arithmetic written out; the request, which Go passes by
    pointer and mutates in place, is threaded through a small state and
    error monad.

    A last part follows the handler of volume deletion
    ([volumeDeleteHandler], [deleteVolume] and
    [registerVolDeleteStepFuncs] of the package [volumecommands]); a
    run of the handler is the sequence of its calls. *)

From Stdlib Require Import ZArith String DecimalString Lia.
From Stdlib Require Import Ascii DecimalPos DecimalZ.
From stdpp Require Import base numbers list strings gmap.

Local Open Scope Z_scope.

(** ** Machine integers *)

(** [uint64] arithmetic wraps modulo 2^64. *)
Definition wrapU64 (z : Z) : Z := z mod 2 ^ 64.

(** [int] is 64 bits wide on the platforms glusterd2 runs on; signed
    arithmetic and the conversion [int(x)] wrap in two's complement. *)
Definition wrapInt (z : Z) : Z := (z + 2 ^ 63) mod 2 ^ 64 - 2 ^ 63.

Definition isU64 (z : Z) : Prop := 0 ≤ z < 2 ^ 64.
Definition isInt (z : Z) : Prop := - 2 ^ 63 ≤ z < 2 ^ 63.

(** [strconv.Itoa]. *)
Definition itoa (z : Z) : string := NilZero.string_of_int (Z.to_int z).

(** ** Constants *)

(** Modelled from the spec: [utils.MiB], a binary unit of [pkg/utils]
    (the package is not part of the sources at hand); the spec gives
    the minimum brick size as 20 MiB. *)
Definition MiB : Z := 1024 * 1024.

(** Modelled from the spec: [utils.GiB], of the same package; the spec
    gives the loop-back cap as 100 GiB. *)
Definition GiB : Z := 1024 * MiB.

(** Planner.go lines 17-20. *)
Definition minBrickSize : Z := 20 * MiB.
Definition defaultMaxLoopBrickSize : Z := 100 * GiB.

(** Modelled from the spec: [api.ProvisionerTypeLoop], the name of the
    loop-back provisioner ([provisioner=loop] in the spec's scenario). *)
Definition ProvisionerTypeLoop : string := "loop".

(** ** Data model ([pkg/api] and the device inventory) *)

(** A float64 is carried as its IEEE-754 bit pattern; the planner only
    hands it to the thin-pool sizing of the backend. *)
Record float64 := Float64 { float64bits : Z }.

Module BrickReq.
Record t := mk {
  Type_ : string;
  Path : string;
  BrickDirSuffix : string;
  TpName : string;
  LvName : string;
  Size : Z;
  TpSize : Z;
  TpMetadataSize : Z;
  TotalSize : Z;
  FsType : string;
  MntOpts : string;
  PeerID : string;
  VgName : string;
  RootDevice : string;
  DevicePath : string
}.
End BrickReq.

Module SubvolReq.
Record t := mk {
  Type_ : string;
  Bricks : list BrickReq.t;
  ReplicaCount : Z;
  ArbiterCount : Z;
  DisperseCount : Z
}.
End SubvolReq.

Module VolCreateReq.
Record t := mk {
  Name : string;
  Size : Z;
  ReplicaCount : Z;
  ArbiterCount : Z;
  DisperseCount : Z;
  DisperseDataCount : Z;
  DisperseRedundancyCount : Z;
  DistributeCount : Z;
  MaxBrickSize : Z;
  ProvisionerType : string;
  SnapshotReserveFactor : float64;
  SubvolZonesOverlap : bool;
  SubvolType : string;
  Subvols : list SubvolReq.t
}.

(** Assignments to single fields of the request. *)
Definition set_SubvolType (v : string) (r : t) : t :=
  mk (Name r) (Size r) (ReplicaCount r) (ArbiterCount r) (DisperseCount r)
     (DisperseDataCount r) (DisperseRedundancyCount r) (DistributeCount r)
     (MaxBrickSize r) (ProvisionerType r) (SnapshotReserveFactor r)
     (SubvolZonesOverlap r) v (Subvols r).
Definition set_DisperseCount (v : Z) (r : t) : t :=
  mk (Name r) (Size r) (ReplicaCount r) (ArbiterCount r) v
     (DisperseDataCount r) (DisperseRedundancyCount r) (DistributeCount r)
     (MaxBrickSize r) (ProvisionerType r) (SnapshotReserveFactor r)
     (SubvolZonesOverlap r) (SubvolType r) (Subvols r).
Definition set_DisperseDataCount (v : Z) (r : t) : t :=
  mk (Name r) (Size r) (ReplicaCount r) (ArbiterCount r) (DisperseCount r)
     v (DisperseRedundancyCount r) (DistributeCount r)
     (MaxBrickSize r) (ProvisionerType r) (SnapshotReserveFactor r)
     (SubvolZonesOverlap r) (SubvolType r) (Subvols r).
Definition set_DisperseRedundancyCount (v : Z) (r : t) : t :=
  mk (Name r) (Size r) (ReplicaCount r) (ArbiterCount r) (DisperseCount r)
     (DisperseDataCount r) v (DistributeCount r)
     (MaxBrickSize r) (ProvisionerType r) (SnapshotReserveFactor r)
     (SubvolZonesOverlap r) (SubvolType r) (Subvols r).
Definition set_DistributeCount (v : Z) (r : t) : t :=
  mk (Name r) (Size r) (ReplicaCount r) (ArbiterCount r) (DisperseCount r)
     (DisperseDataCount r) (DisperseRedundancyCount r) v
     (MaxBrickSize r) (ProvisionerType r) (SnapshotReserveFactor r)
     (SubvolZonesOverlap r) (SubvolType r) (Subvols r).
Definition set_MaxBrickSize (v : Z) (r : t) : t :=
  mk (Name r) (Size r) (ReplicaCount r) (ArbiterCount r) (DisperseCount r)
     (DisperseDataCount r) (DisperseRedundancyCount r) (DistributeCount r)
     v (ProvisionerType r) (SnapshotReserveFactor r)
     (SubvolZonesOverlap r) (SubvolType r) (Subvols r).
Definition set_Subvols (v : list SubvolReq.t) (r : t) : t :=
  mk (Name r) (Size r) (ReplicaCount r) (ArbiterCount r) (DisperseCount r)
     (DisperseDataCount r) (DisperseRedundancyCount r) (DistributeCount r)
     (MaxBrickSize r) (ProvisionerType r) (SnapshotReserveFactor r)
     (SubvolZonesOverlap r) (SubvolType r) v.

(** Every numeric field holds a value of its Go type. *)
Record wf (r : t) : Prop := {
  wf_Size : isU64 (Size r);
  wf_MaxBrickSize : isU64 (MaxBrickSize r);
  wf_ReplicaCount : isInt (ReplicaCount r);
  wf_ArbiterCount : isInt (ArbiterCount r);
  wf_DisperseCount : isInt (DisperseCount r);
  wf_DisperseDataCount : isInt (DisperseDataCount r);
  wf_DisperseRedundancyCount : isInt (DisperseRedundancyCount r);
  wf_DistributeCount : isInt (DistributeCount r)
}.
End VolCreateReq.

(** Modelled from the spec: the device of the inventory (a volume
    group), whose declaration is not part of the sources at hand: peer
    id, name, zone, backing device, available size, used flag. *)
Module Vg.
Record t := mk {
  PeerID : string;
  Name : string;
  Zone : string;
  Device : string;
  AvailableSize : Z;
  Used : bool
}.
End Vg.

(** ** Errors *)

(** One constructor for each [errors.New] of the planner, and one for
    an error handed back by the inventory source. *)
Inductive error : Type :=
  | ErrInvalidReplicaCount
  | ErrInvalidArbiterCount
  | ErrRedundancyRequired
  | ErrInvalidRedundancy
  | ErrMaxBrickSizeTooSmall
  | ErrMaxLoopBrickSize
  | ErrSubvolTypeNotSupported
  | ErrBrickTooSmall
  | ErrNoDevices
  | ErrNoSpace
  | ErrInventory (msg : string).

Definition message (e : error) : string :=
  match e with
  | ErrInvalidReplicaCount => "invalid Replica Count"
  | ErrInvalidArbiterCount => "invalid Arbiter Count"
  | ErrRedundancyRequired => "disperse redundancy count is required"
  | ErrInvalidRedundancy => "invalid redundancy count"
  | ErrMaxBrickSizeTooSmall =>
      "invalid max-brick-size, Minimum size required is " +:+ itoa minBrickSize
  | ErrMaxLoopBrickSize =>
      "invalid max-brick-size, max brick size supported for loop back bricks is "
        +:+ itoa defaultMaxLoopBrickSize
  | ErrSubvolTypeNotSupported => "subvolume type not supported"
  | ErrBrickTooSmall => "brick size is too small"
  | ErrNoDevices => "no devices registered or available for allocating bricks"
  | ErrNoSpace => "no space available or all the devices are not registered"
  | ErrInventory msg => msg
  end.

(** The closed taxonomy of the design (section 7 of the spec). *)
Inductive ErrorKind : Type :=
  | ValidationError
  | PlannerError
  | SizeError
  | CapacityError
  | InventoryError.

Definition kind (e : error) : ErrorKind :=
  match e with
  | ErrInvalidReplicaCount | ErrInvalidArbiterCount
  | ErrRedundancyRequired | ErrInvalidRedundancy
  | ErrMaxBrickSizeTooSmall | ErrMaxLoopBrickSize => ValidationError
  | ErrSubvolTypeNotSupported => PlannerError
  | ErrBrickTooSmall => SizeError
  | ErrNoDevices | ErrNoSpace => CapacityError
  | ErrInventory _ => InventoryError
  end.

(** ** Outcomes and the request monad *)

(** A Go call returns normally, returns an error, or panics (the only
    run-time panic of the planner is an integer division by zero). *)
Inductive result (A : Type) : Type :=
  | Ok (a : A)
  | Err (e : error)
  | Panic.
Arguments Ok {A} a.
Arguments Err {A} e.
Arguments Panic {A}.

Definition result_bind {A B} (r : result A) (k : A → result B) : result B :=
  match r with
  | Ok a => k a
  | Err e => Err e
  | Panic => Panic
  end.

(** [mapM] over a range: the first failure stops the loop. *)
Fixpoint result_mapM {A B} (f : A → result B) (l : list A) : result (list B) :=
  match l with
  | [] => Ok []
  | x :: l' =>
      result_bind (f x) (λ y,
      result_bind (result_mapM f l') (λ ys, Ok (y :: ys)))
  end.

(** A computation over the request [*api.VolCreateReq]: it sees the
    current request and leaves the request as mutated so far, also when
    it fails. *)
Definition M (A : Type) : Type := VolCreateReq.t → VolCreateReq.t * result A.

Definition ret {A} (a : A) : M A := λ r, (r, Ok a).
Definition fail {A} (e : error) : M A := λ r, (r, Err e).
Definition panic {A} : M A := λ r, (r, Panic).
Definition get : M VolCreateReq.t := λ r, (r, Ok r).
Definition modify (f : VolCreateReq.t → VolCreateReq.t) : M unit :=
  λ r, (f r, Ok tt).
Definition bind {A B} (m : M A) (k : A → M B) : M B :=
  λ r, match m r with
       | (r', Ok a) => k a r'
       | (r', Err e) => (r', Err e)
       | (r', Panic) => (r', Panic)
       end.
Definition when (c : bool) (m : M unit) : M unit := if c then m else ret tt.

Declare Scope req_scope.
Delimit Scope req_scope with req.
Notation "'do' x <- m ; k" := (bind m (λ x, k))
  (at level 10, x name, m at level 100, k at level 200) : req_scope.
Notation "m ;; k" := (bind m (λ _, k))
  (at level 100, k at level 200, right associativity) : req_scope.

(** ** The collaborators of the planner *)

(** The Go interface of a layout strategy, after [Init(req, subvolSize)]:
    the number of bricks of a subvolume, and size and role per index. *)
Record SubvolPlanner := {
  BricksCount : Z;
  BrickSize : Z → Z;
  BrickType : Z → string
}.

(** What the planner calls and the sources at hand do not contain:
    - [GetRedundancy]: [volume.GetRedundancy], the default redundancy
      of a disperse count;
    - [NormalizeSize], [GetPoolMetadataSize]: the sizing of [pkg/lvmutils];
    - [reserveSize s f]: [uint64(float64(s) * f)], the thin-pool size of
      a brick of size [s] under the snapshot reserve factor [f];
    - [bricksMountRoot]: [path.Join(config.GetString("rundir"), "/bricks")],
      the configured root of the brick mount points;
    - [subvolPlanners]: the table from subvolume type to strategy, each
      given by its [Init];
    - [GetAvailableVgs]: the inventory source;
    - [vgsByPointer]: the element type of the inventory, which decides
      what [vg.AvailableSize -= ...] and [vg.Used = true] inside
      [for _, vg := range availableVgs] do. With pointers ([]*Vg,
      [true]) they change the device of the inventory, which the spec
      describes as a working copy that is mutated during the call;
      with values ([]Vg, [false]) they change the loop variable only. *)
Class Collaborators := {
  GetRedundancy : Z → Z;
  NormalizeSize : Z → Z;
  GetPoolMetadataSize : Z → Z;
  reserveSize : Z → float64 → Z;
  bricksMountRoot : string;
  subvolPlanners : gmap string (VolCreateReq.t → Z → SubvolPlanner);
  GetAvailableVgs : VolCreateReq.t → error + list Vg.t;
  vgsByPointer : bool
}.

Section Planner.
Context `{Collaborators}.
Import VolCreateReq.
Local Open Scope req_scope.

(** ** Topology resolver *)

(** [handleReplicaSubvolReq], planner.go lines 22-36. *)
Definition handleReplicaSubvolReq : M unit :=
  do req <- get;
  if ReplicaCount req <? 2 then ret tt
  else if 3 <? ReplicaCount req then fail ErrInvalidReplicaCount
  else
    modify (set_SubvolType "replicate");;
    if 1 <? ArbiterCount req then fail ErrInvalidArbiterCount
    else ret tt.

(** [handleDisperseSubvolReq], planner.go lines 38-67. *)
Definition handleDisperseSubvolReq : M unit :=
  do req <- get;
  if (DisperseCount req =? 0) && (DisperseDataCount req =? 0)
     && (DisperseRedundancyCount req =? 0)
  then ret tt
  else
    modify (set_SubvolType "disperse");;
    if (0 <? DisperseDataCount req) && (DisperseRedundancyCount req <=? 0)
    then fail ErrRedundancyRequired
    else
      when (0 <? DisperseDataCount req)
        (modify (set_DisperseCount
           (wrapInt (DisperseDataCount req + DisperseRedundancyCount req))));;
      (* Calculate Redundancy Value *)
      do req <- get;
      when (DisperseRedundancyCount req <=? 0)
        (modify (set_DisperseRedundancyCount
           (GetRedundancy (wrapU64 (DisperseCount req)))));;
      do req <- get;
      when (DisperseDataCount req <=? 0)
        (modify (set_DisperseDataCount
           (wrapInt (DisperseCount req - DisperseRedundancyCount req))));;
      do req <- get;
      if DisperseCount req <=? wrapInt (2 * DisperseRedundancyCount req)
      then fail ErrInvalidRedundancy
      else ret tt.

(** ** Layout generator *)

(** Planner.go lines 91-105: the bounds of the maximum brick size, and
    its default for the loop-back provisioner. *)
Definition checkMaxBrickSize : M unit :=
  do req <- get;
  if (0 <? MaxBrickSize req) && (MaxBrickSize req <? minBrickSize)
  then fail ErrMaxBrickSizeTooSmall
  else
    (* Limit max loopback brick size to 100GiB *)
    if String.eqb (ProvisionerType req) ProvisionerTypeLoop then
      if defaultMaxLoopBrickSize <? MaxBrickSize req
      then fail ErrMaxLoopBrickSize
      else
        (* If max brick size is not set *)
        when (MaxBrickSize req =? 0)
          (modify (set_MaxBrickSize defaultMaxLoopBrickSize))
    else ret tt.

(** Planner.go lines 113-116: the largest size of one subvolume. *)
Definition maxSubvolSize (req : t) : Z :=
  if 0 <? DisperseDataCount req
  then wrapU64 (MaxBrickSize req * wrapU64 (DisperseDataCount req))
  else MaxBrickSize req.

(** Planner.go lines 107-121: with a maximum brick size, the distribute
    count follows from the requested size. The division panics on a
    zero divisor. *)
Definition deriveDistributeCount : M unit :=
  do req <- get;
  if (0 <? MaxBrickSize req) && (MaxBrickSize req <? Size req) then
    if maxSubvolSize req =? 0 then panic
    else
      modify (set_DistributeCount (wrapInt (Size req / maxSubvolSize req)));;
      when (0 <? Size req mod maxSubvolSize req)
        (modify (λ r, set_DistributeCount (wrapInt (DistributeCount r + 1)) r))
  else ret tt.

(** Planner.go lines 123-126. *)
Definition numSubvols (req : t) : Z :=
  if 0 <? DistributeCount req then DistributeCount req else 1.

(** Planner.go lines 128-132. *)
Definition subvolSize (req : t) : Z :=
  if 1 <? numSubvols req
  then Size req / wrapU64 (numSubvols req)
  else Size req.

(** Planner.go lines 150-176: brick [j] of subvolume [i] (both counted
    from 0); the placement fields are left at their zero value. *)
Definition makeBrick (req : t) (p : SubvolPlanner) (i j : Z)
    : result BrickReq.t :=
  let eachBrickSize := BrickSize p j in
  let brickType := BrickType p j in
  if eachBrickSize <? minBrickSize then Err ErrBrickTooSmall
  else
    let eachBrickTpSize := reserveSize eachBrickSize (SnapshotReserveFactor req) in
    let mntopts :=
      if String.eqb (ProvisionerType req) ProvisionerTypeLoop
      then "rw,inode64,noatime,nouuid,discard" +:+ ",loop"
      else "rw,inode64,noatime,nouuid,discard" in
    let tpsize := NormalizeSize eachBrickTpSize in
    let tpmsize := GetPoolMetadataSize eachBrickTpSize in
    Ok {| BrickReq.Type_ := brickType;
          BrickReq.Path :=
            bricksMountRoot +:+ "/" +:+ Name req +:+ "/subvol" +:+ itoa (i + 1)
              +:+ "/brick" +:+ itoa (j + 1) +:+ "/brick";
          BrickReq.BrickDirSuffix := "/brick";
          BrickReq.TpName :=
            "tp_" +:+ Name req +:+ "_s" +:+ itoa (i + 1) +:+ "_b" +:+ itoa (j + 1);
          BrickReq.LvName :=
            "brick_" +:+ Name req +:+ "_s" +:+ itoa (i + 1) +:+ "_b" +:+ itoa (j + 1);
          BrickReq.Size := NormalizeSize eachBrickSize;
          BrickReq.TpSize := tpsize;
          BrickReq.TpMetadataSize := tpmsize;
          BrickReq.TotalSize := wrapU64 (tpsize + tpmsize);
          BrickReq.FsType := "xfs";
          BrickReq.MntOpts := mntopts;
          BrickReq.PeerID := "";
          BrickReq.VgName := "";
          BrickReq.RootDevice := "";
          BrickReq.DevicePath := "" |}.

(** Planner.go lines 148-185: subvolume [i] with its bricks. *)
Definition makeSubvol (req : t) (p : SubvolPlanner) (i : Z)
    : result SubvolReq.t :=
  result_bind (result_mapM (makeBrick req p i) (seqZ 0 (BricksCount p)))
    (λ bricks,
      Ok {| SubvolReq.Type_ := SubvolType req;
            SubvolReq.Bricks := bricks;
            SubvolReq.ReplicaCount := ReplicaCount req;
            SubvolReq.ArbiterCount := ArbiterCount req;
            SubvolReq.DisperseCount := DisperseCount req |}).

(** Planner.go lines 76-121: everything [getBricksLayout] does to the
    request before it builds the layout. *)
Definition resolveRequest : M unit :=
  (* Default Subvol Type *)
  modify (set_SubvolType "distribute");;
  handleReplicaSubvolReq;;
  handleDisperseSubvolReq;;
  checkMaxBrickSize;;
  deriveDistributeCount.

(** Planner.go lines 123-188: the layout of a resolved request. *)
Definition buildLayout (req : t) : result (list SubvolReq.t) :=
  match subvolPlanners !! SubvolType req with
  | None => Err ErrSubvolTypeNotSupported
  | Some init =>
      let subvolplanner := init req (subvolSize req) in
      result_mapM (makeSubvol req subvolplanner) (seqZ 0 (numSubvols req))
  end.

(** [getBricksLayout], planner.go lines 72-189. *)
Definition getBricksLayout : M (list SubvolReq.t) :=
  resolveRequest;;
  do req <- get;
  λ r, (r, buildLayout req).

(** ** Zone-aware greedy allocator *)

(** The guard of the scan, planner.go line 224 (first pass, fresh
    devices only: [freshOnly]) and line 254 (second pass). *)
Definition fits (freshOnly : bool) (zones : gset string)
    (b : BrickReq.t) (vg : Vg.t) : Prop :=
  (BrickReq.TotalSize b ≤ Vg.AvailableSize vg)
  ∧ (Vg.Zone vg ∉ zones)
  ∧ (if freshOnly then Vg.Used vg = false else True).

#[global] Instance fits_dec freshOnly zones b vg :
  Decision (fits freshOnly zones b vg).
Proof. unfold fits. destruct freshOnly; apply _. Defined.

(** Planner.go lines 228-231: the device path of a placed brick. *)
Definition devicePath (req : t) (vg : Vg.t) (b : BrickReq.t) : string :=
  if String.eqb (ProvisionerType req) ProvisionerTypeLoop
  then Vg.Device vg +:+ "/" +:+ BrickReq.TpName b +:+ "/"
         +:+ BrickReq.LvName b +:+ ".img"
  else "/dev/" +:+ Vg.Name vg +:+ "/" +:+ BrickReq.LvName b.

(** Planner.go lines 225-231: the four placement fields of the brick
    are assigned, the others stay. *)
Definition placeBrick (req : t) (vg : Vg.t) (b : BrickReq.t) : BrickReq.t :=
  {| BrickReq.Type_ := BrickReq.Type_ b;
     BrickReq.Path := BrickReq.Path b;
     BrickReq.BrickDirSuffix := BrickReq.BrickDirSuffix b;
     BrickReq.TpName := BrickReq.TpName b;
     BrickReq.LvName := BrickReq.LvName b;
     BrickReq.Size := BrickReq.Size b;
     BrickReq.TpSize := BrickReq.TpSize b;
     BrickReq.TpMetadataSize := BrickReq.TpMetadataSize b;
     BrickReq.TotalSize := BrickReq.TotalSize b;
     BrickReq.FsType := BrickReq.FsType b;
     BrickReq.MntOpts := BrickReq.MntOpts b;
     BrickReq.PeerID := Vg.PeerID vg;
     BrickReq.VgName := Vg.Name vg;
     BrickReq.RootDevice := Vg.Device vg;
     BrickReq.DevicePath := devicePath req vg b |}.

(** Planner.go lines 235-236: the device gives up the brick's total
    size and counts as used. *)
Definition consume (b : BrickReq.t) (vg : Vg.t) : Vg.t :=
  {| Vg.PeerID := Vg.PeerID vg;
     Vg.Name := Vg.Name vg;
     Vg.Zone := Vg.Zone vg;
     Vg.Device := Vg.Device vg;
     Vg.AvailableSize := wrapU64 (Vg.AvailableSize vg - BrickReq.TotalSize b);
     Vg.Used := true |}.

(** The two assignments to [vg] as the inventory sees them. *)
Definition updateVg (k : nat) (vg' : Vg.t) (vgs : list Vg.t) : list Vg.t :=
  if vgsByPointer then <[k := vg']> vgs else vgs.

(** What the allocation of one subvolume reads and writes: the working
    copy of the inventory, the zones in use, the bricks of the
    subvolume, and [numBricksAllocated]. *)
Record AllocState := {
  availableVgs : list Vg.t;
  zones : gset string;
  bricks : list BrickReq.t;
  numBricksAllocated : nat
}.

(** The inner loop [for _, vg := range availableVgs] for the brick at
    index [bidx] (lines 222-239 and 252-269): the first device that
    fits takes the brick; without one nothing changes. *)
Definition tryPlace (req : t) (freshOnly : bool) (st : AllocState)
    (bidx : nat) : AllocState :=
  match bricks st !! bidx with
  | None => st
  | Some b =>
      match list_find (fits freshOnly (zones st) b) (availableVgs st) with
      | None => st
      | Some (k, vg) =>
          {| availableVgs := updateVg k (consume b vg) (availableVgs st);
             zones := {[Vg.Zone vg]} ∪ zones st;
             bricks := <[bidx := placeBrick req vg b]> (bricks st);
             numBricksAllocated := S (numBricksAllocated st) |}
      end
  end.

(** First pass, lines 221-240: every brick in order, fresh devices only. *)
Definition firstPass (req : t) (st : AllocState) : AllocState :=
  foldl (tryPlace req true) st (seq 0 (length (bricks st))).

(** Second pass, lines 250-270: the bricks from index
    [numBricksAllocated] on, any device with room. *)
Definition secondPass (req : t) (st : AllocState) : AllocState :=
  foldl (tryPlace req false) st
    (seq (numBricksAllocated st)
         (length (bricks st) - numBricksAllocated st)%nat).

(** The body of the loop over the subvolumes, lines 210-275; [None] is
    the error of line 274. *)
Definition planSubvol (req : t) (vgs : list Vg.t) (zones0 : gset string)
    (sv : SubvolReq.t) : option AllocState :=
  let zones1 := if SubvolZonesOverlap req then ∅ else zones0 in
  let st1 := firstPass req
    {| availableVgs := vgs; zones := zones1;
       bricks := SubvolReq.Bricks sv; numBricksAllocated := 0 |} in
  if decide (length (SubvolReq.Bricks sv) = numBricksAllocated st1)
  then Some st1
  else
    let st2 := secondPass req st1 in
    if decide (length (SubvolReq.Bricks sv) = numBricksAllocated st2)
    then Some st2
    else None.

Definition withBricks (sv : SubvolReq.t) (bs : list BrickReq.t) : SubvolReq.t :=
  {| SubvolReq.Type_ := SubvolReq.Type_ sv;
     SubvolReq.Bricks := bs;
     SubvolReq.ReplicaCount := SubvolReq.ReplicaCount sv;
     SubvolReq.ArbiterCount := SubvolReq.ArbiterCount sv;
     SubvolReq.DisperseCount := SubvolReq.DisperseCount sv |}.

(** The loop over the subvolumes, lines 207-276: the inventory and the
    zones in use pass from one subvolume to the next. The result holds
    the subvolumes with their bricks placed, and the inventory and the
    zones as the loop leaves them. *)
Fixpoint planSubvols (req : t) (vgs : list Vg.t) (zones0 : gset string)
    (subvols : list SubvolReq.t)
    : option (list SubvolReq.t * list Vg.t * gset string) :=
  match subvols with
  | [] => Some ([], vgs, zones0)
  | sv :: rest =>
      match planSubvol req vgs zones0 sv with
      | None => None
      | Some st =>
          match planSubvols req (availableVgs st) (zones st) rest with
          | None => None
          | Some (rest', vgs', zones') =>
              Some (withBricks sv (bricks st) :: rest', vgs', zones')
          end
      end
  end.

(** [PlanBricks], planner.go lines 192-280. *)
Definition PlanBricks : M unit :=
  do req <- get;
  match GetAvailableVgs req with
  | inl err => fail err
  | inr vgs =>
      if decide (length vgs = 0%nat) then fail ErrNoDevices
      else
        do subvols <- getBricksLayout;
        do req <- get;
        match planSubvols req vgs ∅ subvols with
        | None => fail ErrNoSpace
        | Some (subvols', _, _) => modify (set_Subvols subvols')
        end
  end.

End Planner.

(** ** Vocabulary of the properties *)

Section Vocabulary.
Context `{Collaborators}.
Import VolCreateReq.

(** The replicate rule in the words of the spec: a replica count of 0
    or 1 leaves the type alone, 2 or 3 make it replicate, and a replica
    count above 3 or an arbiter count above 1 is a validation error. *)
Definition replicaRuleAsSpecified (req : t) : Prop :=
  (0 ≤ ReplicaCount req ≤ 1 →
     SubvolType (handleReplicaSubvolReq req).1 = SubvolType req)
  ∧ (2 ≤ ReplicaCount req ≤ 3 →
       SubvolType (handleReplicaSubvolReq req).1 = "replicate")
  ∧ (3 < ReplicaCount req ∨ 1 < ArbiterCount req →
       ∃ e, (handleReplicaSubvolReq req).2 = Err e
            ∧ kind e = ValidationError).

(** The request asks for a disperse volume. *)
Definition triggersDisperse (req : t) : Prop :=
  ¬ (DisperseCount req = 0 ∧ DisperseDataCount req = 0
     ∧ DisperseRedundancyCount req = 0).

(** The redundancy count of the request, given or defaulted, can be
    doubled within [int]. *)
Definition redundancyInRange (req : t) : Prop :=
  DisperseRedundancyCount req < 2 ^ 62
  ∧ 0 ≤ GetRedundancy (wrapU64 (DisperseCount req)) < 2 ^ 62.

(** The request as the topology rules leave it (planner.go lines
    76-89). *)
Definition topology (req : t) : t * result unit :=
  bind (modify (set_SubvolType "distribute"))
    (λ _, bind handleReplicaSubvolReq (λ _, handleDisperseSubvolReq)) req.

(** The fields of the request that no stage writes. *)
Definition sameInputs (a b : t) : Prop :=
  Name a = Name b ∧ Size a = Size b
  ∧ ReplicaCount a = ReplicaCount b ∧ ArbiterCount a = ArbiterCount b
  ∧ ProvisionerType a = ProvisionerType b
  ∧ SnapshotReserveFactor a = SnapshotReserveFactor b
  ∧ SubvolZonesOverlap a = SubvolZonesOverlap b
  ∧ Subvols a = Subvols b.

(** Every run of [m] relates the request before to the request after. *)
Definition preserves {A} (R : relation t) (m : M A) : Prop :=
  ∀ r r' out, m r = (r', out) → R r r'.

(** The ceiling of [a / b]. *)
Definition ceilDiv (a b : Z) : Z := (a + b - 1) / b.

(** What the spec calls the per-subvolume capacity: the maximum brick
    size, times the data count for a disperse volume. *)
Definition subvolCapacity (r : t) : Z :=
  if decide (SubvolType r = "disperse")
  then MaxBrickSize r * DisperseDataCount r
  else MaxBrickSize r.



(** All bricks of the list have total size [T]. *)
Definition allTotalSize (T : Z) (bs : list BrickReq.t) : Prop :=
  Forall (λ b, BrickReq.TotalSize b = T) bs.


(** The brick that [makeBrick] returns for a computed size [s]. *)
Definition freshBrick (req : t) (s : Z) (b : BrickReq.t) : Prop :=
  minBrickSize ≤ s
  ∧ BrickReq.Size b = NormalizeSize s
  ∧ BrickReq.TotalSize b =
      wrapU64 (NormalizeSize (reserveSize s (SnapshotReserveFactor req))
               + GetPoolMetadataSize
                   (reserveSize s (SnapshotReserveFactor req)))
  ∧ BrickReq.DevicePath b = "".

(** Every strategy of the table sizes the bricks of a subvolume
    alike. *)
Definition uniformStrategies : Prop :=
  ∀ name init req size i j,
    subvolPlanners !! name = Some init →
    BrickSize (init req size) i = BrickSize (init req size) j.

(** The free space of the inventory, and the space that bricks and
    subvolumes ask for. *)
Definition totalFree (vgs : list Vg.t) : Z :=
  foldr Z.add 0 (Vg.AvailableSize <$> vgs).

Definition bricksSpace (bs : list BrickReq.t) : Z :=
  foldr Z.add 0 (BrickReq.TotalSize <$> bs).

Definition requiredSpace (subvols : list SubvolReq.t) : Z :=
  foldr Z.add 0 ((λ sv, bricksSpace (SubvolReq.Bricks sv)) <$> subvols).

(** The free space of every device is a [uint64]. *)
Definition inventorySized (vgs : list Vg.t) : Prop :=
  Forall (λ vg, isU64 (Vg.AvailableSize vg)) vgs.

(** The working copy of the inventory keeps the identity of its
    devices; only free space and the used flag change. *)
Definition sameDevice (a b : Vg.t) : Prop :=
  Vg.PeerID a = Vg.PeerID b ∧ Vg.Name a = Vg.Name b
  ∧ Vg.Zone a = Vg.Zone b ∧ Vg.Device a = Vg.Device b.

(** The brick is placed on a device of the inventory in zone [z]. *)
Definition placedInZone (inv : list Vg.t) (b : BrickReq.t) (z : string)
    : Prop :=
  ∃ vg, vg ∈ inv ∧ Vg.Zone vg = z
    ∧ BrickReq.PeerID b = Vg.PeerID vg
    ∧ BrickReq.VgName b = Vg.Name vg
    ∧ BrickReq.RootDevice b = Vg.Device vg
    ∧ BrickReq.DevicePath b ≠ "".

(** The zone of a brick, if it is placed; an unplaced brick has no
    device path. *)
Definition zoned (inv : list Vg.t) (b : BrickReq.t) (oz : option string)
    : Prop :=
  match oz with
  | Some z => placedInZone inv b z
  | None => BrickReq.DevicePath b = ""
  end.

(** No zone occurs at two positions. *)
Definition distinctZones (zs : list (option string)) : Prop :=
  ∀ i j z, zs !! i = Some (Some z) → zs !! j = Some (Some z) → i = j.

(** The bricks sit in pairwise distinct zones of the inventory. *)
Definition distinctlyZoned (inv : list Vg.t) (bs : list BrickReq.t) : Prop :=
  ∃ zs, Forall2 (zoned inv) bs zs ∧ distinctZones zs.

(** The invariant of the allocation of one subvolume: [acc] holds the
    zones of the bricks placed before, [zs] those of the bricks of the
    subvolume. *)
Definition zonesInv (inv : list Vg.t) (acc : list (option string))
    (st : AllocState) (zs : list (option string)) : Prop :=
  Forall2 sameDevice inv (availableVgs st)
  ∧ Forall2 (zoned inv) (bricks st) zs
  ∧ (∀ i z, (acc ++ zs) !! i = Some (Some z) → z ∈ zones st)
  ∧ distinctZones (acc ++ zs).

(** The disperse rule in the words of the spec: on a request that
    triggers it, the rule either succeeds with resolved counts that
    satisfy 2 * redundancy < disperse count, or fails with a validation
    error. *)
Definition disperseRuleAsSpecified (req : t) : Prop :=
  triggersDisperse req →
  (∃ req', handleDisperseSubvolReq req = (req', Ok tt)
     ∧ 2 * DisperseRedundancyCount req' < DisperseCount req')
  ∨ (∃ req' e, handleDisperseSubvolReq req = (req', Err e)
       ∧ kind e = ValidationError).

(** The derivation of the distribute count in the words of the spec:
    with a maximum brick size set and exceeded by the requested size,
    the distribute count is the ceiling of requested size over
    capacity; the number of subvolumes is the distribute count when
    that is positive and 1 otherwise; the size of a subvolume is the
    requested size divided by that number. *)
Definition distributeCountAsSpecified (req : t) : Prop :=
  ∀ r, resolveRequest req = (r, Ok tt) →
    (0 < MaxBrickSize r → MaxBrickSize r < Size r →
       DistributeCount r = ceilDiv (Size r) (subvolCapacity r))
    ∧ numSubvols r =
        (if decide (0 < DistributeCount r) then DistributeCount r else 1)
    ∧ subvolSize r = Size r / numSubvols r.


End Vocabulary.

(** ** The layout strategies of the spec, and a reference backend *)

Module Strategies.
Import VolCreateReq.

(** Modelled from the spec: the distribute strategy, whose source file
    is not at hand. Section 4.2 has the strategies as closed variants,
    each deciding its fan-out; distribute places the subvolume on one
    brick. *)
Definition distribute (req : t) (subvolSize : Z) : SubvolPlanner :=
  {| BricksCount := 1;
     BrickSize := λ _, subvolSize;
     BrickType := λ _, "brick" |}.

(** Modelled from the spec: the replicate strategy, whose source file
    is not at hand: "replicate emits N equal-size bricks", N the
    replica count, each of the size of the subvolume. *)
Definition replicate (req : t) (subvolSize : Z) : SubvolPlanner :=
  {| BricksCount := ReplicaCount req;
     BrickSize := λ _, subvolSize;
     BrickType := λ _, "brick" |}.

(** Modelled from the spec: the disperse strategy, whose source file is
    not at hand: "disperse emits disperse-count bricks sized
    subvolSize/data-count, with redundancy bricks flagged as parity
    role". The data count of a resolved disperse request is positive. *)
Definition disperse (req : t) (subvolSize : Z) : SubvolPlanner :=
  {| BricksCount := DisperseCount req;
     BrickSize := λ _, subvolSize / DisperseDataCount req;
     BrickType := λ j,
       if j <? DisperseDataCount req then "brick" else "parity" |}.

(** Modelled from the spec: the table [subvolPlanners] with the three
    strategies under the names of their subvolume types. *)
Definition table : gmap string (t → Z → SubvolPlanner) :=
  list_to_map
    [("distribute", distribute); ("replicate", replicate);
     ("disperse", disperse)].
End Strategies.

Module Reference.
(** A backend to run the planner on: the inventory holds pointers to
    its devices, sizes are cut to multiples of 512 bytes, the pool
    metadata takes half a percent of the pool and at most 16 GiB,
    nothing is reserved for snapshots, and the default redundancy of a
    disperse count is what remains of it above its largest power of
    two (1 when nothing remains). *)
Definition normalize (size : Z) : Z := size - size mod 512.

Definition poolMetadataSize (poolsize : Z) : Z :=
  normalize (Z.min (poolsize / 200) (16 * GiB)).

Definition redundancy (disperse : Z) : Z :=
  let red := disperse - 2 ^ Z.log2 disperse in
  if (red =? 0) || (disperse <=? 0) then 1 else red.

Definition collaborators (inventory : error + list Vg.t) : Collaborators :=
  {| GetRedundancy := redundancy;
     NormalizeSize := normalize;
     GetPoolMetadataSize := poolMetadataSize;
     reserveSize := λ size _, size;
     bricksMountRoot := "/var/run/glusterd2/bricks";
     subvolPlanners := Strategies.table;
     GetAvailableVgs := λ _, inventory;
     vgsByPointer := true |}.

(** A request with nothing set but name and size. *)
Definition request (name : string) (size : Z) : VolCreateReq.t :=
  {| VolCreateReq.Name := name;
     VolCreateReq.Size := size;
     VolCreateReq.ReplicaCount := 0;
     VolCreateReq.ArbiterCount := 0;
     VolCreateReq.DisperseCount := 0;
     VolCreateReq.DisperseDataCount := 0;
     VolCreateReq.DisperseRedundancyCount := 0;
     VolCreateReq.DistributeCount := 0;
     VolCreateReq.MaxBrickSize := 0;
     VolCreateReq.ProvisionerType := "lvm";
     VolCreateReq.SnapshotReserveFactor := Float64 0x3FF0000000000000;
     VolCreateReq.SubvolZonesOverlap := false;
     VolCreateReq.SubvolType := "";
     VolCreateReq.Subvols := [] |}.

Definition withReplica (replica arbiter : Z) (r : VolCreateReq.t) :=
  VolCreateReq.mk (VolCreateReq.Name r) (VolCreateReq.Size r) replica arbiter
    (VolCreateReq.DisperseCount r) (VolCreateReq.DisperseDataCount r)
    (VolCreateReq.DisperseRedundancyCount r) (VolCreateReq.DistributeCount r)
    (VolCreateReq.MaxBrickSize r) (VolCreateReq.ProvisionerType r)
    (VolCreateReq.SnapshotReserveFactor r) (VolCreateReq.SubvolZonesOverlap r)
    (VolCreateReq.SubvolType r) (VolCreateReq.Subvols r).

Definition withProvisioner (p : string) (r : VolCreateReq.t) :=
  VolCreateReq.mk (VolCreateReq.Name r) (VolCreateReq.Size r)
    (VolCreateReq.ReplicaCount r) (VolCreateReq.ArbiterCount r)
    (VolCreateReq.DisperseCount r) (VolCreateReq.DisperseDataCount r)
    (VolCreateReq.DisperseRedundancyCount r) (VolCreateReq.DistributeCount r)
    (VolCreateReq.MaxBrickSize r) p
    (VolCreateReq.SnapshotReserveFactor r) (VolCreateReq.SubvolZonesOverlap r)
    (VolCreateReq.SubvolType r) (VolCreateReq.Subvols r).

Definition withZonesOverlap (o : bool) (r : VolCreateReq.t) :=
  VolCreateReq.mk (VolCreateReq.Name r) (VolCreateReq.Size r)
    (VolCreateReq.ReplicaCount r) (VolCreateReq.ArbiterCount r)
    (VolCreateReq.DisperseCount r) (VolCreateReq.DisperseDataCount r)
    (VolCreateReq.DisperseRedundancyCount r) (VolCreateReq.DistributeCount r)
    (VolCreateReq.MaxBrickSize r) (VolCreateReq.ProvisionerType r)
    (VolCreateReq.SnapshotReserveFactor r) o
    (VolCreateReq.SubvolType r) (VolCreateReq.Subvols r).

(** A fresh device with [avail] bytes free. *)
Definition device (peer name zone : string) (avail : Z) : Vg.t :=
  {| Vg.PeerID := peer; Vg.Name := name; Vg.Zone := zone;
     Vg.Device := "/dev/" +:+ name; Vg.AvailableSize := avail;
     Vg.Used := false |}.

(** Three devices of 200 GiB in three zones. *)
Definition threeZones : list Vg.t :=
  [device "peer1" "vg1" "zone1" (200 * GiB);
   device "peer2" "vg2" "zone2" (200 * GiB);
   device "peer3" "vg3" "zone3" (200 * GiB)].

(** Two devices of 200 GiB in one zone. *)
Definition oneZone : list Vg.t :=
  [device "peer1" "vg1" "zone1" (200 * GiB);
   device "peer2" "vg2" "zone1" (200 * GiB)].

(** One large device and two small ones, in three zones. *)
Definition oneLargeTwoSmall : list Vg.t :=
  [device "peer1" "vg1" "zone1" (200 * GiB);
   device "peer2" "vg2" "zone2" (30 * GiB);
   device "peer3" "vg3" "zone3" (30 * GiB)].

(** Requests: three replicas of 100 GiB; four replicas, which the
    resolver refuses; an arbiter count of 2 without replicas; a
    disperse count of 6; 1 TiB on loop-back bricks of at most
    100 GiB; 200 GiB over two subvolumes, with and without zone
    overlap; two replicas and an arbiter; 700 GiB on one brick;
    50 GiB on a loop-back brick without a maximum brick size. *)
Definition replicated : VolCreateReq.t :=
  withReplica 3 0 (request "vol" (100 * GiB)).
Definition overReplicated : VolCreateReq.t :=
  withReplica 4 0 (request "vol" (100 * GiB)).
Definition arbiterWithoutReplica : VolCreateReq.t :=
  withReplica 1 2 (request "vol" (100 * GiB)).
Definition dispersed : VolCreateReq.t :=
  VolCreateReq.set_DisperseCount 6 (request "vol" (400 * GiB)).
Definition loopTiB : VolCreateReq.t :=
  VolCreateReq.set_MaxBrickSize (100 * GiB)
    (withProvisioner "loop" (request "vol" (1024 * GiB))).
Definition twoSubvols : VolCreateReq.t :=
  VolCreateReq.set_DistributeCount 2 (request "vol" (200 * GiB)).
Definition twoSubvolsOverlap : VolCreateReq.t :=
  withZonesOverlap true twoSubvols.
Definition withArbiter : VolCreateReq.t :=
  withReplica 2 1 (request "vol" (100 * GiB)).
Definition oversized : VolCreateReq.t := request "vol" (700 * GiB).
Definition loopUnset : VolCreateReq.t :=
  withProvisioner "loop" (request "vol" (50 * GiB)).

(** One device of 150 GiB. *)
Definition oneDevice : list Vg.t :=
  [device "peer1" "vg1" "zone1" (150 * GiB)].

(** The reference backend over an inventory of device values. *)
Definition collaboratorsByValue (inventory : error + list Vg.t)
    : Collaborators :=
  {| GetRedundancy := redundancy;
     NormalizeSize := normalize;
     GetPoolMetadataSize := poolMetadataSize;
     reserveSize := λ size _, size;
     bricksMountRoot := "/var/run/glusterd2/bricks";
     subvolPlanners := Strategies.table;
     GetAvailableVgs := λ _, inventory;
     vgsByPointer := false |}.

(** A strategy outside the spec, for comparison: it adds the arbiter
    bricks to the replicas and sizes them at a quarter. *)
Definition replicateWithArbiter (req : VolCreateReq.t) (subvolSize : Z)
    : SubvolPlanner :=
  {| BricksCount := VolCreateReq.ReplicaCount req + VolCreateReq.ArbiterCount req;
     BrickSize := λ j,
       if j <? VolCreateReq.ReplicaCount req
       then subvolSize else subvolSize / 4;
     BrickType := λ j,
       if j <? VolCreateReq.ReplicaCount req then "brick" else "arbiter" |}.

Definition collaboratorsWithArbiter (inventory : error + list Vg.t)
    : Collaborators :=
  {| GetRedundancy := redundancy;
     NormalizeSize := normalize;
     GetPoolMetadataSize := poolMetadataSize;
     reserveSize := λ size _, size;
     bricksMountRoot := "/var/run/glusterd2/bricks";
     subvolPlanners := {[ "replicate" := replicateWithArbiter ]};
     GetAvailableVgs := λ _, inventory;
     vgsByPointer := true |}.
End Reference.


(** ** Vocabulary of the further properties *)

Section FurtherVocabulary.
Context `{Collaborators}.
Import VolCreateReq.

(** The subvolume type that the topology rules arrive at: disperse
    when a disperse count is given, else replicate for 2 or 3
    replicas, else distribute. *)
Definition resolvedType (req : t) : string :=
  if decide (triggersDisperse req) then "disperse"
  else if decide (2 ≤ ReplicaCount req ≤ 3) then "replicate"
  else "distribute".

(** The table knows the three subvolume types of the resolver. *)
Definition knowsResolverTypes : Prop :=
  is_Some (subvolPlanners !! "distribute")
  ∧ is_Some (subvolPlanners !! "replicate")
  ∧ is_Some (subvolPlanners !! "disperse").

(** The string is made of decimal digits. *)
Fixpoint allDigits (s : string) : bool :=
  match s with
  | EmptyString => true
  | String c s' =>
      (Nat.leb 48 (Ascii.nat_of_ascii c) && Nat.leb (Ascii.nat_of_ascii c) 57)
      && allDigits s'
  end.

(** The fields of a brick that the layout fixes: all but the four
    placement fields. *)
Definition sameSpec (a b : BrickReq.t) : Prop :=
  BrickReq.Type_ a = BrickReq.Type_ b
  ∧ BrickReq.Path a = BrickReq.Path b
  ∧ BrickReq.BrickDirSuffix a = BrickReq.BrickDirSuffix b
  ∧ BrickReq.TpName a = BrickReq.TpName b
  ∧ BrickReq.LvName a = BrickReq.LvName b
  ∧ BrickReq.Size a = BrickReq.Size b
  ∧ BrickReq.TpSize a = BrickReq.TpSize b
  ∧ BrickReq.TpMetadataSize a = BrickReq.TpMetadataSize b
  ∧ BrickReq.TotalSize a = BrickReq.TotalSize b
  ∧ BrickReq.FsType a = BrickReq.FsType b
  ∧ BrickReq.MntOpts a = BrickReq.MntOpts b.

(** Two subvolumes that differ in the placement of their bricks only. *)
Definition sameShape (a b : SubvolReq.t) : Prop :=
  SubvolReq.Type_ a = SubvolReq.Type_ b
  ∧ SubvolReq.ReplicaCount a = SubvolReq.ReplicaCount b
  ∧ SubvolReq.ArbiterCount a = SubvolReq.ArbiterCount b
  ∧ SubvolReq.DisperseCount a = SubvolReq.DisperseCount b
  ∧ Forall2 sameSpec (SubvolReq.Bricks a) (SubvolReq.Bricks b).

(** The device path of a brick in terms of its own fields. *)
Definition pathOnDevice (req : t) (b : BrickReq.t) : string :=
  if String.eqb (ProvisionerType req) ProvisionerTypeLoop
  then BrickReq.RootDevice b +:+ "/" +:+ BrickReq.TpName b +:+ "/"
         +:+ BrickReq.LvName b +:+ ".img"
  else "/dev/" +:+ BrickReq.VgName b +:+ "/" +:+ BrickReq.LvName b.

(** The zones of the inventory. *)
Definition zonesOf (vgs : list Vg.t) : gset string :=
  list_to_set (Vg.Zone <$> vgs).

(** The brick is placed on the device at index [k] of the inventory;
    an unplaced brick has no device path. *)
Definition onDevice (inv : list Vg.t) (b : BrickReq.t) (od : option nat)
    : Prop :=
  match od with
  | Some k =>
      ∃ vg, inv !! k = Some vg
        ∧ BrickReq.PeerID b = Vg.PeerID vg
        ∧ BrickReq.VgName b = Vg.Name vg
        ∧ BrickReq.RootDevice b = Vg.Device vg
        ∧ BrickReq.DevicePath b ≠ ""
  | None => BrickReq.DevicePath b = ""
  end.

(** The space that the bricks [bs], placed on the devices [ds], take
    from the device at index [k]. *)
Definition load (k : nat) (bs : list BrickReq.t) (ds : list (option nat))
    : Z :=
  foldr Z.add 0
    (zip_with (λ b d, if decide (d = Some k) then BrickReq.TotalSize b else 0)
       bs ds).

(** The invariant of the allocation: what a device has given up covers
    the bricks placed on it, those of the subvolumes before ([used])
    and those of the subvolume at hand. *)
Definition capInv (inv : list Vg.t) (used : nat → Z) (st : AllocState)
    (ds : list (option nat)) : Prop :=
  inventorySized (availableVgs st)
  ∧ Forall2 sameDevice inv (availableVgs st)
  ∧ Forall (λ b, 0 ≤ BrickReq.TotalSize b) (bricks st)
  ∧ Forall2 (onDevice inv) (bricks st) ds
  ∧ ∀ k vg0 vg, inv !! k = Some vg0 → availableVgs st !! k = Some vg →
      Vg.AvailableSize vg + used k + load k (bricks st) ds
      ≤ Vg.AvailableSize vg0.

(** Zone [z] has an unused device with room for the brick. *)
Definition freshRoom (inv : list Vg.t) (b : BrickReq.t) (z : string) : Prop :=
  ∃ k vg, inv !! k = Some vg ∧ Vg.Zone vg = z ∧ Vg.Used vg = false
    ∧ BrickReq.TotalSize b ≤ Vg.AvailableSize vg.

(** The devices of the inventory outside the zones [zs] are in the
    working copy [vgs] as the inventory has them. *)
Definition untouched (inv : list Vg.t) (zs : gset string) (vgs : list Vg.t)
    : Prop :=
  ∀ k vg, inv !! k = Some vg → Vg.Zone vg ∉ zs → vgs !! k = Some vg.

End FurtherVocabulary.

(** ** Further requests for the reference backend *)

Module Samples.
Import Reference.

(** 400 GiB dispersed over 4 data and 2 redundancy bricks, both counts
    given. *)
Definition dispersedByCounts : VolCreateReq.t :=
  VolCreateReq.set_DisperseRedundancyCount 2
    (VolCreateReq.set_DisperseDataCount 4 (request "vol" (400 * GiB))).

(** A redundancy count of 2^62 + 1 and no other disperse count. *)
Definition hugeRedundancy : VolCreateReq.t :=
  VolCreateReq.set_DisperseRedundancyCount (2 ^ 62 + 1)
    (request "vol" (100 * GiB)).

(** 8 GiB on bricks of at most 4 GiB, dispersed over 2^32 + 1 data
    bricks and one redundancy brick. *)
Definition wrappedCapacity : VolCreateReq.t :=
  VolCreateReq.set_MaxBrickSize (2 ^ 32)
    (VolCreateReq.set_DisperseRedundancyCount 1
       (VolCreateReq.set_DisperseDataCount (2 ^ 32 + 1)
          (request "vol" (2 ^ 33)))).



(** Devices of 150, 120 and 30 GiB in three zones. *)
Definition shrinking : list Vg.t :=
  [device "peer1" "vg1" "zone1" (150 * GiB);
   device "peer2" "vg2" "zone2" (120 * GiB);
   device "peer3" "vg3" "zone3" (30 * GiB)].

(** A data count of 2^32 on bricks of at most 4 GiB. *)
Definition wrapping : VolCreateReq.t :=
  VolCreateReq.set_MaxBrickSize (2 ^ 32)
    (VolCreateReq.set_DisperseRedundancyCount 1
       (VolCreateReq.set_DisperseDataCount (2 ^ 32)
          (request "vol" (2 ^ 33)))).

(** The zones of [threeZones]. *)
Definition zones123 : gset string := {["zone1"; "zone2"; "zone3"]}.

(** The reference backend over [threeZones]; the layout it makes for
    a request, and the request as the layout and as the whole planner
    leave it. *)
Definition backend : Collaborators := collaborators (inr threeZones).

Definition layoutOf (req : VolCreateReq.t) : list SubvolReq.t :=
  match (@getBricksLayout backend req).2 with
  | Ok subvols => subvols
  | _ => []
  end.

Definition resolved (req : VolCreateReq.t) : VolCreateReq.t :=
  (@getBricksLayout backend req).1.

Definition planned (req : VolCreateReq.t) : VolCreateReq.t :=
  (@PlanBricks backend req).1.

End Samples.

(** ** The volume-delete handler *)

(** The handler of [DELETE /volumes/{volname}] and the step function
    it registers (package [volumecommands]). A run of the handler is
    the sequence of its calls that act on the daemon or on the
    client. *)
Module VolDelete.

(** [net/http] status codes. *)
Definition StatusNoContent : Z := 204.
Definition StatusBadRequest : Z := 400.
Definition StatusFailedDependency : Z := 424.
Definition StatusInternalServerError : Z := 500.

(** The fields of [transaction.Step] that the handler sets. *)
Record Step (UUID : Type) := {
  DoFunc : string;
  Nodes : list UUID;
  Skip : bool;
  Sync : bool
}.
Arguments DoFunc {UUID} _.
Arguments Nodes {UUID} _.
Arguments Skip {UUID} _.
Arguments Sync {UUID} _.

(** What the handler and its step function call and the sources at
    hand do not contain:
    - [Volinfo]: [volume.Volinfo], with its field [Name], the test
      [State == volume.VolStarted] ([Started]), the field [SnapList]
      and the methods [IsAutoProvisioned], [IsSnapshotProvisioned] and
      [Nodes] (here [VolNodes]);
    - [GoError]: the values of the interface [error];
    - [TxnCtx]: [transaction.TxnCtx], with [CtxGet c key] for
      [c.Get(key, &volinfo)];
    - [MyUUID]: [gdctx.MyUUID];
    - [NewTxnWithLocks], [GetVolume], [CtxSet] (for [txn.Ctx.Set]) and
      [Do] (for [txn.Do], of the steps assigned to [txn.Steps]): the
      outcome of the call, [None] for a nil error;
    - [ErrToStatusCode]: [restutils.ErrToStatusCode];
    - [DeleteVolume]: [volume.DeleteVolume];
    - [txnCleanBricks]: the other step function of the package. *)
Class Daemon := {
  Volinfo : Type;
  GoError : Type;
  UUID : Type;
  TxnCtx : Type;
  Name : Volinfo → string;
  Started : Volinfo → bool;
  SnapList : Volinfo → list string;
  IsAutoProvisioned : Volinfo → bool;
  IsSnapshotProvisioned : Volinfo → bool;
  VolNodes : Volinfo → list UUID;
  MyUUID : UUID;
  NewTxnWithLocks : string → option GoError;
  GetVolume : string → GoError + Volinfo;
  ErrToStatusCode : GoError → Z * GoError;
  CtxSet : string → Volinfo → option GoError;
  CtxGet : TxnCtx → string → GoError + Volinfo;
  Do : list (Step UUID) → option GoError;
  DeleteVolume : string → option GoError;
  txnCleanBricks : TxnCtx → option GoError
}.

(** The calls of a run, in the order they happen. The body of an HTTP
    error is an error value or a message. *)
Inductive Event `{Daemon} : Type :=
  | StartSpan (name : string)
  | SpanEnd
  | NewTxn (volname : string)
  | TxnDone
  | SendHTTPError (status : Z) (body : GoError + string)
  | SendHTTPResponse (status : Z)
  | SetCtx (key : string) (v : Volinfo)
  | AddAttributes (volname : string)
  | RunTxn (steps : list (Step UUID))
  | LogError (e : GoError)
  | Broadcast (v : Volinfo).

Section Handler.
Context `{Daemon}.

(** [deleteVolume], lines 20-32: the error of the step, and the name
    handed to [volume.DeleteVolume] if it is called. *)
Definition deleteVolume (c : TxnCtx) : option string * option GoError :=
  match CtxGet c "volinfo" with
  | inl err => (None, Some err)
  | inr volinfo => (Some (Name volinfo), DeleteVolume (Name volinfo))
  end.

(** [registerVolDeleteStepFuncs], lines 34-37: the calls of
    [transaction.RegisterStepFunc], as name and step function. *)
Definition registerVolDeleteStepFuncs
    : list (string * (TxnCtx → option GoError)) :=
  [("vol-delete.Store", λ c, (deleteVolume c).2);
   ("vol-delete.CleanBricks", txnCleanBricks)].

(** Lines 72-84: the steps of the transaction. *)
Definition deleteSteps (volinfo : Volinfo) : list (Step UUID) :=
  let bricksAutoProvisioned :=
    IsAutoProvisioned volinfo || IsSnapshotProvisioned volinfo in
  [ {| DoFunc := "vol-delete.CleanBricks";
       Nodes := VolNodes volinfo;
       Skip := negb bricksAutoProvisioned;
       Sync := false |};
    {| DoFunc := "vol-delete.Store";
       Nodes := [MyUUID];
       Skip := false;
       Sync := true |} ].

(** Lines 47-52 and 56-60: an error of a collaborator is answered with
    the status that [ErrToStatusCode] gives it. *)
Definition replyError (err : GoError) : list Event :=
  let '(status, err) := ErrToStatusCode err in
  [SendHTTPError status (inl err)].

(** [volumeDeleteHandler], lines 39-109. The two deferred calls run
    when the handler returns, the later one first. *)
Definition volumeDeleteHandler (volname : string) : list Event :=
  (StartSpan "/volumeDeleteHandler" :: NewTxn volname ::
   match NewTxnWithLocks volname with
   | Some err => replyError err
   | None =>
       match GetVolume volname with
       | inl err => replyError err
       | inr volinfo =>
           if Started volinfo then
             [SendHTTPError StatusBadRequest
                (inr "Volume must be in stopped state before deleting.")]
           else if (0 <? length (SnapList volinfo))%nat then
             [SendHTTPError StatusFailedDependency
                (inr ("Cannot delete Volume " +:+ volname +:+ " ,as it has "
                      +:+ itoa (Z.of_nat (length (SnapList volinfo)))
                      +:+ " snapshots."))]
           else
             SetCtx "volinfo" volinfo ::
             match CtxSet "volinfo" volinfo with
             | Some err => [SendHTTPError StatusInternalServerError (inl err)]
             | None =>
                 AddAttributes volname :: RunTxn (deleteSteps volinfo) ::
                 match Do (deleteSteps volinfo) with
                 | Some err =>
                     [LogError err;
                      SendHTTPError StatusInternalServerError (inl err)]
                 | None =>
                     [Broadcast volinfo; SendHTTPResponse StatusNoContent]
                 end
             end
       end ++ [TxnDone]
   end) ++ [SpanEnd].

(** The event answers the request. *)
Definition isReply (e : Event) : bool :=
  match e with
  | SendHTTPError _ _ | SendHTTPResponse _ => true
  | _ => false
  end.

End Handler.

(** A daemon for the runs below: a volume is its name, whether it is
    started, its snapshots, and whether its bricks were provisioned
    automatically; the store holds the volumes [known]; the
    transaction fails with [doError], if given. *)
Definition reference (known : list (string * bool * list string * bool))
    (doError : option string) : Daemon :=
  {| Volinfo := string * bool * list string * bool;
     GoError := string;
     UUID := string;
     TxnCtx := gmap string (string * bool * list string * bool);
     Name := λ v, v.1.1.1;
     Started := λ v, v.1.1.2;
     SnapList := λ v, v.1.2;
     IsAutoProvisioned := λ v, v.2;
     IsSnapshotProvisioned := λ _, false;
     VolNodes := λ _, ["peer1"; "peer2"];
     MyUUID := "peer1";
     NewTxnWithLocks := λ _, None;
     GetVolume := λ volname,
       match list_find (λ v, v.1.1.1 = volname) known with
       | Some (_, v) => inr v
       | None => inl "volume not found"
       end;
     ErrToStatusCode := λ err, (404, err);
     CtxSet := λ _ _, None;
     CtxGet := λ c key,
       match c !! key with
       | Some v => inr v
       | None => inl "key not found"
       end;
     Do := λ _, doError;
     DeleteVolume := λ _, None;
     txnCleanBricks := λ _, None |}.

Definition stopped : string * bool * list string * bool :=
  ("vol1", false, [], true).

End VolDelete.

(** * Properties *)

(** The monadic plumbing unfolds to plain matches. *)
Ltac unfold_req :=
  unfold when, bind, get, modify, ret, fail, panic in *.

Section ResolverProperties.
Context `{Collaborators}.
Import VolCreateReq.

Lemma wrapInt_id z : isInt z → wrapInt z = z.
Proof.
  unfold isInt, wrapInt. intros Hz.
  rewrite Z.mod_small; lia.
Qed.

Lemma wrapU64_id z : isU64 z → wrapU64 z = z.
Proof. unfold isU64, wrapU64. intros Hz. apply Z.mod_small. lia. Qed.

Lemma wrapU64_range z : isU64 (wrapU64 z).
Proof. unfold isU64, wrapU64. apply Z.mod_pos_bound. lia. Qed.

Lemma wrapInt_range z : isInt (wrapInt z).
Proof.
  unfold isInt, wrapInt.
  pose proof (Z.mod_pos_bound (z + 2 ^ 63) (2 ^ 64)). lia.
Qed.

(** *** The replicate rule *)

Lemma handleReplicaSubvolReq_small req :
  ReplicaCount req < 2 → handleReplicaSubvolReq req = (req, Ok tt).
Proof.
  intros Hr. unfold handleReplicaSubvolReq. unfold_req.
  destruct (Z.ltb_spec (ReplicaCount req) 2); [done | lia].
Qed.

Lemma handleReplicaSubvolReq_large req :
  3 < ReplicaCount req →
  handleReplicaSubvolReq req = (req, Err ErrInvalidReplicaCount).
Proof.
  intros Hr. unfold handleReplicaSubvolReq. unfold_req.
  destruct (Z.ltb_spec (ReplicaCount req) 2); [lia |].
  destruct (Z.ltb_spec 3 (ReplicaCount req)); [done | lia].
Qed.

Lemma handleReplicaSubvolReq_replicate req :
  2 ≤ ReplicaCount req ≤ 3 →
  handleReplicaSubvolReq req =
    (set_SubvolType "replicate" req,
     if 1 <? ArbiterCount req then Err ErrInvalidArbiterCount else Ok tt).
Proof.
  intros Hr. unfold handleReplicaSubvolReq. unfold_req.
  destruct (Z.ltb_spec (ReplicaCount req) 2); [lia |].
  destruct (Z.ltb_spec 3 (ReplicaCount req)); [lia |].
  by destruct (1 <? ArbiterCount req).
Qed.

(** C2 (as amended). The replicate rule of the resolver: a replica
    count below 2 (so also 0 and 1) leaves the request as it is and
    succeeds, whatever the arbiter count; a replica count of 2 or 3
    sets the type to replicate, and then fails with a validation error
    exactly when the arbiter count exceeds 1; a replica count above 3
    fails with a validation error and leaves the type alone. *)
Theorem replica_rule (req : t) :
  (ReplicaCount req < 2 → handleReplicaSubvolReq req = (req, Ok tt))
  ∧ (2 ≤ ReplicaCount req ≤ 3 →
       SubvolType (handleReplicaSubvolReq req).1 = "replicate"
       ∧ (ArbiterCount req ≤ 1 → (handleReplicaSubvolReq req).2 = Ok tt)
       ∧ (1 < ArbiterCount req →
            ∃ e, (handleReplicaSubvolReq req).2 = Err e
                 ∧ kind e = ValidationError))
  ∧ (3 < ReplicaCount req →
       ∃ e, handleReplicaSubvolReq req = (req, Err e)
            ∧ kind e = ValidationError).
Proof.
  split; [apply handleReplicaSubvolReq_small |].
  split.
  - intros Hr. rewrite (handleReplicaSubvolReq_replicate _ Hr). simpl.
    split; [done |]. split; intros Ha.
    + destruct (Z.ltb_spec 1 (ArbiterCount req)); [lia | done].
    + destruct (Z.ltb_spec 1 (ArbiterCount req)); [| lia].
      by exists ErrInvalidArbiterCount.
  - intros Hr. exists ErrInvalidReplicaCount.
    by rewrite (handleReplicaSubvolReq_large _ Hr).
Qed.

(** *** The disperse rule *)

Lemma triggersDisperse_test req :
  triggersDisperse req →
  (DisperseCount req =? 0) && (DisperseDataCount req =? 0)
    && (DisperseRedundancyCount req =? 0) = false.
Proof.
  unfold triggersDisperse. intros Ht.
  apply not_true_is_false. intros Hb.
  apply andb_prop in Hb as [Hb H3]. apply andb_prop in Hb as [H1 H2].
  apply Ht. lia.
Qed.

Lemma handleDisperseSubvolReq_idle req :
  ¬ triggersDisperse req → handleDisperseSubvolReq req = (req, Ok tt).
Proof.
  unfold triggersDisperse. intros Ht.
  unfold handleDisperseSubvolReq. unfold_req.
  assert (DisperseCount req = 0 ∧ DisperseDataCount req = 0
          ∧ DisperseRedundancyCount req = 0) as (-> & -> & ->).
  { destruct (decide (DisperseCount req = 0)),
      (decide (DisperseDataCount req = 0)),
      (decide (DisperseRedundancyCount req = 0)); try done;
    exfalso; apply Ht; tauto. }
  done.
Qed.

(** What the disperse rule leaves behind, case by case. *)
Lemma handleDisperseSubvolReq_cases req req' out :
  triggersDisperse req →
  handleDisperseSubvolReq req = (req', out) →
  SubvolType req' = "disperse"
  ∧ ((out = Err ErrRedundancyRequired
      ∧ 0 < DisperseDataCount req ∧ DisperseRedundancyCount req ≤ 0)
     ∨ ((out = Err ErrInvalidRedundancy
         ∧ DisperseCount req' ≤ wrapInt (2 * DisperseRedundancyCount req')
         ∨ out = Ok tt
           ∧ wrapInt (2 * DisperseRedundancyCount req') < DisperseCount req')
        ∧ DisperseRedundancyCount req' =
            (if DisperseRedundancyCount req <=? 0
             then GetRedundancy (wrapU64 (DisperseCount req'))
             else DisperseRedundancyCount req)
        ∧ DisperseCount req' =
            (if 0 <? DisperseDataCount req
             then wrapInt (DisperseDataCount req + DisperseRedundancyCount req)
             else DisperseCount req)
        ∧ DisperseDataCount req' =
            (if DisperseDataCount req <=? 0
             then wrapInt (DisperseCount req' - DisperseRedundancyCount req')
             else DisperseDataCount req))).
Proof.
  intros Ht. unfold handleDisperseSubvolReq. unfold_req.
  rewrite (triggersDisperse_test _ Ht). simpl.
  repeat case_match; intros ?; simplify_eq/=; try (exfalso; lia).
  all: split; [done |].
  all: try (left; repeat split; (done || lia)).
  all: right; repeat split; try done.
  all: try (left; split; [done | lia]).
  all: try (right; split; [done | lia]).
Qed.

Lemma wrapInt_double z : - 2 ^ 62 ≤ z < 2 ^ 62 → wrapInt (2 * z) = 2 * z.
Proof. intros Hz. apply wrapInt_id. unfold isInt. lia. Qed.

(** The resolved redundancy count is the given one, or the default of
    the given disperse count. *)
Lemma handleDisperseSubvolReq_redundancy req req' out :
  triggersDisperse req →
  handleDisperseSubvolReq req = (req', out) →
  out ≠ Err ErrRedundancyRequired →
  DisperseRedundancyCount req' =
    if DisperseRedundancyCount req <=? 0
    then GetRedundancy (wrapU64 (DisperseCount req))
    else DisperseRedundancyCount req.
Proof.
  intros Ht Hrun Hout.
  destruct (handleDisperseSubvolReq_cases _ _ _ Ht Hrun)
    as [_ [[-> _] | (_ & HR & HD & _)]]; [done |].
  rewrite HR. destruct (Z.leb_spec (DisperseRedundancyCount req) 0); [| done].
  rewrite HD. destruct (Z.ltb_spec 0 (DisperseDataCount req)); [| done].
  (* a data count without a redundancy count was refused *)
  exfalso. revert Hrun. unfold handleDisperseSubvolReq. unfold_req.
  rewrite (triggersDisperse_test _ Ht). simpl.
  destruct (Z.ltb_spec 0 (DisperseDataCount req)); [| lia].
  destruct (Z.leb_spec (DisperseRedundancyCount req) 0); [| lia].
  simpl. intros ?. simplify_eq.
Qed.

Lemma handleDisperseSubvolReq_doubles req req' out :
  triggersDisperse req → redundancyInRange req →
  handleDisperseSubvolReq req = (req', out) →
  out ≠ Err ErrRedundancyRequired →
  0 ≤ DisperseRedundancyCount req' < 2 ^ 62.
Proof.
  intros Ht [Hr Hg] Hrun Hout.
  rewrite (handleDisperseSubvolReq_redundancy _ _ _ Ht Hrun Hout).
  destruct (Z.leb_spec (DisperseRedundancyCount req) 0); lia.
Qed.

(** *** The stages of the resolver *)

Lemma bind_Ok {A B} (m : M A) (k : A → M B) req req' b :
  bind m k req = (req', Ok b) →
  ∃ r a, m req = (r, Ok a) ∧ k a r = (req', Ok b).
Proof.
  unfold bind. destruct (m req) as [r [a | e |]]; [eauto | done | done].
Qed.

Lemma handleReplicaSubvolReq_frame req req' out :
  handleReplicaSubvolReq req = (req', out) →
  req' = req ∨ req' = set_SubvolType "replicate" req.
Proof.
  unfold handleReplicaSubvolReq. unfold_req.
  repeat case_match; intros ?; simplify_eq/=; auto.
Qed.

(** The disperse rule writes the type and the three disperse counts. *)
Lemma handleDisperseSubvolReq_frame req req' out :
  handleDisperseSubvolReq req = (req', out) →
  Name req' = Name req ∧ Size req' = Size req
  ∧ ReplicaCount req' = ReplicaCount req
  ∧ ArbiterCount req' = ArbiterCount req
  ∧ DistributeCount req' = DistributeCount req
  ∧ MaxBrickSize req' = MaxBrickSize req
  ∧ ProvisionerType req' = ProvisionerType req
  ∧ SubvolZonesOverlap req' = SubvolZonesOverlap req
  ∧ Subvols req' = Subvols req
  ∧ (¬ triggersDisperse req → SubvolType req' = SubvolType req).
Proof.
  destruct (decide (triggersDisperse req)) as [Ht | Ht].
  - unfold handleDisperseSubvolReq. unfold_req.
    rewrite (triggersDisperse_test _ Ht). simpl.
    repeat case_match; intros ?; simplify_eq/=; by repeat split.
  - rewrite (handleDisperseSubvolReq_idle _ Ht).
    intros ?; simplify_eq. by repeat split.
Qed.

Lemma checkMaxBrickSize_frame req req' out :
  checkMaxBrickSize req = (req', out) →
  req' = req ∨ req' = set_MaxBrickSize defaultMaxLoopBrickSize req.
Proof.
  unfold checkMaxBrickSize. unfold_req.
  repeat case_match; intros ?; simplify_eq/=; auto.
Qed.

Lemma deriveDistributeCount_frame req req' out :
  deriveDistributeCount req = (req', out) →
  req' = req ∨ ∃ n, req' = set_DistributeCount n req.
Proof.
  unfold deriveDistributeCount. unfold_req.
  repeat case_match; intros ?; simplify_eq/=; eauto.
Qed.

Lemma resolveRequest_topology req :
  resolveRequest req =
    match topology req with
    | (r2, Ok _) => bind checkMaxBrickSize (λ _, deriveDistributeCount) r2
    | (r2, Err e) => (r2, Err e)
    | (r2, Panic) => (r2, Panic)
    end.
Proof.
  unfold resolveRequest, topology. unfold bind at 1 2 3 5 6. unfold modify.
  destruct (handleReplicaSubvolReq (set_SubvolType "distribute" req))
    as [r1 [[] | e |]]; done.
Qed.

#[local] Instance sameInputs_preorder : PreOrder sameInputs.
Proof.
  split.
  - intros a. by repeat split.
  - intros a b c Hab Hbc. unfold sameInputs in *.
    destruct_and!. repeat split; congruence.
Qed.

Lemma bind_preserves {A B} (R : relation t) `{!PreOrder R}
    (m : M A) (k : A → M B) :
  preserves R m → (∀ a, preserves R (k a)) → preserves R (bind m k).
Proof.
  intros Hm Hk r r' out. unfold bind.
  destruct (m r) as [r1 o] eqn:Em. specialize (Hm _ _ _ Em).
  destruct o as [a | e |]; intros Hrun.
  - etrans; [done |]. by eapply Hk.
  - by simplify_eq.
  - by simplify_eq.
Qed.

Lemma topology_sameInputs req r out :
  topology req = (r, out) → sameInputs req r.
Proof.
  unfold topology. revert req r out.
  apply bind_preserves; [apply _ | |].
  - intros r r' out. unfold modify. intros ?; simplify_eq. by repeat split.
  - intros _. apply bind_preserves; [apply _ | |].
    + intros r r' out Hrun.
      destruct (handleReplicaSubvolReq_frame _ _ _ Hrun) as [-> | ->];
        by repeat split.
    + intros _ r r' out Hrun.
      pose proof (handleDisperseSubvolReq_frame _ _ _ Hrun) as Hf.
      unfold sameInputs. destruct_and!. repeat split; try done.
      revert Hrun. unfold handleDisperseSubvolReq. unfold_req.
      repeat case_match; intros ?; by simplify_eq/=.
Qed.

Lemma resolveRequest_sameInputs req r out :
  resolveRequest req = (r, out) → sameInputs req r.
Proof.
  rewrite resolveRequest_topology.
  destruct (topology req) as [r2 o] eqn:Et.
  pose proof (topology_sameInputs _ _ _ Et) as H2.
  destruct o as [[] | e |]; [| by intros ?; simplify_eq ..].
  intros Hrun. etrans; [done |]. revert Hrun. clear. revert r2 r out.
  apply bind_preserves; [apply _ | |].
  - intros r r' out Hrun.
    destruct (checkMaxBrickSize_frame _ _ _ Hrun) as [-> | ->];
      by repeat split.
  - intros _ r r' out Hrun.
    destruct (deriveDistributeCount_frame _ _ _ Hrun) as [-> | [n ->]];
      by repeat split.
Qed.

(** The disperse counts are final once the topology rules have run. *)
Lemma resolveRequest_counts req r r2 :
  topology req = (r2, Ok tt) →
  resolveRequest req = (r, Ok tt) →
  SubvolType r = SubvolType r2
  ∧ DisperseCount r = DisperseCount r2
  ∧ DisperseDataCount r = DisperseDataCount r2
  ∧ DisperseRedundancyCount r = DisperseRedundancyCount r2.
Proof.
  intros Ht. rewrite resolveRequest_topology, Ht.
  intros (r3 & [] & H3 & H4)%bind_Ok.
  destruct (checkMaxBrickSize_frame _ _ _ H3) as [-> | ->];
    destruct (deriveDistributeCount_frame _ _ _ H4) as [-> | [n ->]];
    by repeat split.
Qed.

(** *** [PlanBricks] stage by stage *)

Lemma getBricksLayout_unfold req :
  getBricksLayout req =
    match resolveRequest req with
    | (r, Ok _) => (r, buildLayout r)
    | (r, Err e) => (r, Err e)
    | (r, Panic) => (r, Panic)
    end.
Proof.
  unfold getBricksLayout, bind at 1.
  destruct (resolveRequest req) as [r [[] | e |]]; done.
Qed.

Lemma PlanBricks_unfold req :
  PlanBricks req =
    match GetAvailableVgs req with
    | inl err => (req, Err err)
    | inr vgs =>
        if decide (length vgs = 0%nat) then (req, Err ErrNoDevices)
        else
          match resolveRequest req with
          | (r, Ok _) =>
              match buildLayout r with
              | Ok subvols =>
                  match planSubvols r vgs ∅ subvols with
                  | None => (r, Err ErrNoSpace)
                  | Some (subvols', _, _) => (set_Subvols subvols' r, Ok tt)
                  end
              | Err e => (r, Err e)
              | Panic => (r, Panic)
              end
          | (r, Err e) => (r, Err e)
          | (r, Panic) => (r, Panic)
          end
    end.
Proof.
  unfold PlanBricks. unfold bind at 1. unfold get.
  destruct (GetAvailableVgs req) as [err | vgs]; [done |].
  destruct (decide (length vgs = 0%nat)); [done |].
  unfold bind at 1. rewrite getBricksLayout_unfold.
  destruct (resolveRequest req) as [r [[] | e |]]; try done.
  destruct (buildLayout r) as [subvols | e |]; try done.
  unfold bind, get.
  destruct (planSubvols r vgs ∅ subvols) as [[[svs' vgs'] zs'] |]; done.
Qed.

(** A successful call went through every stage. *)
Lemma PlanBricks_Ok req req' :
  PlanBricks req = (req', Ok tt) →
  ∃ vgs r subvols subvols' vgs' zones',
    GetAvailableVgs req = inr vgs ∧ vgs ≠ []
    ∧ resolveRequest req = (r, Ok tt)
    ∧ buildLayout r = Ok subvols
    ∧ planSubvols r vgs ∅ subvols = Some (subvols', vgs', zones')
    ∧ req' = set_Subvols subvols' r.
Proof.
  rewrite PlanBricks_unfold.
  destruct (GetAvailableVgs req) as [err | vgs]; [done |].
  destruct (decide (length vgs = 0%nat)) as [| Hlen]; [done |].
  destruct (resolveRequest req) as [r [[] | e |]] eqn:Er; try done.
  destruct (buildLayout r) as [subvols | e |] eqn:Eb; try done.
  destruct (planSubvols r vgs ∅ subvols) as [[[svs' vgs'] zs'] |] eqn:Ep;
    [| done].
  intros ?; simplify_eq. exists vgs, r, subvols, svs', vgs', zs'.
  split; [done |]. split; [by intros -> |]. done.
Qed.

(** A call that does not succeed leaves the subvolumes of the request
    as they were. *)
Lemma PlanBricks_failure_Subvols req req' out :
  PlanBricks req = (req', out) → out ≠ Ok tt →
  Subvols req' = Subvols req.
Proof.
  rewrite PlanBricks_unfold. intros Hrun Hout.
  destruct (GetAvailableVgs req) as [err | vgs]; [by simplify_eq |].
  destruct (decide (length vgs = 0%nat)); [by simplify_eq |].
  destruct (resolveRequest req) as [r o] eqn:Er.
  pose proof (resolveRequest_sameInputs _ _ _ Er) as Hs.
  assert (Subvols r = Subvols req) as Hr.
  { unfold sameInputs in Hs. by destruct_and!. }
  destruct o as [[] | e |]; [| by simplify_eq ..].
  destruct (buildLayout r) as [subvols | e |]; [| by simplify_eq ..].
  destruct (planSubvols r vgs ∅ subvols) as [[[svs' vgs'] zs'] |];
    by simplify_eq.
Qed.

(** C9. The inventory comes first: with an empty inventory the call
    returns the capacity error about missing devices and leaves the
    request untouched, whatever the request asks for; in particular no
    validation error is ever returned then, even for a request the
    resolver would refuse. *)
Theorem PlanBricks_inventory_first (req : t) :
  GetAvailableVgs req = inr [] →
  PlanBricks req = (req, Err ErrNoDevices)
  ∧ kind ErrNoDevices = CapacityError
  ∧ ∀ req' e, PlanBricks req = (req', Err e) → kind e ≠ ValidationError.
Proof.
  intros Hinv.
  assert (PlanBricks req = (req, Err ErrNoDevices)) as Hrun.
  { rewrite PlanBricks_unfold, Hinv. done. }
  split; [done |]. split; [done |].
  intros req' e. rewrite Hrun. intros ?; by simplify_eq.
Qed.

(** C4. The disperse rule on a request that triggers it, with a
    redundancy count that can be doubled within [int]: the rule either
    succeeds or fails with a validation error; when it succeeds the
    resolved counts satisfy 2 * redundancy < disperse count, and when
    they do not it fails with the error about the redundancy count.
    The same bound holds of the request that a successful [PlanBricks]
    leaves behind. *)
Theorem disperse_redundancy_bound (req : t) :
  triggersDisperse req →
  redundancyInRange req →
  (∀ req' out, handleDisperseSubvolReq req = (req', out) →
     (out = Ok tt
      ∧ 2 * DisperseRedundancyCount req' < DisperseCount req')
     ∨ (out = Err ErrInvalidRedundancy
        ∧ DisperseCount req' ≤ 2 * DisperseRedundancyCount req')
     ∨ out = Err ErrRedundancyRequired)
  ∧ kind ErrInvalidRedundancy = ValidationError
  ∧ kind ErrRedundancyRequired = ValidationError
  ∧ (∀ req', PlanBricks req = (req', Ok tt) →
       2 * DisperseRedundancyCount req' < DisperseCount req').
Proof.
  intros Ht Hrange.
  assert (∀ r req' out,
    DisperseCount r = DisperseCount req →
    DisperseDataCount r = DisperseDataCount req →
    DisperseRedundancyCount r = DisperseRedundancyCount req →
    handleDisperseSubvolReq r = (req', out) →
    (out = Ok tt
      ∧ 2 * DisperseRedundancyCount req' < DisperseCount req')
     ∨ (out = Err ErrInvalidRedundancy
        ∧ DisperseCount req' ≤ 2 * DisperseRedundancyCount req')
     ∨ out = Err ErrRedundancyRequired) as Hrule.
  { intros r req' out HD HDd HR Hrun.
    assert (triggersDisperse r) as Ht'.
    { unfold triggersDisperse in *. by rewrite HD, HDd, HR. }
    assert (redundancyInRange r) as Hrange'.
    { unfold redundancyInRange in *. by rewrite HD, HR. }
    pose proof (handleDisperseSubvolReq_doubles _ _ _ Ht' Hrange' Hrun)
      as Hdbl.
    destruct (handleDisperseSubvolReq_cases _ _ _ Ht' Hrun)
      as [_ [[-> _] | ([[-> Hc] | [-> Hc]] & _)]]; [auto | |].
    - right; left. split; [done |].
      specialize (Hdbl ltac:(done)). rewrite wrapInt_double in Hc; lia.
    - left. split; [done |].
      specialize (Hdbl ltac:(done)). rewrite wrapInt_double in Hc; lia. }
  split; [| split; [done | split; [done |]]].
  - intros req' out. by apply Hrule.
  - intros req' (vgs & r & svs & svs' & vgs' & zs' & _ & _ & Hres & _ & _ & ->)
      %PlanBricks_Ok.
    change (2 * DisperseRedundancyCount r < DisperseCount r).
    destruct (topology req) as [r2 o] eqn:Et.
    assert (o = Ok tt) as ->.
    { revert Hres. rewrite resolveRequest_topology, Et.
      destruct o as [[] | |]; [done | by intros | by intros]. }
    destruct (resolveRequest_counts _ _ _ Et Hres) as (_ & -> & _ & ->).
    revert Et. unfold topology.
    intros (r0 & [] & H0 & (r1 & [] & H1 & H2)%bind_Ok)%bind_Ok.
    unfold modify in H0. simplify_eq.
    assert (DisperseCount r1 = DisperseCount req
            ∧ DisperseDataCount r1 = DisperseDataCount req
            ∧ DisperseRedundancyCount r1 = DisperseRedundancyCount req)
      as (HD & HDd & HR).
    { destruct (handleReplicaSubvolReq_frame _ _ _ H1) as [-> | ->]; done. }
    destruct (Hrule _ _ _ HD HDd HR H2) as [[_ ?] | [[? _] | ?]]; done.
Qed.

(** *** The bounds of the maximum brick size *)

Lemma topology_limits req r2 out :
  topology req = (r2, out) →
  MaxBrickSize r2 = MaxBrickSize req
  ∧ DistributeCount r2 = DistributeCount req.
Proof.
  unfold topology. unfold bind at 1. unfold modify.
  unfold bind.
  destruct (handleReplicaSubvolReq (set_SubvolType "distribute" req))
    as [r1 o] eqn:E1.
  assert (MaxBrickSize r1 = MaxBrickSize req
          ∧ DistributeCount r1 = DistributeCount req) as [HM HD].
  { destruct (handleReplicaSubvolReq_frame _ _ _ E1) as [-> | ->]; done. }
  destruct o as [[] | e |]; [| by intros ?; simplify_eq ..].
  intros Hrun. pose proof (handleDisperseSubvolReq_frame _ _ _ Hrun).
  destruct_and!. split; congruence.
Qed.

Lemma checkMaxBrickSize_spec req :
  checkMaxBrickSize req =
    if decide (0 < MaxBrickSize req < minBrickSize)
    then (req, Err ErrMaxBrickSizeTooSmall)
    else if decide (ProvisionerType req = ProvisionerTypeLoop)
    then
      if decide (defaultMaxLoopBrickSize < MaxBrickSize req)
      then (req, Err ErrMaxLoopBrickSize)
      else if decide (MaxBrickSize req = 0)
      then (set_MaxBrickSize defaultMaxLoopBrickSize req, Ok tt)
      else (req, Ok tt)
    else (req, Ok tt).
Proof.
  unfold checkMaxBrickSize. unfold_req.
  destruct (Z.ltb_spec 0 (MaxBrickSize req)),
    (Z.ltb_spec (MaxBrickSize req) minBrickSize); simpl;
    repeat case_decide; try lia; try done;
    destruct (String.eqb_spec (ProvisionerType req) ProvisionerTypeLoop);
    try done;
    destruct (Z.ltb_spec defaultMaxLoopBrickSize (MaxBrickSize req));
    try lia; try done;
    destruct (Z.eqb_spec (MaxBrickSize req) 0); try lia; done.
Qed.

(** The layout of a resolved request fails in two ways only. *)
Lemma result_mapM_Err {A B} (f : A → result B) (l : list A) e :
  result_mapM f l = Err e → ∃ x, x ∈ l ∧ f x = Err e.
Proof.
  induction l as [| x l IH]; simpl; [done |].
  destruct (f x) as [y | e' |] eqn:Ex; simpl.
  - destruct (result_mapM f l) as [ys | e' |]; simpl; try done.
    intros ?; simplify_eq. destruct IH as (x' & ? & ?); [done |].
    exists x'. split; [by right | done].
  - intros ?; simplify_eq. exists x. split; [by left | done].
  - done.
Qed.

Lemma makeBrick_Err req p i j e :
  makeBrick req p i j = Err e → e = ErrBrickTooSmall.
Proof.
  unfold makeBrick. case_match; intros ?; by simplify_eq.
Qed.

Lemma makeSubvol_Err req p i e :
  makeSubvol req p i = Err e → e = ErrBrickTooSmall.
Proof.
  unfold makeSubvol.
  destruct (result_mapM _ _) as [bs | e' |] eqn:Em; simpl; try done.
  intros ?; simplify_eq.
  apply result_mapM_Err in Em as (j & _ & Hj). by eapply makeBrick_Err.
Qed.

Lemma buildLayout_Err r e :
  buildLayout r = Err e →
  e = ErrSubvolTypeNotSupported ∨ e = ErrBrickTooSmall.
Proof.
  unfold buildLayout. destruct (subvolPlanners !! SubvolType r) as [init |].
  - intros (i & _ & Hi)%result_mapM_Err. right. by eapply makeSubvol_Err.
  - intros ?; simplify_eq. by left.
Qed.

Lemma deriveDistributeCount_Err req req' e :
  deriveDistributeCount req = (req', Err e) → False.
Proof.
  unfold deriveDistributeCount. unfold_req.
  repeat case_match; intros ?; simplify_eq/=.
Qed.

(** C8. The bounds of the maximum brick size, for a request that
    passes the topology rules: a maximum that is set but below the
    minimum brick size is refused with a validation error; for the
    loop-back provisioner a maximum above the cap of 100 GiB is refused
    with a validation error and an unset maximum becomes 100 GiB; for
    any other provisioner the maximum stays as given, the cap error
    never occurs, and a maximum that is unset or at least the minimum
    brick size gives no validation error at all. *)
Theorem max_brick_size_rule (req r2 : t) :
  topology req = (r2, Ok tt) →
  (0 < MaxBrickSize req < minBrickSize →
     getBricksLayout req = (r2, Err ErrMaxBrickSizeTooSmall))
  ∧ (ProvisionerType req = ProvisionerTypeLoop →
       defaultMaxLoopBrickSize < MaxBrickSize req →
       getBricksLayout req = (r2, Err ErrMaxLoopBrickSize))
  ∧ (ProvisionerType req = ProvisionerTypeLoop →
       MaxBrickSize req = 0 →
       MaxBrickSize (getBricksLayout req).1 = defaultMaxLoopBrickSize)
  ∧ (ProvisionerType req ≠ ProvisionerTypeLoop →
       MaxBrickSize (getBricksLayout req).1 = MaxBrickSize req
       ∧ (getBricksLayout req).2 ≠ Err ErrMaxLoopBrickSize
       ∧ (¬ 0 < MaxBrickSize req < minBrickSize →
            ∀ e, (getBricksLayout req).2 = Err e → kind e ≠ ValidationError))
  ∧ kind ErrMaxBrickSizeTooSmall = ValidationError
  ∧ kind ErrMaxLoopBrickSize = ValidationError
  ∧ defaultMaxLoopBrickSize = 100 * 2 ^ 30.
Proof.
  intros Ht.
  destruct (topology_limits _ _ _ Ht) as [HM _].
  pose proof (topology_sameInputs _ _ _ Ht) as Hs.
  assert (ProvisionerType r2 = ProvisionerType req) as HP.
  { unfold sameInputs in Hs. by destruct_and!. }
  assert (getBricksLayout req =
    match checkMaxBrickSize r2 with
    | (r3, Ok _) =>
        match deriveDistributeCount r3 with
        | (r, Ok _) => (r, buildLayout r)
        | (r, Err e) => (r, Err e)
        | (r, Panic) => (r, Panic)
        end
    | (r3, Err e) => (r3, Err e)
    | (r3, Panic) => (r3, Panic)
    end) as ->.
  { rewrite getBricksLayout_unfold, resolveRequest_topology, Ht.
    unfold bind. by destruct (checkMaxBrickSize r2) as [r3 [[] | e |]]. }
  rewrite checkMaxBrickSize_spec, HM, HP.
  assert (0 < minBrickSize ≤ defaultMaxLoopBrickSize) as Hc by (by compute).
  split; [| split; [| split; [| split; [| by compute]]]].
  - intros Hsmall. by rewrite decide_True.
  - intros Hloop Hbig. rewrite decide_False by lia.
    rewrite decide_True by done. by rewrite decide_True.
  - intros Hloop Hz. rewrite decide_False by lia.
    rewrite decide_True by done. rewrite decide_False by lia.
    rewrite decide_True by done.
    destruct (deriveDistributeCount _) as [r o] eqn:Ed.
    destruct (deriveDistributeCount_frame _ _ _ Ed) as [-> | [n ->]];
      by destruct o as [[] | |].
  - intros Hnl.
    rewrite (decide_False (P := ProvisionerType req = _)) by done.
    case_decide as Hsmall; [by repeat split |].
    destruct (deriveDistributeCount r2) as [r o] eqn:Ed.
    assert (MaxBrickSize r = MaxBrickSize req) as Hr.
    { destruct (deriveDistributeCount_frame _ _ _ Ed) as [-> | [n ->]];
        done. }
    assert (∀ e, match o with
                 | Ok _ => buildLayout r
                 | Err e => Err e
                 | Panic => Panic
                 end = Err e → kind e ≠ ValidationError) as Hk.
    { intros e. destruct o as [[] | e' |]; [| | done].
      - by intros [-> | ->]%buildLayout_Err.
      - by apply deriveDistributeCount_Err in Ed. }
    split; [by destruct o as [[] | |] |]. split.
    + intros Hcap. destruct o as [[] | |]; by apply Hk in Hcap.
    + intros _ e He. destruct o as [[] | |]; by apply Hk in He.
Qed.

(** *** The distribute count *)

Lemma ceilDiv_least a b :
  0 < b → (ceilDiv a b - 1) * b < a ≤ ceilDiv a b * b.
Proof.
  intros Hb. unfold ceilDiv.
  pose proof (Z.div_mod (a + b - 1) b ltac:(lia)).
  pose proof (Z.mod_pos_bound (a + b - 1) b Hb). nia.
Qed.

Lemma ceilDiv_step a b :
  0 < b →
  ceilDiv a b = if 0 <? a mod b then a / b + 1 else a / b.
Proof.
  intros Hb. unfold ceilDiv.
  pose proof (Z.div_mod a b ltac:(lia)) as Hdm.
  pose proof (Z.mod_pos_bound a b Hb) as Hm.
  destruct (Z.ltb_spec 0 (a mod b)).
  - symmetry. apply (Z.div_unique_pos _ _ _ (a mod b - 1)); lia.
  - symmetry. apply (Z.div_unique_pos _ _ _ (b - 1)); lia.
Qed.

(** After the topology rules the type is disperse exactly when the
    data count is positive. *)
Lemma topology_disperse req r2 :
  wf req → redundancyInRange req →
  topology req = (r2, Ok tt) →
  (SubvolType r2 = "disperse" ↔ 0 < DisperseDataCount r2)
  ∧ isInt (DisperseDataCount r2).
Proof.
  intros Hwf Hrange. unfold topology.
  intros (r0 & [] & H0 & (r1 & [] & H1 & H2)%bind_Ok)%bind_Ok.
  unfold modify in H0. simplify_eq.
  assert (DisperseCount r1 = DisperseCount req
          ∧ DisperseDataCount r1 = DisperseDataCount req
          ∧ DisperseRedundancyCount r1 = DisperseRedundancyCount req
          ∧ SubvolType r1 ≠ "disperse")
    as (HD & HDd & HR & HT).
  { destruct (handleReplicaSubvolReq_frame _ _ _ H1) as [-> | ->]; done. }
  destruct (decide (triggersDisperse r1)) as [Ht | Ht].
  - assert (redundancyInRange r1) as Hrange'.
    { unfold redundancyInRange in *. by rewrite HD, HR. }
    pose proof (handleDisperseSubvolReq_doubles _ _ _ Ht Hrange' H2
                  ltac:(done)) as Hdbl.
    destruct (handleDisperseSubvolReq_cases _ _ _ Ht H2)
      as [HT2 [[? _] | ([[? _] | [_ Hc]] & _ & HD2 & HDd2)]]; try done.
    rewrite wrapInt_double in Hc by lia.
    destruct Hwf. rewrite HDd in *. rewrite HD in *.
    destruct (Z.leb_spec (DisperseDataCount req) 0).
    + destruct (Z.ltb_spec 0 (DisperseDataCount req)); [lia |].
      rewrite HDd2. split; [| apply wrapInt_range].
      rewrite wrapInt_id; [split; [lia | done] |].
      unfold isInt in *. lia.
    + rewrite HDd2. split; [by split |]. done.
  - rewrite (handleDisperseSubvolReq_idle _ Ht) in H2. simplify_eq.
    assert (DisperseDataCount r2 = 0) as ->.
    { unfold triggersDisperse in Ht.
      destruct (decide (DisperseDataCount r2 = 0)); [done |].
      exfalso. apply Ht. intros (_ & ? & _). done. }
    split; [split; [done | lia] |]. unfold isInt. lia.
Qed.

(** Planner.go lines 107-121 over the integers, when the capacity of a
    subvolume is positive. *)
Lemma deriveDistributeCount_spec r3 :
  isU64 (Size r3) →
  (0 < MaxBrickSize r3 → minBrickSize ≤ maxSubvolSize r3) →
  deriveDistributeCount r3 =
    (if decide (0 < MaxBrickSize r3 ∧ MaxBrickSize r3 < Size r3)
     then set_DistributeCount (ceilDiv (Size r3) (maxSubvolSize r3)) r3
     else r3, Ok tt).
Proof.
  intros HS Hcap. unfold deriveDistributeCount. unfold_req.
  destruct (Z.ltb_spec 0 (MaxBrickSize r3)) as [HM | HM]; simpl.
  - specialize (Hcap HM).
    assert (minBrickSize = 20971520) as Hmin by done.
    destruct (Z.ltb_spec (MaxBrickSize r3) (Size r3)) as [Hlt | Hlt]; simpl.
    + rewrite decide_True by done.
      destruct (Z.eqb_spec (maxSubvolSize r3) 0); [lia |].
      rewrite ceilDiv_step by lia.
      assert (0 ≤ Size r3 / maxSubvolSize r3 < 2 ^ 63 - 1) as Hq.
      { unfold isU64 in HS. split; [apply Z.div_pos; lia |].
        apply Z.le_lt_trans with (Size r3 / minBrickSize).
        - apply Z.div_le_compat_l; lia.
        - apply Z.div_lt_upper_bound; lia. }
      rewrite (wrapInt_id (Size r3 / _)) by (unfold isInt; lia).
      destruct (0 <? Size r3 mod maxSubvolSize r3); simpl; [| done].
      rewrite wrapInt_id by (unfold isInt; lia). done.
    + rewrite decide_False by lia. done.
  - rewrite decide_False by lia. done.
Qed.

Lemma numSubvols_subvolSize r :
  isU64 (Size r) → isInt (DistributeCount r) →
  numSubvols r = (if decide (0 < DistributeCount r)
                  then DistributeCount r else 1)
  ∧ subvolSize r = Size r / numSubvols r.
Proof.
  intros HS HD. unfold subvolSize, numSubvols.
  destruct (Z.ltb_spec 0 (DistributeCount r)) as [Hpos | Hpos].
  - rewrite decide_True by done. split; [done |].
    destruct (Z.ltb_spec 1 (DistributeCount r)).
    + rewrite wrapU64_id; [done |]. unfold isU64, isInt in *. lia.
    + replace (DistributeCount r) with 1 by lia. by rewrite Z.div_1_r.
  - rewrite decide_False by lia. split; [done |].
    simpl. by rewrite Z.div_1_r.
Qed.

Lemma resolveRequest_stages req r :
  resolveRequest req = (r, Ok tt) →
  ∃ r2 r3, topology req = (r2, Ok tt)
    ∧ checkMaxBrickSize r2 = (r3, Ok tt)
    ∧ deriveDistributeCount r3 = (r, Ok tt).
Proof.
  rewrite resolveRequest_topology.
  destruct (topology req) as [r2 [[] | e |]] eqn:Et; [| done | done].
  intros (r3 & [] & H3 & H4)%bind_Ok. by exists r2, r3.
Qed.

(** The request as it reaches the derivation of the distribute count. *)
Lemma checked_request req r2 r3 :
  wf req → redundancyInRange req →
  topology req = (r2, Ok tt) →
  checkMaxBrickSize r2 = (r3, Ok tt) →
  Size r3 = Size req
  ∧ DistributeCount r3 = DistributeCount req
  ∧ (SubvolType r3 = "disperse" ↔ 0 < DisperseDataCount r3)
  ∧ isInt (DisperseDataCount r3)
  ∧ isU64 (MaxBrickSize r3)
  ∧ (0 < MaxBrickSize r3 → minBrickSize ≤ MaxBrickSize r3).
Proof.
  intros Hwf Hrange Et H3.
  destruct (topology_limits _ _ _ Et) as [HM2 HD2].
  destruct (topology_disperse _ _ Hwf Hrange Et) as [Hdisp Hdata].
  pose proof (topology_sameInputs _ _ _ Et) as Hs.
  assert (Size req = Size r2) as HS by (unfold sameInputs in Hs; tauto).
  assert (isU64 (MaxBrickSize r2)) as HM by (rewrite HM2; by destruct Hwf).
  revert H3. rewrite checkMaxBrickSize_spec.
  repeat case_decide; intros ?; simplify_eq/=;
    (split; [done |]); (split; [done |]); (split; [done |]);
    (split; [done |]); (split; [done || (unfold isU64; by compute) |]);
    first [lia | by compute].
Qed.

Lemma maxSubvolSize_capacity r3 :
  (SubvolType r3 = "disperse" ↔ 0 < DisperseDataCount r3) →
  isInt (DisperseDataCount r3) →
  isU64 (MaxBrickSize r3) →
  subvolCapacity r3 < 2 ^ 64 →
  maxSubvolSize r3 = subvolCapacity r3
  ∧ MaxBrickSize r3 ≤ subvolCapacity r3.
Proof.
  intros Hdisp Hdata HM. unfold maxSubvolSize, subvolCapacity.
  destruct (Z.ltb_spec 0 (DisperseDataCount r3)) as [Hpos | Hpos].
  - rewrite decide_True by (by apply Hdisp). intros Hfit.
    rewrite (wrapU64_id (DisperseDataCount r3))
      by (unfold isU64, isInt in *; lia).
    unfold isU64 in HM. split; [| nia].
    apply wrapU64_id. unfold isU64. split; [nia | done].
  - rewrite decide_False; [done |]. rewrite Hdisp. lia.
Qed.

(** C5. The distribute count of a resolved request (its maximum brick
    size is the given one, or the loop-back default), when the counts
    are within range and the capacity of a subvolume (the maximum brick
    size, times the data count for a disperse volume) fits 64 bits:
    with a maximum brick size set and exceeded by the requested size,
    the distribute count is the ceiling of requested size over
    capacity, otherwise it stays as given; the number of subvolumes is
    the distribute count when that is positive and 1 otherwise; the
    size of a subvolume is the requested size divided by that number,
    the remainder dropped. *)
Theorem distribute_count_rule (req r : t) :
  wf req → redundancyInRange req →
  resolveRequest req = (r, Ok tt) →
  subvolCapacity r < 2 ^ 64 →
  DistributeCount r =
    (if decide (0 < MaxBrickSize r ∧ MaxBrickSize r < Size r)
     then ceilDiv (Size r) (subvolCapacity r)
     else DistributeCount req)
  ∧ numSubvols r =
      (if decide (0 < DistributeCount r) then DistributeCount r else 1)
  ∧ subvolSize r = Size r / numSubvols r
  ∧ Size r = Size req.
Proof.
  intros Hwf Hrange (r2 & r3 & Et & H3 & H4)%resolveRequest_stages Hfit.
  destruct (checked_request _ _ _ Hwf Hrange Et H3)
    as (HS & HD & Hdisp & Hdata & HM & HMmin).
  assert (subvolCapacity r = subvolCapacity r3
          ∧ MaxBrickSize r = MaxBrickSize r3 ∧ Size r = Size r3)
    as (Hcr & HMr & HSr).
  { destruct (deriveDistributeCount_frame _ _ _ H4) as [-> | [n ->]];
      done. }
  rewrite Hcr in Hfit |- *. rewrite HMr, HSr.
  destruct (maxSubvolSize_capacity _ Hdisp Hdata HM Hfit) as [Hcap Hle].
  assert (isU64 (Size r3)) as HS3 by (rewrite HS; by destruct Hwf).
  revert H4. rewrite deriveDistributeCount_spec; [| done | lia].
  rewrite Hcap. intros Hr.
  assert (DistributeCount r =
    if decide (0 < MaxBrickSize r3 ∧ MaxBrickSize r3 < Size r3)
    then ceilDiv (Size r3) (subvolCapacity r3)
    else DistributeCount req) as HDr.
  { case_decide; simplify_eq/=; done. }
  split; [done |].
  assert (isInt (DistributeCount r)) as HDint.
  { rewrite HDr. case_decide as Hc; [| by destruct Hwf].
    assert (minBrickSize = 20971520) as Hmin by done.
    unfold isInt, ceilDiv, isU64 in *. split.
    - etrans; [| apply Z.div_pos; lia]. done.
    - apply Z.div_lt_upper_bound; [lia |]. nia. }
  rewrite <- HSr.
  destruct (numSubvols_subvolSize r) as [Hn Hv]; [by rewrite HSr | done |].
  repeat split; [done | done | by rewrite HSr].
Qed.

End ResolverProperties.

Section AllocatorProperties.
Context `{Collaborators}.

(** *** One scan of the inventory *)

(** Either the scan finds no device and nothing changes, or the first
    fitting device takes the brick. *)
Lemma tryPlace_cases req fresh st bidx :
  tryPlace req fresh st bidx = st
  ∨ ∃ b k vg,
      bricks st !! bidx = Some b
      ∧ availableVgs st !! k = Some vg
      ∧ fits fresh (zones st) b vg
      ∧ tryPlace req fresh st bidx =
          {| availableVgs := updateVg k (consume b vg) (availableVgs st);
             zones := {[Vg.Zone vg]} ∪ zones st;
             bricks := <[bidx := placeBrick req vg b]> (bricks st);
             numBricksAllocated := S (numBricksAllocated st) |}.
Proof.
  unfold tryPlace. destruct (bricks st !! bidx) as [b |] eqn:Eb; [| by left].
  destruct (list_find _ _) as [[k vg] |] eqn:Ef; [| by left].
  apply list_find_Some in Ef as (Hk & Hfit & _).
  right. by exists b, k, vg.
Qed.



(** Induction along a pass: [P i s] speaks of the state [s] before the
    brick at index [i] is tried. *)
Lemma pass_ind req fresh (P : nat → AllocState → Prop) k m st :
  P k st →
  (∀ i s, (k ≤ i < k + m)%nat → P i s → P (S i) (tryPlace req fresh s i)) →
  P (k + m)%nat (foldl (tryPlace req fresh) st (seq k m)).
Proof.
  revert k st. induction m as [| m IH]; intros k st H0 Hstep; simpl.
  - by rewrite Nat.add_0_r.
  - replace (k + S m)%nat with (S k + m)%nat by lia.
    apply IH.
    + apply Hstep; [lia | done].
    + intros i s Hi. apply Hstep. lia.
Qed.


Lemma updateVg_length k vg' vgs : length (updateVg k vg' vgs) = length vgs.
Proof.
  unfold updateVg. destruct vgsByPointer; [| done]. apply length_insert.
Qed.

(** A pass keeps the number of bricks and of devices. *)
Lemma tryPlace_length req fresh st bidx :
  length (bricks (tryPlace req fresh st bidx)) = length (bricks st)
  ∧ length (availableVgs (tryPlace req fresh st bidx))
    = length (availableVgs st).
Proof.
  destruct (tryPlace_cases req fresh st bidx)
    as [-> | (b & k & vg & _ & _ & _ & ->)]; [done |].
  simpl. by rewrite length_insert, updateVg_length.
Qed.

Lemma pass_length req fresh st k m :
  length (bricks (foldl (tryPlace req fresh) st (seq k m)))
  = length (bricks st).
Proof.
  apply (pass_ind req fresh
    (λ _ s, length (bricks s) = length (bricks st))); [done |].
  intros i s _ <-. apply tryPlace_length.
Qed.

Lemma pass_preserves req fresh (I : AllocState → Prop) st k m :
  (∀ s i, I s → I (tryPlace req fresh s i)) →
  I st → I (foldl (tryPlace req fresh) st (seq k m)).
Proof.
  intros Hstep H0. apply (pass_ind req fresh (λ _, I)); [done |].
  intros i s _. apply Hstep.
Qed.

(** The scan either changes nothing because no device fits, or places
    the brick. *)
Lemma tryPlace_inv req fresh st bidx b :
  bricks st !! bidx = Some b →
  (tryPlace req fresh st bidx = st
   ∧ ∀ vg, vg ∈ availableVgs st → ¬ fits fresh (zones st) b vg)
  ∨ ∃ k vg,
      availableVgs st !! k = Some vg
      ∧ fits fresh (zones st) b vg
      ∧ tryPlace req fresh st bidx =
          {| availableVgs := updateVg k (consume b vg) (availableVgs st);
             zones := {[Vg.Zone vg]} ∪ zones st;
             bricks := <[bidx := placeBrick req vg b]> (bricks st);
             numBricksAllocated := S (numBricksAllocated st) |}.
Proof.
  intros Eb. unfold tryPlace. rewrite Eb.
  destruct (list_find _ _) as [[k vg] |] eqn:Ef.
  - apply list_find_Some in Ef as (Hk & Hfit & _). right. by exists k, vg.
  - left. split; [done |]. apply list_find_None in Ef.
    by rewrite Forall_forall in Ef.
Qed.

(** *** Placement fields *)

Lemma append_nonempty (s1 s2 : string) : s2 ≠ "" → s1 +:+ s2 ≠ "".
Proof. by destruct s1, s2. Qed.

(** A placed brick has a device path, whatever the device is called. *)
Lemma devicePath_nonempty req vg b : devicePath req vg b ≠ "".
Proof. unfold devicePath. case_match; [| done]. by apply append_nonempty. Qed.




(** The total sizes of the bricks are not touched. *)
Lemma tryPlace_TotalSize req fresh st bidx :
  BrickReq.TotalSize <$> bricks (tryPlace req fresh st bidx)
  = BrickReq.TotalSize <$> bricks st.
Proof.
  destruct (tryPlace_cases req fresh st bidx)
    as [-> | (b & k & vg & Hb & _ & _ & ->)]; [done |].
  simpl. rewrite list_fmap_insert. apply list_insert_id.
  by rewrite list_lookup_fmap, Hb.
Qed.

Lemma allTotalSize_fmap T bs :
  allTotalSize T bs ↔ Forall (λ z, z = T) (BrickReq.TotalSize <$> bs).
Proof. unfold allTotalSize. by rewrite Forall_fmap. Qed.

Lemma tryPlace_allTotalSize req fresh T st bidx :
  allTotalSize T (bricks st) →
  allTotalSize T (bricks (tryPlace req fresh st bidx)).
Proof. rewrite !allTotalSize_fmap. by rewrite tryPlace_TotalSize. Qed.





(** *** What the layout hands to the allocator *)

Lemma result_mapM_Ok {A B} (f : A → result B) (l : list A) ys :
  result_mapM f l = Ok ys → Forall2 (λ x y, f x = Ok y) l ys.
Proof.
  revert ys. induction l as [| x l IH]; intros ys; simpl.
  - intros ?; simplify_eq. constructor.
  - destruct (f x) as [y | e |] eqn:Ex; simpl; [| done | done].
    destruct (result_mapM f l) as [ys' | e |]; simpl; [| done | done].
    intros ?; simplify_eq. constructor; [done |]. by apply IH.
Qed.

Lemma makeBrick_Ok req p i j b :
  makeBrick req p i j = Ok b → freshBrick req (BrickSize p j) b.
Proof.
  unfold makeBrick.
  destruct (Z.ltb_spec (BrickSize p j) minBrickSize); [done |].
  intros ?; simplify_eq. by split_and!.
Qed.

(** The layout of a resolved request: its strategy, and bricks that
    the strategy sized. *)
Lemma buildLayout_Ok r subvols :
  buildLayout r = Ok subvols →
  ∃ init, subvolPlanners !! VolCreateReq.SubvolType r = Some init
    ∧ Forall (λ sv,
        Forall (λ b, ∃ j,
          freshBrick r (BrickSize (init r (subvolSize r)) j) b)
          (SubvolReq.Bricks sv)) subvols.
Proof.
  unfold buildLayout.
  destruct (subvolPlanners !! VolCreateReq.SubvolType r) as [init |];
    [| done].
  intros Hm%result_mapM_Ok. exists init. split; [done |].
  apply Forall_forall. intros sv Hsv.
  apply list_elem_of_lookup in Hsv as [n Hn].
  destruct (Forall2_lookup_r _ _ _ _ _ Hm Hn) as (i & _ & Hi).
  revert Hi. unfold makeSubvol.
  destruct (result_mapM _ _) as [bs | e |] eqn:Eb; simpl; [| done | done].
  intros ?; simplify_eq. simpl.
  apply result_mapM_Ok in Eb. apply Forall_forall. intros b Hb.
  apply list_elem_of_lookup in Hb as [m Hb].
  destruct (Forall2_lookup_r _ _ _ _ _ Eb Hb) as (j & _ & Hj).
  exists j. by eapply makeBrick_Ok.
Qed.

Lemma buildLayout_uniform r subvols :
  uniformStrategies →
  buildLayout r = Ok subvols →
  ∃ T, isU64 T
    ∧ Forall (λ sv, allTotalSize T (SubvolReq.Bricks sv)) subvols.
Proof.
  intros Hu (init & Hinit & Hb)%buildLayout_Ok.
  eexists. split; [apply wrapU64_range |].
  eapply Forall_impl; [exact Hb |]. intros sv Hsv. simpl in Hsv.
  unfold allTotalSize. eapply Forall_impl; [exact Hsv |].
  intros b [j (_ & _ & HT & _)]. simpl. rewrite HT.
  by rewrite (Hu _ _ r (subvolSize r) j 0 Hinit).
Qed.

(** The allocator changes the placement fields only: what holds of a
    brick whatever its placement holds after the allocation. *)
Lemma tryPlace_bricks req fresh (Q : BrickReq.t → Prop) st bidx :
  (∀ vg b, Q b → Q (placeBrick req vg b)) →
  Forall Q (bricks st) → Forall Q (bricks (tryPlace req fresh st bidx)).
Proof.
  intros HQ Hall.
  destruct (tryPlace_cases req fresh st bidx)
    as [-> | (b & k & vg & Hb & _ & _ & ->)]; [done |].
  simpl. apply Forall_insert; [done |]. apply HQ.
  by eapply Forall_lookup_1.
Qed.

Lemma planSubvol_bricks req (Q : BrickReq.t → Prop) vgs zones0 sv st :
  (∀ vg b, Q b → Q (placeBrick req vg b)) →
  Forall Q (SubvolReq.Bricks sv) →
  planSubvol req vgs zones0 sv = Some st →
  Forall Q (bricks st).
Proof.
  intros HQ Hall. unfold planSubvol.
  set (st0 := Build_AllocState _ _ _ _).
  assert (Forall Q (bricks (firstPass req st0))) as H1.
  { unfold firstPass. apply (pass_preserves _ _ (λ s, Forall Q (bricks s)));
      [| done]. intros s i. by apply tryPlace_bricks. }
  case_decide; [by intros ?; simplify_eq |].
  case_decide; [| done]. intros ?; simplify_eq.
  unfold secondPass. apply (pass_preserves _ _ (λ s, Forall Q (bricks s)));
    [| done]. intros s i. by apply tryPlace_bricks.
Qed.

Lemma planSubvols_bricks req (Q : BrickReq.t → Prop)
    vgs zones0 subvols subvols' vgs' zones' :
  (∀ vg b, Q b → Q (placeBrick req vg b)) →
  Forall (λ sv, Forall Q (SubvolReq.Bricks sv)) subvols →
  planSubvols req vgs zones0 subvols = Some (subvols', vgs', zones') →
  Forall (λ sv, Forall Q (SubvolReq.Bricks sv)) subvols'.
Proof.
  intros HQ. revert vgs zones0 subvols' vgs' zones'.
  induction subvols as [| sv rest IH];
    intros vgs zones0 subvols' vgs' zones' Hall; simpl.
  - intros ?; simplify_eq. constructor.
  - apply Forall_cons in Hall as [Hsv Hrest].
    destruct (planSubvol req vgs zones0 sv) as [st |] eqn:Esv; [| done].
    destruct (planSubvols req (availableVgs st) (zones st) rest)
      as [[[rest' vgs''] zones''] |] eqn:Erest; [| done].
    intros ?; simplify_eq. constructor.
    + simpl. by eapply planSubvol_bricks.
    + by eapply IH.
Qed.

(** A loop whose body fails in one way only, and does so at least
    once, fails in that way. *)
Lemma result_mapM_fails {A B} (f : A → result B) (l : list A) x e :
  x ∈ l → f x = Err e →
  (∀ y, y ∈ l → f y = Err e ∨ ∃ z, f y = Ok z) →
  result_mapM f l = Err e.
Proof.
  induction l as [| y l IH]; [by intros ?%elem_of_nil |].
  intros Hx Hfx Hall. simpl.
  destruct (Hall y ltac:(by left)) as [Hy | [z Hy]]; rewrite Hy; [done |].
  simpl. apply elem_of_cons in Hx as [-> | Hx]; [congruence |].
  rewrite IH; [done | done | done |].
  intros y' Hy'. apply Hall. by right.
Qed.

Lemma makeBrick_total req p i j :
  makeBrick req p i j = Err ErrBrickTooSmall
  ∨ ∃ b, makeBrick req p i j = Ok b.
Proof. unfold makeBrick. case_match; eauto. Qed.

Lemma makeSubvol_small req p i j :
  0 ≤ j < BricksCount p → BrickSize p j < minBrickSize →
  makeSubvol req p i = Err ErrBrickTooSmall.
Proof.
  intros Hj Hsmall. unfold makeSubvol.
  rewrite (result_mapM_fails _ _ j ErrBrickTooSmall); [done | | |].
  - apply elem_of_seqZ. lia.
  - unfold makeBrick.
    by destruct (Z.ltb_spec (BrickSize p j) minBrickSize); [| lia].
  - intros j' _. apply makeBrick_total.
Qed.

Lemma numSubvols_pos r : 1 ≤ numSubvols r.
Proof. unfold numSubvols. case_match; lia. Qed.

(** *** What the allocator writes *)

Lemma sameSpec_refl b : sameSpec b b.
Proof. by unfold sameSpec. Qed.

Lemma sameSpec_placeBrick req vg b0 b :
  sameSpec b0 b → sameSpec b0 (placeBrick req vg b).
Proof. unfold sameSpec. simpl. done. Qed.

Lemma tryPlace_sameSpec req fresh bs0 st bidx :
  Forall2 sameSpec bs0 (bricks st) →
  Forall2 sameSpec bs0 (bricks (tryPlace req fresh st bidx)).
Proof.
  intros HF.
  destruct (tryPlace_cases req fresh st bidx)
    as [-> | (b & k & vg & Hb & _ & _ & ->)]; [done |].
  simpl.
  destruct (Forall2_lookup_r _ _ _ _ _ HF Hb) as (b0 & Hb0 & Hs).
  rewrite <- (list_insert_id bs0 bidx b0) by done.
  apply Forall2_insert; [done |]. by apply sameSpec_placeBrick.
Qed.

Lemma planSubvol_sameSpec req vgs zones0 sv st :
  planSubvol req vgs zones0 sv = Some st →
  Forall2 sameSpec (SubvolReq.Bricks sv) (bricks st).
Proof.
  unfold planSubvol.
  set (st0 := Build_AllocState _ _ _ _).
  assert (Forall2 sameSpec (SubvolReq.Bricks sv) (bricks (firstPass req st0)))
    as H1.
  { apply (pass_preserves req true
             (λ s, Forall2 sameSpec (SubvolReq.Bricks sv) (bricks s))).
    - intros s i. apply tryPlace_sameSpec.
    - simpl. apply Forall_Forall2_diag, Forall_forall.
      intros b _. apply sameSpec_refl. }
  case_decide; [by intros ?; simplify_eq |].
  case_decide; [| done]. intros ?; simplify_eq.
  apply (pass_preserves req false
           (λ s, Forall2 sameSpec (SubvolReq.Bricks sv) (bricks s)));
    [| done].
  intros s i. apply tryPlace_sameSpec.
Qed.

Lemma planSubvols_sameShape req vgs zones0 subvols subvols' vgs' zones' :
  planSubvols req vgs zones0 subvols = Some (subvols', vgs', zones') →
  Forall2 sameShape subvols subvols'.
Proof.
  revert vgs zones0 subvols' vgs' zones'.
  induction subvols as [| sv rest IH]; intros vgs zones0 subvols' vgs' zones';
    simpl.
  - intros ?; simplify_eq. constructor.
  - destruct (planSubvol req vgs zones0 sv) as [st |] eqn:Ep; [| done].
    destruct (planSubvols req (availableVgs st) (zones st) rest)
      as [[[rest' vgs''] zones''] |] eqn:Er; [| done].
    intros ?; simplify_eq. constructor; [| by eapply IH].
    unfold sameShape. simpl. split_and!; try done.
    by eapply planSubvol_sameSpec.
Qed.

(** *** Successful plans *)


(** C6. The layout fails with the size error as soon as the strategy
    sizes one brick below the minimum brick size of 20 MiB; the bricks
    of a layout were all sized at least that; and with a normalisation
    that keeps sizes of at least the minimum at or above it, every
    brick of a successful plan has a nominal size of at least 20 MiB. *)
Theorem brick_size_floor (req : VolCreateReq.t) :
  (∀ s, minBrickSize ≤ s → minBrickSize ≤ NormalizeSize s) →
  (∀ r init,
     resolveRequest req = (r, Ok tt) →
     subvolPlanners !! VolCreateReq.SubvolType r = Some init →
     (∃ j, 0 ≤ j < BricksCount (init r (subvolSize r))
           ∧ BrickSize (init r (subvolSize r)) j < minBrickSize) →
     getBricksLayout req = (r, Err ErrBrickTooSmall))
  ∧ kind ErrBrickTooSmall = SizeError
  ∧ minBrickSize = 20 * 2 ^ 20
  ∧ (∀ r subvols,
       getBricksLayout req = (r, Ok subvols) →
       Forall (λ sv, Forall (λ b, minBrickSize ≤ BrickReq.Size b)
                            (SubvolReq.Bricks sv)) subvols)
  ∧ (∀ req',
       PlanBricks req = (req', Ok tt) →
       Forall (λ sv, Forall (λ b, minBrickSize ≤ BrickReq.Size b)
                            (SubvolReq.Bricks sv))
              (VolCreateReq.Subvols req')).
Proof.
  intros Hnorm.
  assert (∀ r subvols, buildLayout r = Ok subvols →
    Forall (λ sv, Forall (λ b, minBrickSize ≤ BrickReq.Size b)
                         (SubvolReq.Bricks sv)) subvols) as Hlayout.
  { intros r subvols (init & _ & Hb)%buildLayout_Ok.
    eapply Forall_impl; [exact Hb |]. intros sv Hsv. simpl in Hsv.
    eapply Forall_impl; [exact Hsv |].
    intros b [j (Hmin & -> & _)]. by apply Hnorm. }
  split_and!; [| done | done | |].
  - intros r init Hres Hinit (j & Hj & Hsmall).
    rewrite getBricksLayout_unfold, Hres. f_equal.
    unfold buildLayout. rewrite Hinit.
    apply (result_mapM_fails _ _ 0).
    + apply elem_of_seqZ. pose proof (numSubvols_pos r). lia.
    + by eapply makeSubvol_small.
    + intros i _. left. by eapply makeSubvol_small.
  - intros r subvols. rewrite getBricksLayout_unfold.
    destruct (resolveRequest req) as [r' [[] | e |]]; [| done | done].
    intros ?; simplify_eq. by eapply Hlayout.
  - intros req'
      (vgs & r & svs & svs' & vgs' & zs' & _ & _ & _ & Hb & Hp & ->)
      %PlanBricks_Ok.
    simpl. eapply planSubvols_bricks; [| by eapply Hlayout | done].
    done.
Qed.

(** *** Capacity *)

Lemma sum_insert (l : list Z) k x y :
  l !! k = Some x →
  foldr Z.add 0 (<[k := y]> l) = foldr Z.add 0 l - x + y.
Proof.
  revert k. induction l as [| z l IH]; intros [| k] Hk; simplify_eq/=.
  - lia.
  - rewrite (IH _ Hk). lia.
Qed.

Lemma totalFree_insert vgs k vg vg' :
  vgs !! k = Some vg →
  totalFree (<[k := vg']> vgs)
  = totalFree vgs - Vg.AvailableSize vg + Vg.AvailableSize vg'.
Proof.
  intros Hk. unfold totalFree. rewrite list_fmap_insert.
  apply sum_insert. by rewrite list_lookup_fmap, Hk.
Qed.

Lemma totalFree_nonneg vgs : inventorySized vgs → 0 ≤ totalFree vgs.
Proof.
  unfold totalFree, inventorySized, isU64.
  induction 1 as [| vg vgs Hvg _ IH]; [done |].
  rewrite fmap_cons. simpl. lia.
Qed.

Lemma bricksSpace_uniform T bs :
  allTotalSize T bs → bricksSpace bs = T * Z.of_nat (length bs).
Proof.
  unfold bricksSpace, allTotalSize.
  induction 1 as [| b bs Hb _ IH]; [simpl; lia |].
  rewrite fmap_cons. simpl foldr. simpl length. rewrite IH, Hb. lia.
Qed.

(** A placement moves the total size of the brick out of the free
    space. *)
Lemma tryPlace_space req fresh T st bidx :
  vgsByPointer = true →
  0 ≤ T → allTotalSize T (bricks st) → inventorySized (availableVgs st) →
  let st' := tryPlace req fresh st bidx in
  inventorySized (availableVgs st')
  ∧ totalFree (availableVgs st') + T * Z.of_nat (numBricksAllocated st')
    = totalFree (availableVgs st) + T * Z.of_nat (numBricksAllocated st).
Proof.
  intros Hptr HT0 HT Hs.
  destruct (tryPlace_cases req fresh st bidx)
    as [-> | (b & k & vg & Hb & Hk & Hfit & ->)]; [done |].
  simpl. unfold updateVg. rewrite Hptr.
  assert (BrickReq.TotalSize b = T) as HTb
    by (by eapply (Forall_lookup_1 _ _ _ _ HT)).
  assert (isU64 (Vg.AvailableSize vg)) as Hvg
    by (by eapply (Forall_lookup_1 _ _ _ _ Hs)).
  destruct Hfit as (Hroom & _).
  assert (Vg.AvailableSize (consume b vg) = Vg.AvailableSize vg - T) as Hc.
  { simpl. rewrite HTb. apply wrapU64_id. unfold isU64 in *. lia. }
  split.
  - apply Forall_insert; [done |].
    change (isU64 (Vg.AvailableSize (consume b vg))). rewrite Hc.
    unfold isU64 in *. lia.
  - rewrite (totalFree_insert _ _ _ _ Hk), Hc. lia.
Qed.

Lemma pass_space req fresh T st k m :
  vgsByPointer = true →
  0 ≤ T → allTotalSize T (bricks st) → inventorySized (availableVgs st) →
  let st' := foldl (tryPlace req fresh) st (seq k m) in
  allTotalSize T (bricks st')
  ∧ inventorySized (availableVgs st')
  ∧ totalFree (availableVgs st') + T * Z.of_nat (numBricksAllocated st')
    = totalFree (availableVgs st) + T * Z.of_nat (numBricksAllocated st).
Proof.
  intros Hptr HT0 HT Hs.
  apply (pass_preserves req fresh (λ s,
    allTotalSize T (bricks s)
    ∧ inventorySized (availableVgs s)
    ∧ totalFree (availableVgs s) + T * Z.of_nat (numBricksAllocated s)
      = totalFree (availableVgs st) + T * Z.of_nat (numBricksAllocated st)));
    [| done].
  intros s i (HTs & Hss & Heq).
  destruct (tryPlace_space req fresh T s i Hptr HT0 HTs Hss) as [Hs' Heq'].
  split_and!; [by apply tryPlace_allTotalSize | done | lia].
Qed.

(** A subvolume of equal-size bricks that is planned with success took
    the space of its bricks out of the inventory. *)
Lemma planSubvol_space req T vgs zones0 sv st :
  vgsByPointer = true →
  0 ≤ T → allTotalSize T (SubvolReq.Bricks sv) → inventorySized vgs →
  planSubvol req vgs zones0 sv = Some st →
  inventorySized (availableVgs st)
  ∧ totalFree (availableVgs st)
    = totalFree vgs - bricksSpace (SubvolReq.Bricks sv).
Proof.
  intros Hptr HT0 HT Hs. unfold planSubvol.
  set (st0 := Build_AllocState _ _ _ _).
  rewrite (bricksSpace_uniform T _ HT).
  destruct (pass_space req true T st0 0 (length (bricks st0)) Hptr HT0 HT Hs)
    as (HT1 & Hs1 & Heq1).
  fold (firstPass req st0) in HT1, Hs1, Heq1. simpl in Heq1.
  case_decide as Hall1.
  - intros ?; simplify_eq. split; [done |]. lia.
  - destruct (pass_space req false T (firstPass req st0)
      (numBricksAllocated (firstPass req st0))
      (length (bricks (firstPass req st0))
       - numBricksAllocated (firstPass req st0)) Hptr HT0 HT1 Hs1)
      as (_ & Hs2 & Heq2).
    fold (secondPass req (firstPass req st0)) in Hs2, Heq2.
    case_decide as Hall2; [| done]. intros ?; simplify_eq.
    split; [done |]. lia.
Qed.

Lemma planSubvols_space req T vgs zones0 subvols subvols' vgs' zones' :
  vgsByPointer = true →
  0 ≤ T →
  Forall (λ sv, allTotalSize T (SubvolReq.Bricks sv)) subvols →
  inventorySized vgs →
  planSubvols req vgs zones0 subvols = Some (subvols', vgs', zones') →
  inventorySized vgs'
  ∧ totalFree vgs' = totalFree vgs - requiredSpace subvols.
Proof.
  intros Hptr HT0. revert vgs zones0 subvols' vgs' zones'.
  induction subvols as [| sv rest IH];
    intros vgs zones0 subvols' vgs' zones' HT Hs; simpl.
  - intros ?; simplify_eq. split; [done |]. unfold requiredSpace. simpl. lia.
  - apply Forall_cons in HT as [Hsv Hrest].
    destruct (planSubvol req vgs zones0 sv) as [st |] eqn:Esv; [| done].
    destruct (planSubvol_space _ _ _ _ _ _ Hptr HT0 Hsv Hs Esv)
      as [Hs1 Heq1].
    destruct (planSubvols req (availableVgs st) (zones st) rest)
      as [[[rest' vgs''] zones''] |] eqn:Erest; [| done].
    intros ?; simplify_eq.
    destruct (IH _ _ _ _ _ Hrest Hs1 Erest) as [Hs2 Heq2].
    split; [done |]. rewrite Heq2, Heq1. unfold requiredSpace.
    rewrite fmap_cons. simpl. lia.
Qed.

(** X21. With an inventory whose devices the scan updates in place,
    strategies that size the bricks of a subvolume alike and free sizes
    that are [uint64]s: [PlanBricks] fails with the capacity error
    about space whenever the layout asks for more space than the
    inventory has free in total, and with the capacity error about
    devices when the inventory is empty; whenever it fails, the
    subvolumes field of the request is left as it was. *)
Theorem PlanBricks_capacity (req : VolCreateReq.t) (inv : list Vg.t) :
  vgsByPointer = true →
  uniformStrategies →
  GetAvailableVgs req = inr inv →
  inventorySized inv →
  (inv = [] → PlanBricks req = (req, Err ErrNoDevices))
  ∧ (∀ r subvols,
       inv ≠ [] →
       getBricksLayout req = (r, Ok subvols) →
       totalFree inv < requiredSpace subvols →
       PlanBricks req = (r, Err ErrNoSpace))
  ∧ kind ErrNoDevices = CapacityError
  ∧ kind ErrNoSpace = CapacityError
  ∧ (∀ req' out, PlanBricks req = (req', out) → out ≠ Ok tt →
       VolCreateReq.Subvols req' = VolCreateReq.Subvols req).
Proof.
  intros Hptr Hu Hinv Hs.
  split_and!; [| | done | done | apply PlanBricks_failure_Subvols].
  - intros ->. by rewrite PlanBricks_unfold, Hinv.
  - intros r subvols Hne. rewrite getBricksLayout_unfold.
    destruct (resolveRequest req) as [r' [[] | e |]] eqn:Er; [| done | done].
    intros Hb Hlt. simplify_eq.
    rewrite PlanBricks_unfold, Hinv, Er.
    rewrite decide_False by (by destruct inv).
    replace (buildLayout r) with (Ok (A := list SubvolReq.t) subvols)
      by congruence.
    destruct (planSubvols r inv ∅ subvols) as [[[svs' vgs'] zs'] |] eqn:Ep;
      [| done].
    exfalso.
    assert (buildLayout r = Ok subvols) as Hb' by congruence.
    destruct (buildLayout_uniform _ _ Hu Hb') as (T & [HT0 _] & HT).
    destruct (planSubvols_space _ _ _ _ _ _ _ _ Hptr HT0 HT Hs Ep)
      as [Hs' Heq].
    pose proof (totalFree_nonneg _ Hs'). lia.
Qed.

(** *** Zones *)

Lemma distinctZones_insert zs n z :
  distinctZones zs →
  (∀ i, zs !! i ≠ Some (Some z)) →
  distinctZones (<[n := Some z]> zs).
Proof.
  intros Hd Hfresh i j z'.
  intros [[-> [? _]] | [Hne Hi]]%list_lookup_insert_Some
         [[-> [? _]] | [Hne' Hj]]%list_lookup_insert_Some;
    simplify_eq; try done.
  - by destruct (Hfresh j).
  - by destruct (Hfresh i).
  - by eapply Hd.
Qed.

Lemma distinctZones_app_l zs zs' : distinctZones (zs ++ zs') → distinctZones zs.
Proof.
  intros Hd i j z Hi Hj.
  apply (Hd i j z); by apply lookup_app_l_Some.
Qed.

Lemma distinctZones_app_r zs zs' : distinctZones (zs ++ zs') → distinctZones zs'.
Proof.
  intros Hd i j z Hi Hj.
  assert (length zs + i = length zs + j)%nat; [| lia].
  apply (Hd _ _ z); by rewrite lookup_app_r, Nat.add_comm, Nat.add_sub by lia.
Qed.

Lemma tryPlace_zones req fresh inv acc st bidx :
  (∃ zs, zonesInv inv acc st zs) →
  ∃ zs, zonesInv inv acc (tryPlace req fresh st bidx) zs.
Proof.
  intros [zs (Hdev & Hz & Hin & Hd)].
  destruct (tryPlace_cases req fresh st bidx)
    as [-> | (b & k & vg & Hb & Hk & Hfit & ->)]; [by exists zs |].
  destruct Hfit as (_ & Hfresh & _).
  destruct (Forall2_lookup_r _ _ _ _ _ Hdev Hk)
    as (vg0 & Hk0 & Hp & Hnm & Hzn & Hdv).
  exists (<[bidx := Some (Vg.Zone vg)]> zs).
  split_and!; simpl.
  - unfold updateVg. destruct vgsByPointer; [| done].
    rewrite <- (list_insert_id inv k vg0) by done.
    apply Forall2_insert; [done |]. by split_and!.
  - apply Forall2_insert; [done |]. simpl.
    exists vg0. split_and!; simpl;
      [by eapply list_elem_of_lookup_2 | done | done | done | done
      | apply devicePath_nonempty].
  - intros i z. rewrite <- insert_app_r.
    intros [[_ [? _]] | [_ Hi]]%list_lookup_insert_Some.
    + simplify_eq. set_solver.
    + apply Hin in Hi. set_solver.
  - rewrite <- insert_app_r. apply distinctZones_insert; [done |].
    intros i Hi. by apply Hin in Hi.
Qed.

Lemma planSubvol_zones req inv acc vgs zones0 sv st :
  Forall2 sameDevice inv vgs →
  Forall (λ b, BrickReq.DevicePath b = "") (SubvolReq.Bricks sv) →
  distinctZones acc →
  (∀ i z, acc !! i = Some (Some z) →
          z ∈ (if VolCreateReq.SubvolZonesOverlap req
               then ∅ else zones0 : gset string)) →
  planSubvol req vgs zones0 sv = Some st →
  ∃ zs, zonesInv inv acc st zs.
Proof.
  intros Hdev Hun Hd Hin. unfold planSubvol.
  set (st0 := Build_AllocState _ _ _ _).
  assert (∃ zs, zonesInv inv acc st0 zs) as H0.
  { exists (replicate (length (SubvolReq.Bricks sv)) None).
    split_and!; simpl; [done | | |].
    - apply Forall2_replicate_r; [done |].
      eapply Forall_impl; [exact Hun |]. done.
    - intros i z [Hi | [_ Hi]]%lookup_app_Some; [by eapply Hin |].
      by apply lookup_replicate in Hi as [? _].
    - intros i j z [Hi | [_ Hi]]%lookup_app_Some
                   [Hj | [_ Hj]]%lookup_app_Some.
      + by eapply Hd.
      + by apply lookup_replicate in Hj as [? _].
      + by apply lookup_replicate in Hi as [? _].
      + by apply lookup_replicate in Hi as [? _]. }
  assert (∃ zs, zonesInv inv acc (firstPass req st0) zs) as H1.
  { unfold firstPass. apply pass_preserves; [| done].
    intros s i. apply tryPlace_zones. }
  case_decide; [by intros ?; simplify_eq |].
  case_decide; [| done]. intros ?; simplify_eq.
  unfold secondPass. apply pass_preserves; [| done].
  intros s i. apply tryPlace_zones.
Qed.

Lemma buildLayout_unplaced r subvols :
  buildLayout r = Ok subvols →
  Forall (λ sv, Forall (λ b, BrickReq.DevicePath b = "")
                       (SubvolReq.Bricks sv)) subvols.
Proof.
  intros (init & _ & Hb)%buildLayout_Ok.
  eapply Forall_impl; [exact Hb |]. intros sv Hsv. simpl in Hsv.
  eapply Forall_impl; [exact Hsv |]. by intros b [j (_ & _ & _ & ?)].
Qed.

Lemma sameDevice_refl inv : Forall2 sameDevice inv inv.
Proof. apply Forall_Forall2_diag, Forall_forall. by intros vg _. Qed.

(** Whatever the flag, the bricks of each subvolume end up in pairwise
    distinct zones. *)
Lemma planSubvols_zones_each req inv vgs zones0 subvols subvols' vgs' zones' :
  Forall2 sameDevice inv vgs →
  Forall (λ sv, Forall (λ b, BrickReq.DevicePath b = "")
                       (SubvolReq.Bricks sv)) subvols →
  planSubvols req vgs zones0 subvols = Some (subvols', vgs', zones') →
  Forall (λ sv, distinctlyZoned inv (SubvolReq.Bricks sv)) subvols'.
Proof.
  revert vgs zones0 subvols' vgs' zones'.
  induction subvols as [| sv rest IH];
    intros vgs zones0 subvols' vgs' zones' Hdev Hun; simpl.
  - intros ?; simplify_eq. constructor.
  - apply Forall_cons in Hun as [Hsv Hrest].
    destruct (planSubvol req vgs zones0 sv) as [st |] eqn:Esv; [| done].
    destruct (planSubvol_zones req inv [] vgs zones0 sv st Hdev Hsv)
      as (zs & Hdev' & Hz & _ & Hd); [by intros ??? | by intros ?? | done |].
    destruct (planSubvols req (availableVgs st) (zones st) rest)
      as [[[rest' vgs''] zones''] |] eqn:Erest; [| done].
    intros ?; simplify_eq. constructor.
    + by exists zs.
    + by eapply IH.
Qed.

(** Without the flag the zones in use pass from subvolume to
    subvolume: the bricks of the whole plan end up in pairwise distinct
    zones. *)
Lemma planSubvols_zones_all req inv acc vgs zones0 subvols
    subvols' vgs' zones' :
  VolCreateReq.SubvolZonesOverlap req = false →
  Forall2 sameDevice inv vgs →
  Forall (λ sv, Forall (λ b, BrickReq.DevicePath b = "")
                       (SubvolReq.Bricks sv)) subvols →
  distinctZones acc →
  (∀ i z, acc !! i = Some (Some z) → z ∈ zones0) →
  planSubvols req vgs zones0 subvols = Some (subvols', vgs', zones') →
  ∃ zs, Forall2 (zoned inv) (concat (SubvolReq.Bricks <$> subvols')) zs
        ∧ distinctZones (acc ++ zs).
Proof.
  intros Hflag. revert acc vgs zones0 subvols' vgs' zones'.
  induction subvols as [| sv rest IH];
    intros acc vgs zones0 subvols' vgs' zones' Hdev Hun Hd Hin; simpl.
  - intros ?; simplify_eq. exists []. split; [constructor |].
    by rewrite app_nil_r.
  - apply Forall_cons in Hun as [Hsv Hrest].
    destruct (planSubvol req vgs zones0 sv) as [st |] eqn:Esv; [| done].
    destruct (planSubvol_zones req inv acc vgs zones0 sv st Hdev Hsv Hd)
      as (zs & Hdev' & Hz & Hin' & Hd'); [by rewrite Hflag | done |].
    destruct (planSubvols req (availableVgs st) (zones st) rest)
      as [[[rest' vgs''] zones''] |] eqn:Erest; [| done].
    intros ?; simplify_eq.
    destruct (IH (acc ++ zs) _ _ _ _ _ Hdev' Hrest Hd' Hin' Erest)
      as (zs' & Hz' & Hd'').
    exists (zs ++ zs'). split.
    + rewrite fmap_cons. simpl. by apply Forall2_app.
    + by rewrite app_assoc.
Qed.

(** When the inventory names each device once, the zones can be read
    off the bricks: two placed bricks at different positions sit on
    devices of different zones. *)
Lemma distinctlyZoned_devices inv bs :
  distinctlyZoned inv bs →
  (∀ v v', v ∈ inv → v' ∈ inv →
     Vg.PeerID v = Vg.PeerID v' → Vg.Name v = Vg.Name v' →
     Vg.Zone v = Vg.Zone v') →
  ∀ i j bi bj vi vj,
    i ≠ j → bs !! i = Some bi → bs !! j = Some bj →
    BrickReq.DevicePath bi ≠ "" → BrickReq.DevicePath bj ≠ "" →
    vi ∈ inv → vj ∈ inv →
    BrickReq.PeerID bi = Vg.PeerID vi → BrickReq.VgName bi = Vg.Name vi →
    BrickReq.PeerID bj = Vg.PeerID vj → BrickReq.VgName bj = Vg.Name vj →
    Vg.Zone vi ≠ Vg.Zone vj.
Proof.
  intros (zs & Hz & Hd) Huniq i j bi bj vi vj Hne Hi Hj Hpi Hpj
    Hvi Hvj Hip Hin Hjp Hjn Hzone.
  destruct (Forall2_lookup_l _ _ _ _ _ Hz Hi) as (ozi & Hzi & Hbi).
  destruct (Forall2_lookup_l _ _ _ _ _ Hz Hj) as (ozj & Hzj & Hbj).
  destruct ozi as [zi |]; [| done]. destruct ozj as [zj |]; [| done].
  destruct Hbi as (v & Hv & <- & Hvp & Hvn & _).
  destruct Hbj as (v' & Hv' & <- & Hvp' & Hvn' & _).
  apply Hne, (Hd i j (Vg.Zone v)); [done |]. rewrite Hzj. do 2 f_equal.
  rewrite <- (Huniq vj v') by congruence.
  rewrite <- (Huniq vi v) by congruence. done.
Qed.

(** C3. Unless the request permits zones to overlap, no two bricks of
    one subvolume of a successful plan are placed on devices of the
    same zone. *)
Theorem zones_distinct_without_overlap
    (req req' : VolCreateReq.t) (inv : list Vg.t) :
  VolCreateReq.SubvolZonesOverlap req = false →
  GetAvailableVgs req = inr inv →
  PlanBricks req = (req', Ok tt) →
  Forall (λ sv, distinctlyZoned inv (SubvolReq.Bricks sv))
         (VolCreateReq.Subvols req').
Proof.
  intros _ Hinv
    (vgs & r & svs & svs' & vgs' & zs' & Hvgs & _ & _ & Hb & Hp & ->)
    %PlanBricks_Ok.
  rewrite Hinv in Hvgs. simplify_eq. simpl.
  eapply planSubvols_zones_each; [apply sameDevice_refl | | done].
  by eapply buildLayout_unplaced.
Qed.

(** C10. In a successful plan the bricks of one subvolume lie in
    pairwise distinct zones whether or not the flag is set. The flag
    decides what a subvolume starts from: with the flag the zones in
    use are forgotten at each subvolume, without it they are kept for
    the whole call, so that then all the bricks of the plan lie in
    pairwise distinct zones. *)
Theorem zones_distinct_within_subvolume
    (req req' : VolCreateReq.t) (inv : list Vg.t) :
  GetAvailableVgs req = inr inv →
  PlanBricks req = (req', Ok tt) →
  Forall (λ sv, distinctlyZoned inv (SubvolReq.Bricks sv))
         (VolCreateReq.Subvols req')
  ∧ (VolCreateReq.SubvolZonesOverlap req = false →
       distinctlyZoned inv
         (concat (SubvolReq.Bricks <$> VolCreateReq.Subvols req')))
  ∧ (∀ r vgs zones0 sv,
       planSubvol r vgs zones0 sv =
       planSubvol r vgs
         (if VolCreateReq.SubvolZonesOverlap r then ∅ else zones0) sv).
Proof.
  intros Hinv
    (vgs & r & svs & svs' & vgs' & zs' & Hvgs & _ & Hres & Hb & Hp & ->)
    %PlanBricks_Ok.
  rewrite Hinv in Hvgs. simplify_eq. simpl.
  pose proof (buildLayout_unplaced _ _ Hb) as Hun.
  split_and!.
  - eapply planSubvols_zones_each; [apply sameDevice_refl | done | done].
  - intros Hflag.
    assert (VolCreateReq.SubvolZonesOverlap r = false) as Hflag'.
    { pose proof (resolveRequest_sameInputs _ _ _ Hres) as Hs.
      unfold sameInputs in Hs. destruct_and!. congruence. }
    destruct (planSubvols_zones_all r vgs [] vgs ∅ svs svs' vgs' zs'
                Hflag' (sameDevice_refl _) Hun)
      as (zs & Hz & Hd); [by intros ??? | by intros ?? | done |].
    by exists zs.
  - intros r0 vgs0 zones0 sv. unfold planSubvol.
    by destruct (VolCreateReq.SubvolZonesOverlap r0).
Qed.

End AllocatorProperties.

(** * The planner on the reference backend *)

(** ** Facts of the reference backend *)

Lemma table_uniform inventory :
  @uniformStrategies (Reference.collaborators inventory).
Proof.
  intros name init req size i j. simpl. unfold Strategies.table. simpl.
  intros [[_ <-] | [_ Hl]]%lookup_insert_Some; [done |].
  apply lookup_insert_Some in Hl as [[_ <-] | [_ Hl]]; [done |].
  apply lookup_insert_Some in Hl as [[_ <-] | [_ Hl]]; [done |].
  done.
Qed.

Lemma normalize_floor s :
  minBrickSize ≤ s → minBrickSize ≤ Reference.normalize s.
Proof.
  intros Hs. unfold Reference.normalize.
  assert (minBrickSize = 512 * 40960) as Hmin by done.
  pose proof (Z.div_mod s 512 ltac:(lia)).
  pose proof (Z.mod_pos_bound s 512 ltac:(lia)).
  assert (40960 ≤ s / 512) by (apply Z.div_le_lower_bound; lia).
  lia.
Qed.


Lemma shrinking_sized : inventorySized Samples.shrinking.
Proof. repeat constructor; by compute. Qed.


Lemma threeZones_sized : inventorySized Reference.threeZones.
Proof. repeat constructor; by compute. Qed.

Lemma loopTiB_wf : VolCreateReq.wf Reference.loopTiB.
Proof. split; unfold isU64, isInt; simpl; by compute. Qed.

Lemma dispersed_triggers : triggersDisperse Reference.dispersed.
Proof. by intros [? _]. Qed.

Lemma dispersed_in_range inventory :
  @redundancyInRange (Reference.collaborators inventory) Reference.dispersed.
Proof. by compute. Qed.

Lemma loopTiB_in_range inventory :
  @redundancyInRange (Reference.collaborators inventory) Reference.loopTiB.
Proof. by compute. Qed.

(** ** The claims at work *)

Section Runs.
Import Reference.



(** C2, the claim as the spec words it, fails: an arbiter count of 2
    with a replica count of 1 passes the replicate rule. *)
Lemma replica_rule_counterexample :
  ¬ replicaRuleAsSpecified arbiterWithoutReplica.
Proof.
  intros (_ & _ & Harb).
  destruct Harb as (e & He & _); [right; by compute |].
  vm_compute in He. discriminate He.
Qed.

(** Without the overlap flag, the three replicas lie in three zones. *)
Lemma zones_distinct_without_overlap_witness :
  VolCreateReq.SubvolZonesOverlap replicated = false
  ∧ (@PlanBricks (collaborators (inr threeZones)) replicated).2 = Ok tt
  ∧ Forall (λ sv, distinctlyZoned threeZones (SubvolReq.Bricks sv))
      (VolCreateReq.Subvols
         (@PlanBricks (collaborators (inr threeZones)) replicated).1).
Proof.
  split; [done |]. split; [by vm_compute |].
  apply (@zones_distinct_without_overlap (collaborators (inr threeZones))
           replicated _ threeZones eq_refl eq_refl).
  vm_compute. reflexivity.
Defined.

(** A disperse count of 6 resolves to 4 data and 2 redundancy bricks. *)
Lemma disperse_redundancy_bound_witness :
  triggersDisperse dispersed
  ∧ @redundancyInRange (collaborators (inr threeZones)) dispersed
  ∧ 2 * VolCreateReq.DisperseRedundancyCount
          (@handleDisperseSubvolReq (collaborators (inr threeZones))
             dispersed).1
    < VolCreateReq.DisperseCount
        (@handleDisperseSubvolReq (collaborators (inr threeZones))
           dispersed).1.
Proof.
  split; [apply dispersed_triggers |].
  split; [apply dispersed_in_range |].
  destruct (proj1 (@disperse_redundancy_bound (collaborators (inr threeZones))
                     dispersed dispersed_triggers (dispersed_in_range _))
              _ _ (surjective_pairing _))
    as [[_ Hlt] | [[Hout _] | Hout]];
    [exact Hlt | vm_compute in Hout; discriminate Hout
    | vm_compute in Hout; discriminate Hout].
Defined.

(** C4, the claim as the spec words it, fails: doubled, a redundancy
    count of 2^62 + 1 wraps to a negative [int], and the rule accepts
    it with a disperse count of 0. *)
Lemma disperse_redundancy_bound_counterexample :
  ¬ @disperseRuleAsSpecified (collaborators (inr threeZones))
      Samples.hugeRedundancy.
Proof.
  intros Hrule.
  destruct Hrule as [(req' & Hrun & Hlt) | (req' & e & Hrun & _)].
  - by intros (_ & _ & ?).
  - vm_compute in Hrun. injection Hrun as <-. vm_compute in Hlt. done.
  - vm_compute in Hrun. discriminate Hrun.
Qed.

(** 1 TiB on loop-back bricks of at most 100 GiB takes 11 subvolumes. *)
Lemma distribute_count_rule_witness :
  VolCreateReq.wf loopTiB
  ∧ @redundancyInRange (collaborators (inr threeZones)) loopTiB
  ∧ VolCreateReq.DistributeCount
      (@resolveRequest (collaborators (inr threeZones)) loopTiB).1
    = ceilDiv (1024 * GiB) (100 * GiB)
  ∧ numSubvols (@resolveRequest (collaborators (inr threeZones)) loopTiB).1
    = 11
  ∧ subvolSize (@resolveRequest (collaborators (inr threeZones)) loopTiB).1
    = 1024 * GiB / 11.
Proof.
  split; [apply loopTiB_wf |]. split; [apply loopTiB_in_range |].
  destruct (@distribute_count_rule (collaborators (inr threeZones))
              loopTiB
              (@resolveRequest (collaborators (inr threeZones)) loopTiB).1
              loopTiB_wf (loopTiB_in_range _))
    as (Hd & Hn & Hs & _);
    [vm_compute; reflexivity | by vm_compute |].
  split; [rewrite Hd; vm_compute; reflexivity |].
  split; [rewrite Hn; vm_compute; reflexivity |].
  rewrite Hs. vm_compute. reflexivity.
Defined.

(** C5, the claim as the spec words it, fails: with 2^32 + 1 data
    bricks of at most 4 GiB the capacity of a subvolume, 2^64 + 2^32,
    wraps to 2^32, and 8 GiB are spread over 2 subvolumes where the
    ceiling of size over capacity is 1. *)
Lemma distribute_count_rule_counterexample :
  ¬ @distributeCountAsSpecified (collaborators (inr threeZones))
      Samples.wrappedCapacity.
Proof.
  intros Hrule.
  destruct (Hrule (@resolveRequest (collaborators (inr threeZones))
                     Samples.wrappedCapacity).1) as [Hd _];
    [vm_compute; reflexivity |].
  specialize (Hd ltac:(by vm_compute) ltac:(by vm_compute)).
  vm_compute in Hd. discriminate Hd.
Qed.

(** On the reference backend every brick of the plan of three replicas
    has at least the minimum size. *)
Lemma brick_size_floor_witness :
  (∀ s, minBrickSize ≤ s → minBrickSize ≤ normalize s)
  ∧ Forall (λ sv, Forall (λ b, minBrickSize ≤ BrickReq.Size b)
                         (SubvolReq.Bricks sv))
      (VolCreateReq.Subvols
         (@PlanBricks (collaborators (inr threeZones)) replicated).1).
Proof.
  split; [apply normalize_floor |].
  apply (proj2 (proj2 (proj2 (proj2
    (@brick_size_floor (collaborators (inr threeZones)) replicated
       normalize_floor))))).
  vm_compute. reflexivity.
Defined.

(** Three bricks of 100 GiB and their pools do not fit 300 GiB: two
    are placed, the third finds no room. *)
Lemma PlanBricks_capacity_witness :
  @vgsByPointer (collaborators (inr Samples.shrinking)) = true
  ∧ @uniformStrategies (collaborators (inr Samples.shrinking))
  ∧ inventorySized Samples.shrinking
  ∧ totalFree Samples.shrinking = 300 * GiB
  ∧ requiredSpace (Samples.layoutOf replicated)
    = 3 * (100 * GiB + 512 * MiB)
  ∧ length (Samples.layoutOf replicated) = 1%nat
  ∧ numBricksAllocated
      (@firstPass (collaborators (inr Samples.shrinking))
         (Samples.resolved replicated)
         {| availableVgs := Samples.shrinking; zones := ∅;
            bricks :=
              concat (SubvolReq.Bricks <$> Samples.layoutOf replicated);
            numBricksAllocated := 0 |}) = 2%nat
  ∧ @PlanBricks (collaborators (inr Samples.shrinking)) replicated
    = (Samples.resolved replicated, Err ErrNoSpace).
Proof.
  split; [done |].
  split; [apply table_uniform |]. split; [apply shrinking_sized |].
  split; [by vm_compute |]. split; [by vm_compute |].
  split; [by vm_compute |]. split; [by vm_compute |].
  apply (proj1 (proj2
    (@PlanBricks_capacity (collaborators (inr Samples.shrinking)) replicated
       Samples.shrinking eq_refl (table_uniform _) eq_refl shrinking_sized))
    _ (Samples.layoutOf replicated)).
  - done.
  - by vm_compute.
  - by vm_compute.
Defined.

(** A loop-back request without a maximum brick size gets 100 GiB. *)
Lemma max_brick_size_rule_witness :
  (@topology (collaborators (inr threeZones)) loopUnset).2 = Ok tt
  ∧ VolCreateReq.MaxBrickSize
      (@getBricksLayout (collaborators (inr threeZones)) loopUnset).1
    = 100 * GiB.
Proof.
  split; [by vm_compute |].
  apply (proj1 (proj2 (proj2
    (@max_brick_size_rule (collaborators (inr threeZones)) loopUnset
       (@topology (collaborators (inr threeZones)) loopUnset).1
       ltac:(vm_compute; reflexivity)))));
    reflexivity.
Defined.

(** Four replicas and no devices: the capacity error, not the
    validation error. *)
Lemma PlanBricks_inventory_first_witness :
  (@handleReplicaSubvolReq overReplicated).2 = Err ErrInvalidReplicaCount
  ∧ @PlanBricks (collaborators (inr [])) overReplicated
    = (overReplicated, Err ErrNoDevices).
Proof.
  split; [by vm_compute |].
  apply (@PlanBricks_inventory_first (collaborators (inr []))
           overReplicated eq_refl).
Defined.

(** With the overlap flag, the one brick of each of two subvolumes is
    in a zone of its own within its subvolume. *)
Lemma zones_distinct_within_subvolume_witness :
  VolCreateReq.SubvolZonesOverlap twoSubvolsOverlap = true
  ∧ (@PlanBricks (collaborators (inr oneZone)) twoSubvolsOverlap).2 = Ok tt
  ∧ Forall (λ sv, distinctlyZoned oneZone (SubvolReq.Bricks sv))
      (VolCreateReq.Subvols
         (@PlanBricks (collaborators (inr oneZone)) twoSubvolsOverlap).1).
Proof.
  split; [done |]. split; [by vm_compute |].
  apply (proj1 (@zones_distinct_within_subvolume
                  (collaborators (inr oneZone)) twoSubvolsOverlap _ oneZone
                  eq_refl ltac:(vm_compute; reflexivity))).
Defined.

(** ** The planner at work *)

(** The names and paths of the first brick of the plan of three
    replicas. *)
Example replicated_first_brick :
  (λ sv, (λ b, (BrickReq.Path b, BrickReq.TpName b, BrickReq.LvName b,
                BrickReq.MntOpts b, BrickReq.DevicePath b))
           <$> take 1 (SubvolReq.Bricks sv))
    <$> VolCreateReq.Subvols
          (@PlanBricks (collaborators (inr threeZones)) replicated).1
  = [[("/var/run/glusterd2/bricks/vol/subvol1/brick1/brick",
       "tp_vol_s1_b1", "brick_vol_s1_b1",
       "rw,inode64,noatime,nouuid,discard",
       "/dev/vg1/brick_vol_s1_b1")]].
Proof. by vm_compute. Qed.

(** Two subvolumes on two devices of one zone: without the flag the
    second subvolume finds its zone taken and the call fails; with the
    flag both bricks go to that zone, one per subvolume. *)
Example overlap_flag_forgets_zones :
  (@PlanBricks (collaborators (inr oneZone)) twoSubvols).2 = Err ErrNoSpace
  ∧ (@PlanBricks (collaborators (inr oneZone)) twoSubvolsOverlap).2 = Ok tt
  ∧ (λ sv, BrickReq.PeerID <$> SubvolReq.Bricks sv)
      <$> VolCreateReq.Subvols
            (@PlanBricks (collaborators (inr oneZone)) twoSubvolsOverlap).1
    = [["peer1"]; ["peer2"]].
Proof. split_and!; by vm_compute. Qed.

(** ** What the hypotheses exclude *)

(** The bound on the redundancy count is needed: 2 * (2^62 + 1) wraps
    to a negative [int], and the disperse rule accepts that redundancy
    count with a disperse count of 0. *)
Example redundancy_doubling_wraps :
  wrapInt (2 * (2 ^ 62 + 1)) = - 2 ^ 63 + 2
  ∧ (λ out, (VolCreateReq.DisperseRedundancyCount out.1,
             VolCreateReq.DisperseCount out.1, out.2))
      (@handleDisperseSubvolReq (collaborators (inr threeZones))
         (VolCreateReq.set_DisperseRedundancyCount (2 ^ 62 + 1)
            (request "vol" (100 * GiB))))
    = (2 ^ 62 + 1, 0, Ok tt).
Proof. split; by vm_compute. Qed.

(** With the strategies of the spec the request of that redundancy
    count is planned to the end: its one subvolume has no brick. *)
Example huge_redundancy_is_planned :
  (@PlanBricks (collaborators (inr threeZones)) Samples.hugeRedundancy).2
    = Ok tt
  ∧ SubvolReq.Bricks
      <$> VolCreateReq.Subvols
            (@PlanBricks (collaborators (inr threeZones))
               Samples.hugeRedundancy).1
    = [[]].
Proof. split; by vm_compute. Qed.

(** The strategies of the spec size the bricks of a subvolume alike,
    and that every brick of a plan is placed depends on it. With a
    smaller arbiter brick the second pass, which starts at the index
    [numBricksAllocated], places the arbiter brick a second time and
    never returns to the second replica: the call succeeds and the
    second brick has no device. *)
Example unequal_bricks_skip_a_brick :
  (@PlanBricks (collaboratorsWithArbiter (inr oneLargeTwoSmall))
     withArbiter).2 = Ok tt
  ∧ (λ sv, BrickReq.PeerID <$> SubvolReq.Bricks sv)
      <$> VolCreateReq.Subvols
            (@PlanBricks (collaboratorsWithArbiter (inr oneLargeTwoSmall))
               withArbiter).1
    = [["peer1"; ""; "peer3"]].
Proof. split; by vm_compute. Qed.

(** The capacity bound of [PlanBricks] rests on the inventory being
    mutated. Over an inventory of device values the free space of a
    device is never reduced: with the overlap flag, two bricks of
    100 GiB are both placed on one device of 150 GiB. *)
Example inventory_of_values_never_fills :
  (@PlanBricks (collaborators (inr oneDevice)) twoSubvolsOverlap).2
    = Err ErrNoSpace
  ∧ (@PlanBricks (collaboratorsByValue (inr oneDevice)) twoSubvolsOverlap).2
    = Ok tt.
Proof. split; by vm_compute. Qed.

End Runs.

(** * Further properties of the planner *)

Section FurtherResolverProperties.
Context `{Collaborators}.
Import VolCreateReq.

Lemma wrapInt_overflow z : 2 ^ 63 ≤ z < 2 ^ 64 → wrapInt z = z - 2 ^ 64.
Proof.
  intros Hz. unfold wrapInt.
  replace (z + 2 ^ 63) with (z - 2 ^ 63 + 1 * 2 ^ 64) by lia.
  rewrite Z.mod_add, Z.mod_small; lia.
Qed.

(** ** The disperse counts *)

(** X1. A disperse request that the rule accepts leaves with counts
    that fit together: the disperse count is the sum of data and
    redundancy count, and there are more data bricks than redundancy
    bricks; counts that were given are kept, except for the disperse
    count when a data count is given. *)
Theorem disperse_counts_resolved (req req' : t) :
  wf req → redundancyInRange req → triggersDisperse req →
  handleDisperseSubvolReq req = (req', Ok tt) →
  DisperseCount req' = DisperseDataCount req' + DisperseRedundancyCount req'
  ∧ 0 ≤ DisperseRedundancyCount req' < DisperseDataCount req'
  ∧ (0 < DisperseDataCount req → DisperseDataCount req' = DisperseDataCount req)
  ∧ (0 < DisperseRedundancyCount req →
       DisperseRedundancyCount req' = DisperseRedundancyCount req)
  ∧ (DisperseDataCount req ≤ 0 → DisperseCount req' = DisperseCount req).
Proof.
  intros Hwf Hrange Ht Hrun.
  pose proof (handleDisperseSubvolReq_doubles _ _ _ Ht Hrange Hrun ltac:(done))
    as Hdbl.
  pose proof (handleDisperseSubvolReq_redundancy _ _ _ Ht Hrun ltac:(done))
    as HR.
  destruct (handleDisperseSubvolReq_cases _ _ _ Ht Hrun)
    as [_ [[? _] | ([[? _] | [_ Hc]] & _ & HD & HDd)]]; try done.
  rewrite wrapInt_double in Hc by lia.
  destruct Hwf. unfold isInt in *.
  destruct (Z.ltb_spec 0 (DisperseDataCount req)) as [Hpos | Hneg].
  - (* data count given: the redundancy count is given too *)
    destruct (Z.leb_spec (DisperseDataCount req) 0); [lia |].
    destruct (Z.leb_spec (DisperseRedundancyCount req) 0) as [Hr | Hr].
    { exfalso. revert Hrun. unfold handleDisperseSubvolReq. unfold_req.
      rewrite (triggersDisperse_test _ Ht). simpl.
      destruct (Z.ltb_spec 0 (DisperseDataCount req)); [| lia].
      destruct (Z.leb_spec (DisperseRedundancyCount req) 0); [| lia].
      simpl. intros ?; simplify_eq. }
    rewrite HR, HDd in *.
    assert (DisperseCount req'
            = DisperseDataCount req + DisperseRedundancyCount req) as HD'.
    { rewrite HD in Hc |- *.
      destruct (decide (DisperseDataCount req + DisperseRedundancyCount req
                        < 2 ^ 63)).
      - apply wrapInt_id. unfold isInt. lia.
      - exfalso. rewrite wrapInt_overflow in Hc; lia. }
    split_and!; try done; lia.
  - destruct (Z.leb_spec (DisperseDataCount req) 0); [| lia].
    rewrite HD in *.
    assert (DisperseDataCount req'
            = DisperseCount req - DisperseRedundancyCount req') as HDd'.
    { rewrite HDd. apply wrapInt_id. unfold isInt. lia. }
    split_and!; try lia. intros Hr. rewrite HR.
    by destruct (Z.leb_spec (DisperseRedundancyCount req) 0); [lia |].
Qed.

(** X2. With data and redundancy count given, and the redundancy
    count below 2^62, so that doubling it stays within [int], the
    disperse count of the request is not looked at: the rule resolves
    it to their sum, and accepts the request exactly when the
    redundancy count is below the data count and the sum is an
    [int]. *)
Theorem disperse_count_overwritten (req : t) :
  wf req →
  0 < DisperseDataCount req →
  0 < DisperseRedundancyCount req < 2 ^ 62 →
  ((handleDisperseSubvolReq req).2 = Ok tt ↔
     DisperseRedundancyCount req < DisperseDataCount req
     ∧ DisperseDataCount req + DisperseRedundancyCount req < 2 ^ 63)
  ∧ (∀ d, (handleDisperseSubvolReq (set_DisperseCount d req)).2
          = (handleDisperseSubvolReq req).2
        ∧ DisperseCount (handleDisperseSubvolReq (set_DisperseCount d req)).1
          = DisperseCount (handleDisperseSubvolReq req).1).
Proof.
  intros Hwf Hd Hr.
  assert (∀ r, DisperseDataCount r = DisperseDataCount req →
               DisperseRedundancyCount r = DisperseRedundancyCount req →
    (handleDisperseSubvolReq r).2 =
      (if wrapInt (DisperseDataCount req + DisperseRedundancyCount req)
          <=? wrapInt (2 * DisperseRedundancyCount req)
       then Err ErrInvalidRedundancy else Ok tt)
    ∧ DisperseCount (handleDisperseSubvolReq r).1
      = wrapInt (DisperseDataCount req + DisperseRedundancyCount req))
    as Hrun.
  { intros r HDd HR. unfold handleDisperseSubvolReq. unfold_req.
    rewrite HDd, HR.
    assert ((DisperseCount r =? 0) && (DisperseDataCount req =? 0)
            && (DisperseRedundancyCount req =? 0) = false) as ->.
    { destruct (Z.eqb_spec (DisperseDataCount req) 0); [lia |].
      by rewrite andb_false_r. }
    destruct (Z.ltb_spec 0 (DisperseDataCount req)); [| lia].
    destruct (Z.leb_spec (DisperseRedundancyCount req) 0); [lia |].
    simpl. rewrite HR.
    destruct (Z.leb_spec (DisperseRedundancyCount req) 0); [lia |].
    simpl. rewrite HDd.
    destruct (Z.leb_spec (DisperseDataCount req) 0); [lia |].
    simpl. rewrite ?HR, ?HDd. by case_match. }
  split.
  - destruct (Hrun req eq_refl eq_refl) as [-> _]. clear Hrun.
    rewrite wrapInt_double by lia.
    destruct Hwf. unfold isInt in *.
    destruct (decide (DisperseDataCount req + DisperseRedundancyCount req
                      < 2 ^ 63)).
    + rewrite wrapInt_id by (unfold isInt; lia).
      destruct (Z.leb_spec
        (DisperseDataCount req + DisperseRedundancyCount req)
        (2 * DisperseRedundancyCount req));
        (split; [try done; intros _; lia | try done; intros [? ?]; lia]).
    + rewrite wrapInt_overflow by lia.
      destruct (Z.leb_spec
        (DisperseDataCount req + DisperseRedundancyCount req - 2 ^ 64)
        (2 * DisperseRedundancyCount req));
        (split; [try done; intros _; lia | try done; intros [? ?]; lia]).
  - intros d.
    destruct (Hrun req eq_refl eq_refl) as [-> ->].
    by destruct (Hrun (set_DisperseCount d req) eq_refl eq_refl) as [-> ->].
Qed.

(** ** The resolved type, and the order of the validations *)

Lemma topology_type req r2 out :
  topology req = (r2, out) →
  (∀ e, out = Err e → e ≠ ErrInvalidReplicaCount ∧ e ≠ ErrInvalidArbiterCount) →
  SubvolType r2 = resolvedType req.
Proof.
  unfold topology. unfold bind at 1. unfold modify. unfold bind.
  destruct (handleReplicaSubvolReq (set_SubvolType "distribute" req))
    as [r1 o] eqn:E1.
  assert (triggersDisperse r1 ↔ triggersDisperse req) as Htr.
  { destruct (handleReplicaSubvolReq_frame _ _ _ E1) as [-> | ->]; done. }
  assert (o = Ok tt → SubvolType r1 =
            if decide (2 ≤ ReplicaCount req ≤ 3)
            then "replicate" else "distribute") as HT1.
  { intros ->. revert E1. unfold handleReplicaSubvolReq. unfold_req. simpl.
    destruct (Z.ltb_spec (ReplicaCount req) 2);
      [intros ?; simplify_eq; by rewrite decide_False by lia |].
    destruct (Z.ltb_spec 3 (ReplicaCount req)); [done |].
    destruct (1 <? ArbiterCount req); [done |].
    intros ?; simplify_eq. by rewrite decide_True by lia. }
  destruct o as [[] | e |].
  - intros Hrun _. unfold resolvedType.
    destruct (decide (triggersDisperse req)) as [Ht | Ht].
    + apply Htr in Ht.
      by destruct (handleDisperseSubvolReq_cases _ _ _ Ht Hrun) as [-> _].
    + assert (¬ triggersDisperse r1) as Ht' by (by rewrite Htr).
      rewrite (handleDisperseSubvolReq_idle _ Ht') in Hrun. simplify_eq.
      by apply HT1.
  - intros ? Hno. simplify_eq. exfalso.
    destruct (Hno e eq_refl) as [Hn1 Hn2].
    revert E1. unfold handleReplicaSubvolReq. unfold_req. simpl.
    repeat case_match; intros ?; simplify_eq.
  - intros ?; simplify_eq. exfalso.
    revert E1. unfold handleReplicaSubvolReq. unfold_req. simpl.
    repeat case_match; intros ?; simplify_eq.
Qed.

Lemma resolveRequest_type req r :
  resolveRequest req = (r, Ok tt) → SubvolType r = resolvedType req.
Proof.
  intros Hres.
  destruct (resolveRequest_stages _ _ Hres) as (r2 & r3 & Et & H3 & H4).
  destruct (resolveRequest_counts _ _ _ Et Hres) as (-> & _).
  by eapply topology_type.
Qed.

(** The resolver fails with validation errors only. *)
Lemma resolveRequest_Err req r e :
  resolveRequest req = (r, Err e) → kind e = ValidationError.
Proof.
  unfold resolveRequest, handleReplicaSubvolReq, handleDisperseSubvolReq,
    checkMaxBrickSize, deriveDistributeCount.
  unfold_req. simpl.
  repeat case_match; intros ?; simplify_eq/=; done.
Qed.

(** X3. The type of a resolved request does not depend on the type
    the caller sent: it is disperse when one of the disperse counts is
    not zero, even with 2 or 3 replicas; else replicate for 2 or 3
    replicas; else distribute. *)
Theorem resolved_type (req r : t) :
  resolveRequest req = (r, Ok tt) →
  SubvolType r = resolvedType req
  ∧ ∀ ty, resolveRequest (set_SubvolType ty req)
          = resolveRequest req.
Proof.
  intros Hres. split; [by apply resolveRequest_type | done].
Qed.

(** X4. With a table that knows distribute, replicate and disperse,
    the layout never fails for want of a strategy. *)
Theorem strategy_always_found (req : t) :
  knowsResolverTypes →
  (getBricksLayout req).2 ≠ Err ErrSubvolTypeNotSupported.
Proof.
  intros (Hd & Hr & Hp). rewrite getBricksLayout_unfold.
  destruct (resolveRequest req) as [r [[] | e |]] eqn:Er; simpl; [| | done].
  - unfold buildLayout. rewrite (resolveRequest_type _ _ Er).
    assert (is_Some (subvolPlanners !! resolvedType req)) as [init ->].
    { unfold resolvedType. by repeat case_decide. }
    intros (i & _ & Hi)%result_mapM_Err. by apply makeSubvol_Err in Hi.
  - intros ?; simplify_eq. by apply resolveRequest_Err in Er.
Qed.

(** [PlanBricks] hands on what the layout returns. *)
Lemma PlanBricks_layout_failure req vgs :
  GetAvailableVgs req = inr vgs → vgs ≠ [] →
  (∀ svs, (getBricksLayout req).2 ≠ Ok svs) →
  PlanBricks req
  = ((getBricksLayout req).1,
     match (getBricksLayout req).2 with
     | Err e => Err e
     | _ => Panic
     end).
Proof.
  intros Hinv Hne. rewrite PlanBricks_unfold, getBricksLayout_unfold, Hinv.
  rewrite decide_False by (by destruct vgs).
  destruct (resolveRequest req) as [r [[] | e |]]; simpl; try done.
  destruct (buildLayout r) as [svs | e |]; simpl; try done.
  intros Hno. by destruct (Hno svs).
Qed.

(** X5. The validations run in a fixed order, and the first that
    fails decides the error: a replica count above 3 is reported
    whatever the other fields hold; then an arbiter count above 1 for
    2 or 3 replicas; then a data count without redundancy count,
    whatever the maximum brick size is. With devices in the inventory
    [PlanBricks] returns the same error. *)
Theorem validation_order (req : t) :
  (3 < ReplicaCount req →
     getBricksLayout req
     = (set_SubvolType "distribute" req, Err ErrInvalidReplicaCount))
  ∧ (2 ≤ ReplicaCount req ≤ 3 → 1 < ArbiterCount req →
       getBricksLayout req
       = (set_SubvolType "replicate" req, Err ErrInvalidArbiterCount))
  ∧ (ReplicaCount req ≤ 3 →
     (2 ≤ ReplicaCount req → ArbiterCount req ≤ 1) →
     0 < DisperseDataCount req → DisperseRedundancyCount req ≤ 0 →
       (getBricksLayout req).2 = Err ErrRedundancyRequired
       ∧ SubvolType (getBricksLayout req).1 = "disperse")
  ∧ (∀ vgs e, GetAvailableVgs req = inr vgs → vgs ≠ [] →
       (getBricksLayout req).2 = Err e →
       PlanBricks req = ((getBricksLayout req).1, Err e)).
Proof.
  split_and!.
  - intros Hr. rewrite getBricksLayout_unfold.
    unfold resolveRequest. unfold bind at 1. unfold modify.
    unfold bind at 1.
    by rewrite handleReplicaSubvolReq_large.
  - intros Hr Ha. rewrite getBricksLayout_unfold.
    unfold resolveRequest. unfold bind at 1. unfold modify.
    unfold bind at 1.
    rewrite handleReplicaSubvolReq_replicate by done. simpl.
    by destruct (Z.ltb_spec 1 (ArbiterCount req)); [| lia].
  - intros Hr Ha Hd Hred.
    destruct (handleReplicaSubvolReq (set_SubvolType "distribute" req))
      as [r1 o] eqn:E1.
    assert (o = Ok tt ∧ DisperseDataCount r1 = DisperseDataCount req
            ∧ DisperseRedundancyCount r1 = DisperseRedundancyCount req)
      as (-> & HDd & HR).
    { destruct (decide (ReplicaCount req < 2)).
      - rewrite handleReplicaSubvolReq_small in E1 by done. by simplify_eq.
      - rewrite handleReplicaSubvolReq_replicate in E1 by (simpl; lia).
        simpl in E1.
        destruct (Z.ltb_spec 1 (ArbiterCount req)); [lia |].
        by simplify_eq. }
    assert (handleDisperseSubvolReq r1
            = (set_SubvolType "disperse" r1, Err ErrRedundancyRequired))
      as E2.
    { unfold handleDisperseSubvolReq. unfold_req. rewrite HDd, HR.
      destruct (Z.eqb_spec (DisperseDataCount req) 0); [lia |].
      rewrite andb_false_r. simpl.
      destruct (Z.ltb_spec 0 (DisperseDataCount req)); [| lia].
      by destruct (Z.leb_spec (DisperseRedundancyCount req) 0); [| lia]. }
    assert (getBricksLayout req
            = (set_SubvolType "disperse" r1, Err ErrRedundancyRequired))
      as ->; [| done].
    rewrite getBricksLayout_unfold.
    unfold resolveRequest. unfold bind at 1. unfold modify.
    unfold bind at 1. rewrite E1. unfold bind at 1. by rewrite E2.
  - intros vgs e Hinv Hne He.
    rewrite (PlanBricks_layout_failure _ _ Hinv Hne), He; [done |].
    intros svs. by rewrite He.
Qed.

(** ** Sizes *)

(** X6. The subvolumes share the requested size with the remainder
    dropped: their sizes add up to the requested size less a remainder
    below the number of subvolumes. *)
Theorem subvol_sizes_truncate (r : t) :
  isU64 (Size r) → isInt (DistributeCount r) →
  1 ≤ numSubvols r
  ∧ numSubvols r * subvolSize r ≤ Size r
      < numSubvols r * subvolSize r + numSubvols r.
Proof.
  intros HS HD.
  destruct (numSubvols_subvolSize r HS HD) as [_ ->].
  pose proof (numSubvols_pos r) as Hn. split; [done |].
  pose proof (Z.div_mod (Size r) (numSubvols r) ltac:(lia)).
  pose proof (Z.mod_pos_bound (Size r) (numSubvols r) ltac:(lia)). lia.
Qed.

(** X7. The maximum brick size is honoured: for a resolved request
    with a maximum brick size, with counts within range and a capacity
    that fits 64 bits, no subvolume is larger than the capacity
    that the maximum allows (the maximum itself, times the data count
    for a disperse volume). *)
Theorem subvol_within_capacity (req r : t) :
  wf req → redundancyInRange req →
  resolveRequest req = (r, Ok tt) →
  subvolCapacity r < 2 ^ 64 →
  0 < MaxBrickSize r →
  subvolSize r ≤ subvolCapacity r.
Proof.
  intros Hwf Hrange (r2 & r3 & Et & H3 & H4)%resolveRequest_stages Hfit Hmax.
  destruct (checked_request _ _ _ Hwf Hrange Et H3)
    as (HS & HD & Hdisp & Hdata & HM & HMmin).
  assert (subvolCapacity r = subvolCapacity r3
          ∧ MaxBrickSize r = MaxBrickSize r3 ∧ Size r = Size r3)
    as (Hcr & HMr & HSr).
  { destruct (deriveDistributeCount_frame _ _ _ H4) as [-> | [n ->]];
      done. }
  rewrite Hcr in Hfit |- *. rewrite HMr in Hmax.
  destruct (maxSubvolSize_capacity _ Hdisp Hdata HM Hfit) as [Hcap Hle].
  assert (isU64 (Size r3)) as HS3 by (rewrite HS; by destruct Hwf).
  revert H4. rewrite deriveDistributeCount_spec; [| done | lia].
  rewrite Hcap. intros Hr.
  assert (minBrickSize = 20971520) as Hmin by done.
  specialize (HMmin Hmax).
  pose proof (numSubvols_pos r) as Hn.
  case_decide as Hc; simplify_eq.
  - (* the distribute count was derived *)
    set (n := ceilDiv (Size r3) (subvolCapacity r3)) in *.
    pose proof (ceilDiv_least (Size r3) (subvolCapacity r3) ltac:(lia))
      as [Hlo Hhi]. fold n in Hlo, Hhi.
    assert (1 ≤ n) as Hn1 by nia.
    assert (isInt n) as Hint.
    { unfold isInt, isU64 in *. split; [lia |].
      unfold n, ceilDiv. apply Z.div_lt_upper_bound; [lia |]. nia. }
    destruct (numSubvols_subvolSize
                (set_DistributeCount n r3)) as [Hnum ->]; [done | done |].
    rewrite Hnum. simpl. rewrite decide_True by lia.
    apply Z.div_le_upper_bound; lia.
  - destruct (numSubvols_subvolSize r) as [_ ->];
      [done | rewrite HD; by destruct Hwf |].
    unfold isU64 in *.
    assert (Size r / numSubvols r ≤ Size r); [| lia].
    apply Z.div_le_upper_bound; [lia |]. nia.
Qed.

(** ** Panics *)

Lemma result_mapM_Panic {A B} (f : A → result B) (l : list A) :
  result_mapM f l = Panic → ∃ x, x ∈ l ∧ f x = Panic.
Proof.
  induction l as [| x l IH]; simpl; [done |].
  destruct (f x) as [y | e |] eqn:Ex; simpl.
  - destruct (result_mapM f l) as [ys | e |]; simpl; try done.
    intros _. destruct IH as (x' & ? & ?); [done |].
    exists x'. split; [by right | done].
  - done.
  - intros _. exists x. split; [by left | done].
Qed.

Lemma buildLayout_no_panic r : buildLayout r ≠ Panic.
Proof.
  unfold buildLayout. destruct (subvolPlanners !! SubvolType r); [| done].
  intros (i & _ & Hi)%result_mapM_Panic. revert Hi. unfold makeSubvol.
  destruct (result_mapM _ _) as [bs | e |] eqn:Eb; simpl; try done.
  intros _. apply result_mapM_Panic in Eb as (j & _ & Hj).
  revert Hj. unfold makeBrick. by case_match.
Qed.

(** The resolver panics in the division only, on a zero divisor. *)
Lemma resolveRequest_Panic req r :
  resolveRequest req = (r, Panic) →
  ∃ r2, topology req = (r2, Ok tt)
    ∧ DisperseDataCount r = DisperseDataCount r2
    ∧ 0 < MaxBrickSize r < Size r
    ∧ maxSubvolSize r = 0.
Proof.
  rewrite resolveRequest_topology.
  destruct (topology req) as [r2 [[] | e |]] eqn:Et.
  - unfold bind.
    destruct (checkMaxBrickSize r2) as [r3 [[] | e |]] eqn:E3; [| done |].
    + intros Hd. exists r2. split; [done |].
      assert (DisperseDataCount r3 = DisperseDataCount r2) as <-.
      { destruct (checkMaxBrickSize_frame _ _ _ E3) as [-> | ->]; done. }
      revert Hd. unfold deriveDistributeCount. unfold_req.
      destruct (Z.ltb_spec 0 (MaxBrickSize r3)); simpl; [| done].
      destruct (Z.ltb_spec (MaxBrickSize r3) (Size r3)); simpl; [| done].
      destruct (Z.eqb_spec (maxSubvolSize r3) 0).
      * intros ?; simplify_eq. by split_and!.
      * by case_match.
    + revert E3. unfold checkMaxBrickSize. unfold_req.
      repeat case_match; intros ?; simplify_eq.
  - done.
  - exfalso. revert Et. unfold topology, handleReplicaSubvolReq,
      handleDisperseSubvolReq. unfold_req. simpl.
    repeat case_match; intros ?; simplify_eq.
Qed.

(** X8. The planner panics in one place only, the division by the
    capacity of a subvolume, and only when the product of maximum
    brick size and data count wraps to zero in 64 bits. A request that
    gives no disperse count never makes it panic. *)
Theorem panic_needs_wrapped_capacity (req : t) :
  ((PlanBricks req).2 = Panic → (getBricksLayout req).2 = Panic)
  ∧ ((getBricksLayout req).2 = Panic →
       triggersDisperse req
       ∧ 0 < DisperseDataCount (getBricksLayout req).1
       ∧ 0 < MaxBrickSize (getBricksLayout req).1
           < Size (getBricksLayout req).1
       ∧ wrapU64 (MaxBrickSize (getBricksLayout req).1
                  * wrapU64 (DisperseDataCount (getBricksLayout req).1)) = 0).
Proof.
  split.
  - rewrite PlanBricks_unfold, getBricksLayout_unfold.
    destruct (GetAvailableVgs req) as [err | vgs]; [done |].
    case_decide; [done |].
    destruct (resolveRequest req) as [r [[] | e |]]; simpl; try done.
    destruct (buildLayout r) as [svs | e |]; simpl; try done.
    by destruct (planSubvols r vgs ∅ svs) as [[[? ?] ?] |].
  - rewrite getBricksLayout_unfold.
    destruct (resolveRequest req) as [r [[] | e |]] eqn:Er; simpl; try done.
    { intros Hb. by apply buildLayout_no_panic in Hb. }
    intros _.
    destruct (resolveRequest_Panic _ _ Er) as (r2 & Et & HDd & HM & Hz).
    assert (0 < DisperseDataCount r) as Hpos.
    { revert Hz. unfold maxSubvolSize.
      destruct (Z.ltb_spec 0 (DisperseDataCount r)); [done | lia]. }
    split_and!; try done; try lia.
    + destruct (decide (triggersDisperse req)) as [| Hidle]; [done |].
      exfalso. revert Et. unfold topology.
      intros (r0 & [] & H0 & (r1 & [] & H1 & H2)%bind_Ok)%bind_Ok.
      unfold modify in H0. simplify_eq.
      assert (¬ triggersDisperse r1
              ∧ DisperseDataCount r1 = DisperseDataCount req)
        as [Hidle1 HD1].
      { destruct (handleReplicaSubvolReq_frame _ _ _ H1) as [-> | ->];
          done. }
      rewrite (handleDisperseSubvolReq_idle _ Hidle1) in H2. simplify_eq.
      apply Hidle. intros (_ & ? & _). lia.
    + revert Hz. unfold maxSubvolSize.
      by destruct (Z.ltb_spec 0 (DisperseDataCount r)); [| lia].
Qed.

End FurtherResolverProperties.

Section FurtherLayoutProperties.
Context `{Collaborators}.
Import VolCreateReq.

(** ** The shape of the layout *)

Lemma makeSubvol_Ok req p i sv :
  makeSubvol req p i = Ok sv →
  result_mapM (makeBrick req p i) (seqZ 0 (BricksCount p))
    = Ok (SubvolReq.Bricks sv)
  ∧ SubvolReq.Type_ sv = SubvolType req
  ∧ SubvolReq.ReplicaCount sv = ReplicaCount req
  ∧ SubvolReq.ArbiterCount sv = ArbiterCount req
  ∧ SubvolReq.DisperseCount sv = DisperseCount req.
Proof.
  unfold makeSubvol.
  destruct (result_mapM _ _) as [bs | e |]; simpl; [| done | done].
  intros ?; by simplify_eq.
Qed.

(** Brick [j] of subvolume [i] of the layout is the brick that
    [makeBrick] returns for these indices. *)
Lemma buildLayout_lookup r init subvols i sv j b :
  subvolPlanners !! SubvolType r = Some init →
  buildLayout r = Ok subvols →
  subvols !! i = Some sv → SubvolReq.Bricks sv !! j = Some b →
  makeBrick r (init r (subvolSize r)) (Z.of_nat i) (Z.of_nat j) = Ok b.
Proof.
  intros Hinit. unfold buildLayout. rewrite Hinit.
  intros Hm%result_mapM_Ok Hi Hj.
  destruct (Forall2_lookup_r _ _ _ _ _ Hm Hi) as (i' & Hi' & Hsv).
  apply lookup_seqZ in Hi' as [-> _].
  apply makeSubvol_Ok in Hsv as (Hbs & _).
  apply result_mapM_Ok in Hbs.
  destruct (Forall2_lookup_r _ _ _ _ _ Hbs Hj) as (j' & Hj' & Hb).
  apply lookup_seqZ in Hj' as [-> _]. by rewrite !Z.add_0_l in Hb.
Qed.

(** X9. The layout of a request has as many subvolumes as
    [numSubvols] says, each with as many bricks as the strategy counts
    and with type and counts copied from the resolved request. *)
Theorem layout_shape (req r : t) init (subvols : list SubvolReq.t) :
  getBricksLayout req = (r, Ok subvols) →
  subvolPlanners !! SubvolType r = Some init →
  length subvols = Z.to_nat (numSubvols r)
  ∧ Forall (λ sv,
      length (SubvolReq.Bricks sv)
        = Z.to_nat (BricksCount (init r (subvolSize r)))
      ∧ SubvolReq.Type_ sv = SubvolType r
      ∧ SubvolReq.ReplicaCount sv = ReplicaCount r
      ∧ SubvolReq.ArbiterCount sv = ArbiterCount r
      ∧ SubvolReq.DisperseCount sv = DisperseCount r) subvols.
Proof.
  rewrite getBricksLayout_unfold.
  destruct (resolveRequest req) as [r' [[] | e |]]; [| done | done].
  intros Hrun Hinit. injection Hrun as -> Hrun. revert Hrun.
  unfold buildLayout. rewrite Hinit.
  intros Hm%result_mapM_Ok. split.
  - by rewrite <- (Forall2_length _ _ _ Hm), length_seqZ.
  - apply Forall_forall. intros sv Hsv.
    apply list_elem_of_lookup in Hsv as [n Hn].
    destruct (Forall2_lookup_r _ _ _ _ _ Hm Hn) as (i & _ & Hi).
    apply makeSubvol_Ok in Hi as (Hbs & ? & ? & ? & ?).
    apply result_mapM_Ok in Hbs.
    split_and!; try done.
    by rewrite <- (Forall2_length _ _ _ Hbs), length_seqZ.
Qed.

(** ** Names *)

Lemma string_of_uint_digits d : allDigits (NilEmpty.string_of_uint d) = true.
Proof. induction d; simpl; by rewrite ?IHd. Qed.

(** [strconv.Itoa] prints a number that is not negative with digits
    only, and different numbers differently. *)
Lemma itoa_digits z : 0 ≤ z → allDigits (itoa z) = true.
Proof.
  intros Hz. unfold itoa. destruct z as [| p | p]; [done | | lia].
  simpl. unfold NilZero.string_of_uint.
  destruct (Pos.to_uint p); try done; apply string_of_uint_digits.
Qed.

Lemma itoa_inj z z' : itoa z = itoa z' → z = z'.
Proof.
  unfold itoa. intros Heq. apply DecimalZ.to_int_inj.
  assert (∀ z, Z.to_int z ≠ Decimal.Pos Decimal.Nil
               ∧ Z.to_int z ≠ Decimal.Neg Decimal.Nil) as Hnn.
  { intros [| p | p]; simpl; split; try done;
      intros [= Hp]; by apply Unsigned.to_uint_nonnil in Hp. }
  destruct (Hnn z) as [H1 H2]. destruct (Hnn z') as [H1' H2'].
  pose proof (NilZero.isi _ H1 H2) as Hz.
  pose proof (NilZero.isi _ H1' H2') as Hz'.
  rewrite Heq in Hz. congruence.
Qed.

(** Two digit strings that are followed by the same character, not a
    digit, end where that character stands. *)
Lemma digits_split s1 s2 c t1 t2 :
  allDigits s1 = true → allDigits s2 = true →
  allDigits (String c "") = false →
  s1 +:+ String c t1 = s2 +:+ String c t2 →
  s1 = s2 ∧ t1 = t2.
Proof.
  intros H1 H2 Hc. revert s2 H2.
  induction s1 as [| a s1 IH]; intros [| a' s2] H2; simpl.
  - intros ?; by simplify_eq.
  - intros ?; simplify_eq. simpl in H2, Hc.
    apply andb_prop in H2 as [H2 _]. rewrite H2 in Hc. done.
  - intros ?; simplify_eq. simpl in H1, Hc.
    apply andb_prop in H1 as [H1 _]. rewrite H1 in Hc. done.
  - intros ?; simplify_eq. simpl in H1, H2.
    apply andb_prop in H1 as [_ H1]. apply andb_prop in H2 as [_ H2].
    destruct (IH H1 s2 H2) as [-> ->]; done.
Qed.

(** The names that [makeBrick] gives to the bricks at two pairs of
    indices differ when the pairs differ. *)
Lemma makeBrick_names req p i j i' j' b b' :
  0 ≤ i → 0 ≤ j → 0 ≤ i' → 0 ≤ j' →
  makeBrick req p i j = Ok b → makeBrick req p i' j' = Ok b' →
  BrickReq.LvName b = BrickReq.LvName b'
  ∨ BrickReq.TpName b = BrickReq.TpName b'
  ∨ BrickReq.Path b = BrickReq.Path b' →
  i = i' ∧ j = j'.
Proof.
  intros Hi Hj Hi' Hj'. unfold makeBrick.
  destruct (BrickSize p j <? minBrickSize); [done |].
  destruct (BrickSize p j' <? minBrickSize); [done |].
  intros ? ?; simplify_eq. simpl.
  assert (∀ s s' : string,
    itoa (i + 1) +:+ String "_"%char s = itoa (i' + 1) +:+ String "_"%char s' →
    i = i' ∧ s = s') as Hs.
  { intros s s' Heq.
    apply digits_split in Heq as [Hii ?];
      [| apply itoa_digits; lia | apply itoa_digits; lia | done].
    apply itoa_inj in Hii. split; [lia | done]. }
  intros [Heq | [Heq | Heq]].
  - do 3 apply String.app_inj in Heq.
    apply Hs in Heq as [-> Heq]. split; [done |].
    apply (String.app_inj "b") in Heq. apply itoa_inj in Heq. lia.
  - do 3 apply String.app_inj in Heq.
    apply Hs in Heq as [-> Heq]. split; [done |].
    apply (String.app_inj "b") in Heq. apply itoa_inj in Heq. lia.
  - do 4 apply String.app_inj in Heq.
    change ("/brick" +:+ itoa (j + 1) +:+ "/brick")
      with (String "/"%char ("brick" +:+ itoa (j + 1) +:+ "/brick")) in Heq.
    change ("/brick" +:+ itoa (j' + 1) +:+ "/brick")
      with (String "/"%char ("brick" +:+ itoa (j' + 1) +:+ "/brick")) in Heq.
    apply digits_split in Heq as [Hii Heq];
      [| apply itoa_digits; lia | apply itoa_digits; lia | done].
    apply itoa_inj in Hii.
    apply (String.app_inj "brick") in Heq.
    apply digits_split in Heq as [Hjj _];
      [| apply itoa_digits; lia | apply itoa_digits; lia | done].
    apply itoa_inj in Hjj. lia.
Qed.

(** X10. No two bricks of a layout share a name: the logical-volume
    names, the thin-pool names and the mount paths of the bricks at
    different positions (subvolume, brick) all differ. *)
Theorem layout_names_unique (req r : t) (subvols : list SubvolReq.t)
    (i j i' j' : nat) (sv sv' : SubvolReq.t) (b b' : BrickReq.t) :
  getBricksLayout req = (r, Ok subvols) →
  subvols !! i = Some sv → SubvolReq.Bricks sv !! j = Some b →
  subvols !! i' = Some sv' → SubvolReq.Bricks sv' !! j' = Some b' →
  (i, j) ≠ (i', j') →
  BrickReq.LvName b ≠ BrickReq.LvName b'
  ∧ BrickReq.TpName b ≠ BrickReq.TpName b'
  ∧ BrickReq.Path b ≠ BrickReq.Path b'.
Proof.
  rewrite getBricksLayout_unfold.
  destruct (resolveRequest req) as [r' [[] | e |]]; [| done | done].
  intros ? Hi Hj Hi' Hj' Hne; simplify_eq.
  destruct (buildLayout_Ok r subvols ltac:(done)) as (init & Hinit & _).
  pose proof (buildLayout_lookup _ _ _ _ _ _ _ Hinit ltac:(done) Hi Hj) as Hb.
  pose proof (buildLayout_lookup _ _ _ _ _ _ _ Hinit ltac:(done) Hi' Hj')
    as Hb'.
  assert (∀ P : Prop, (P → Z.of_nat i = Z.of_nat i' ∧ Z.of_nat j = Z.of_nat j')
                      → ¬ P) as Hno.
  { intros P HP HPp. destruct (HP HPp). apply Hne. f_equal; lia. }
  split_and!; apply Hno; intros Heq;
    eapply (makeBrick_names _ _ _ _ _ _ _ _ _ _ _ _ Hb Hb'); eauto.
  Unshelve. all: lia.
Qed.

(** X11. The subvolumes of a layout are alike: the bricks at the same
    index of two subvolumes differ in their names and mount paths only;
    type, sizes, file system and mount options agree, and the mount
    options end in the loop option exactly under the loop provisioner. *)
Theorem subvolumes_alike (req r : t) (subvols : list SubvolReq.t)
    (i i' j : nat) (sv sv' : SubvolReq.t) (b b' : BrickReq.t) :
  getBricksLayout req = (r, Ok subvols) →
  subvols !! i = Some sv → SubvolReq.Bricks sv !! j = Some b →
  subvols !! i' = Some sv' → SubvolReq.Bricks sv' !! j = Some b' →
  BrickReq.Type_ b = BrickReq.Type_ b'
  ∧ BrickReq.Size b = BrickReq.Size b'
  ∧ BrickReq.TpSize b = BrickReq.TpSize b'
  ∧ BrickReq.TpMetadataSize b = BrickReq.TpMetadataSize b'
  ∧ BrickReq.TotalSize b = BrickReq.TotalSize b'
  ∧ BrickReq.TotalSize b
    = wrapU64 (BrickReq.TpSize b + BrickReq.TpMetadataSize b)
  ∧ BrickReq.BrickDirSuffix b = "/brick"
  ∧ BrickReq.FsType b = "xfs"
  ∧ BrickReq.MntOpts b = BrickReq.MntOpts b'
  ∧ BrickReq.MntOpts b
    = (if String.eqb (ProvisionerType req) ProvisionerTypeLoop
       then "rw,inode64,noatime,nouuid,discard,loop"
       else "rw,inode64,noatime,nouuid,discard").
Proof.
  rewrite getBricksLayout_unfold.
  destruct (resolveRequest req) as [r' [[] | e |]] eqn:Hres; [| done | done].
  intros Hrun Hi Hj Hi' Hj'. injection Hrun as -> Hrun.
  apply resolveRequest_sameInputs in Hres as (_ & _ & _ & _ & Hpt & _).
  destruct (buildLayout_Ok r subvols Hrun) as (init & Hinit & _).
  pose proof (buildLayout_lookup _ _ _ _ _ _ _ Hinit Hrun Hi Hj) as Hb.
  pose proof (buildLayout_lookup _ _ _ _ _ _ _ Hinit Hrun Hi' Hj') as Hb'.
  revert Hb Hb'. unfold makeBrick.
  destruct (_ <? minBrickSize); [done |].
  intros ? ?; simplify_eq. simpl. rewrite Hpt.
  by split_and!.
Qed.

End FurtherLayoutProperties.

Section FurtherAllocatorProperties.
Context `{Collaborators}.
Import VolCreateReq.

(** *** What the allocator writes *)

(** X12. The allocator writes the placement only. A successful plan is
    the resolved request with the subvolumes of the layout, and these
    differ from the layout in the four placement fields of their bricks
    alone: number and order of subvolumes and bricks, types, counts,
    names, paths and sizes are those of the layout. *)
Theorem allocator_keeps_layout (req req' r : t)
    (subvols : list SubvolReq.t) :
  PlanBricks req = (req', Ok tt) →
  getBricksLayout req = (r, Ok subvols) →
  req' = set_Subvols (Subvols req') r
  ∧ Forall2 sameShape subvols (Subvols req').
Proof.
  intros Hrun Hlay.
  apply PlanBricks_Ok in Hrun
    as (vgs & r' & svs & svs' & vgs' & zs' & _ & _ & Hres & Hb & Hp & ->).
  rewrite getBricksLayout_unfold, Hres in Hlay.
  injection Hlay as <- Hlay. rewrite Hb in Hlay. simplify_eq. simpl.
  split; [done |]. by eapply planSubvols_sameShape.
Qed.

Lemma pathOnDevice_placeBrick req vg b :
  BrickReq.DevicePath (placeBrick req vg b)
  = pathOnDevice req (placeBrick req vg b).
Proof. done. Qed.

(** X13. The device path of a placed brick follows from the fields of
    the brick and the provisioner of the request: under the loop
    provisioner the image file below the root device, else the logical
    volume below the volume group. *)
Theorem device_path_format (req req' : t) :
  PlanBricks req = (req', Ok tt) →
  Forall (λ sv,
    Forall (λ b, BrickReq.DevicePath b ≠ "" →
                 BrickReq.DevicePath b = pathOnDevice req b)
           (SubvolReq.Bricks sv)) (Subvols req').
Proof.
  intros Hrun.
  apply PlanBricks_Ok in Hrun
    as (vgs & r & svs & svs' & vgs' & zs' & _ & _ & Hres & Hb & Hp & ->).
  simpl.
  assert (pathOnDevice req = pathOnDevice r) as ->.
  { apply resolveRequest_sameInputs in Hres as (_ & _ & _ & _ & Hpt & _).
    unfold pathOnDevice. by rewrite Hpt. }
  eapply (planSubvols_bricks r
            (λ b, BrickReq.DevicePath b ≠ "" →
                  BrickReq.DevicePath b = pathOnDevice r b)); [| | exact Hp].
  - intros vg b _ _. apply pathOnDevice_placeBrick.
  - eapply Forall_impl; [by apply (buildLayout_unplaced r) |].
    intros sv Hsv. eapply Forall_impl; [exact Hsv |]. by intros b -> ?.
Qed.

(** X14. Whatever the outcome, the planner leaves the inputs of the
    request as they were: name, size, replica and arbiter count,
    provisioner, reserve factor and overlap flag; the subvolumes are
    the only one of these fields it ever assigns. *)
Theorem PlanBricks_keeps_inputs (req : t) :
  sameInputs req (set_Subvols (Subvols req) (PlanBricks req).1).
Proof.
  rewrite PlanBricks_unfold.
  destruct (GetAvailableVgs req) as [err | vgs]; [done |].
  case_decide; [done |].
  destruct (resolveRequest req) as [r out] eqn:Hres.
  apply resolveRequest_sameInputs in Hres.
  assert (sameInputs req (set_Subvols (Subvols req) r)) as Hr.
  { destruct Hres as (? & ? & ? & ? & ? & ? & ? & ?).
    unfold sameInputs. simpl. done. }
  destruct out as [[] | e |]; [| done ..].
  destruct (buildLayout r) as [subvols | e |]; [| done ..].
  destruct (planSubvols r vgs ∅ subvols) as [[[svs' vgs'] zs'] |]; done.
Qed.

(** *** Zones bound the bricks *)

Lemma updateVg_zones k b vg vgs :
  vgs !! k = Some vg →
  Vg.Zone <$> updateVg k (consume b vg) vgs = Vg.Zone <$> vgs.
Proof.
  intros Hk. unfold updateVg. destruct vgsByPointer; [| done].
  rewrite list_fmap_insert. simpl. apply list_insert_id.
  by rewrite list_lookup_fmap, Hk.
Qed.

Lemma tryPlace_zone_count req fresh inv Z1 st bidx :
  Vg.Zone <$> availableVgs st = Vg.Zone <$> inv →
  Z1 ⊆ zones st → zones st ⊆ Z1 ∪ zonesOf inv →
  size (zones st) = (size Z1 + numBricksAllocated st)%nat →
  let st' := tryPlace req fresh st bidx in
  Vg.Zone <$> availableVgs st' = Vg.Zone <$> inv
  ∧ Z1 ⊆ zones st' ∧ zones st' ⊆ Z1 ∪ zonesOf inv
  ∧ size (zones st') = (size Z1 + numBricksAllocated st')%nat.
Proof.
  intros Hz Hlo Hup Hsz. simpl.
  destruct (tryPlace_cases req fresh st bidx)
    as [-> | (b & k & vg & Hb & Hk & (_ & Hnew & _) & ->)]; [done |].
  simpl. split_and!.
  - by rewrite updateVg_zones.
  - by apply union_subseteq_r'.
  - apply union_subseteq. split; [| done].
    apply singleton_subseteq_l, elem_of_union_r.
    unfold zonesOf. rewrite <- Hz. apply elem_of_list_to_set.
    apply list_elem_of_fmap. exists vg. split; [done |].
    by eapply list_elem_of_lookup_2.
  - rewrite size_union by (by apply disjoint_singleton_l).
    rewrite size_singleton. lia.
Qed.

Lemma pass_zone_count req fresh inv Z1 st k m :
  Vg.Zone <$> availableVgs st = Vg.Zone <$> inv →
  Z1 ⊆ zones st → zones st ⊆ Z1 ∪ zonesOf inv →
  size (zones st) = (size Z1 + numBricksAllocated st)%nat →
  let st' := foldl (tryPlace req fresh) st (seq k m) in
  Vg.Zone <$> availableVgs st' = Vg.Zone <$> inv
  ∧ Z1 ⊆ zones st' ∧ zones st' ⊆ Z1 ∪ zonesOf inv
  ∧ size (zones st') = (size Z1 + numBricksAllocated st')%nat.
Proof.
  intros Hz Hlo Hup Hsz. simpl.
  apply (pass_preserves req fresh
    (λ s, Vg.Zone <$> availableVgs s = Vg.Zone <$> inv
          ∧ Z1 ⊆ zones s ∧ zones s ⊆ Z1 ∪ zonesOf inv
          ∧ size (zones s) = (size Z1 + numBricksAllocated s)%nat));
    [| done].
  intros s i (? & ? & ? & ?). by apply tryPlace_zone_count.
Qed.

Lemma planSubvol_zone_count req inv vgs zones0 sv st :
  Vg.Zone <$> vgs = Vg.Zone <$> inv →
  planSubvol req vgs zones0 sv = Some st →
  let Z1 : gset string := if SubvolZonesOverlap req then ∅ else zones0 in
  Vg.Zone <$> availableVgs st = Vg.Zone <$> inv
  ∧ Z1 ⊆ zones st ∧ zones st ⊆ Z1 ∪ zonesOf inv
  ∧ size (zones st) = (size Z1 + length (SubvolReq.Bricks sv))%nat
  ∧ length (bricks st) = length (SubvolReq.Bricks sv).
Proof.
  intros Hz. unfold planSubvol.
  set (Z1 := if SubvolZonesOverlap req then ∅ else zones0).
  set (st0 := Build_AllocState _ _ _ _).
  pose proof (pass_zone_count req true inv Z1 st0 0
                (length (bricks st0)) Hz ltac:(done)
                ltac:(by apply union_subseteq_l)
                ltac:(simpl; lia)) as H1.
  fold (firstPass req st0) in H1. simpl in H1.
  pose proof (pass_length req true st0 0 (length (bricks st0))) as Hl1.
  fold (firstPass req st0) in Hl1.
  destruct H1 as (Hz1 & Hlo1 & Hup1 & Hsz1).
  case_decide as Hd1.
  { intros ?; simplify_eq. simpl. rewrite Hd1. split_and!; try done.
    by rewrite Hl1. }
  pose proof (pass_zone_count req false inv Z1 (firstPass req st0)
                (numBricksAllocated (firstPass req st0))
                (length (bricks (firstPass req st0))
                 - numBricksAllocated (firstPass req st0))
                Hz1 Hlo1 Hup1 Hsz1) as H2.
  fold (secondPass req (firstPass req st0)) in H2. simpl in H2.
  pose proof (pass_length req false (firstPass req st0)
                (numBricksAllocated (firstPass req st0))
                (length (bricks (firstPass req st0))
                 - numBricksAllocated (firstPass req st0))) as Hl2.
  fold (secondPass req (firstPass req st0)) in Hl2.
  destruct H2 as (Hz2 & Hlo2 & Hup2 & Hsz2).
  case_decide as Hd2; [| done].
  intros ?; simplify_eq. simpl. rewrite Hd2. split_and!; try done.
  by rewrite Hl2, Hl1.
Qed.

Lemma planSubvols_zone_count req inv vgs zones0 subvols subvols' vgs' zones' :
  Vg.Zone <$> vgs = Vg.Zone <$> inv →
  planSubvols req vgs zones0 subvols = Some (subvols', vgs', zones') →
  Forall (λ sv, (length (SubvolReq.Bricks sv) ≤ size (zonesOf inv))%nat)
         subvols'
  ∧ (SubvolZonesOverlap req = false →
       zones0 ⊆ zones' ∧ zones' ⊆ zones0 ∪ zonesOf inv
       ∧ size zones'
         = (size zones0 + length (concat (SubvolReq.Bricks <$> subvols')))%nat).
Proof.
  revert vgs zones0 subvols' vgs' zones'.
  induction subvols as [| sv rest IH]; intros vgs zones0 subvols' vgs' zones';
    simpl; intros Hz.
  - intros ?; simplify_eq. split; [constructor |].
    intros _. simpl. split_and!; [done | by apply union_subseteq_l | lia].
  - destruct (planSubvol req vgs zones0 sv) as [st |] eqn:Ep; [| done].
    destruct (planSubvols req (availableVgs st) (zones st) rest)
      as [[[rest' vgs''] zones''] |] eqn:Er; [| done].
    intros ?; simplify_eq.
    destruct (planSubvol_zone_count _ _ _ _ _ _ Hz Ep)
      as (Hz1 & Hlo & Hup & Hsz & Hlen).
    destruct (IH _ _ _ _ _ Hz1 Er) as [IH1 IH2].
    split.
    + constructor; [| done]. simpl. rewrite Hlen.
      set (Z1 := if SubvolZonesOverlap req then ∅ else zones0) in *.
      assert (zones st ∖ Z1 ⊆ zonesOf inv) as Hsub.
      { intros z [Hel Hn]%elem_of_difference.
        apply Hup, elem_of_union in Hel as [Hel' | Hel']; done. }
      apply subseteq_size in Hsub.
      rewrite size_difference in Hsub by done. lia.
    + intros Hov. rewrite Hov in Hlo, Hup, Hsz.
      destruct (IH2 Hov) as (Hlo' & Hup' & Hsz').
      rewrite fmap_cons. cbn [concat]. rewrite length_app.
      cbn [withBricks SubvolReq.Bricks]. rewrite Hlen.
      split_and!; [by etrans | | lia].
      intros z Hel. apply Hup', elem_of_union in Hel as [Hel' | Hel'];
        [by apply Hup | by apply elem_of_union_r].
Qed.

(** X15. A plan never has more bricks in a subvolume than the
    inventory has zones, and without the overlap flag never more bricks
    in the whole volume: every device that takes a brick adds a zone
    that was not in use. *)
Theorem bricks_bounded_by_zones (req req' : t) (inv : list Vg.t) :
  GetAvailableVgs req = inr inv →
  PlanBricks req = (req', Ok tt) →
  Forall (λ sv, (length (SubvolReq.Bricks sv) ≤ size (zonesOf inv))%nat)
         (Subvols req')
  ∧ (SubvolZonesOverlap req = false →
       (length (concat (SubvolReq.Bricks <$> Subvols req'))
        ≤ size (zonesOf inv))%nat).
Proof.
  intros Hinv Hrun.
  apply PlanBricks_Ok in Hrun
    as (vgs & r & svs & svs' & vgs' & zs' & Hvgs & _ & Hres & Hb & Hp & ->).
  rewrite Hinv in Hvgs. simplify_eq. simpl.
  destruct (planSubvols_zone_count _ vgs _ _ _ _ _ _ eq_refl Hp) as [H1 H2].
  split; [done |]. intros Hov.
  apply resolveRequest_sameInputs in Hres
    as (_ & _ & _ & _ & _ & _ & Hov' & _).
  rewrite Hov in Hov'. destruct (H2 (eq_sym Hov')) as (_ & Hup & Hsz).
  assert (zs' ⊆ zonesOf vgs) as Hsub.
  { intros z Hz. apply Hup, elem_of_union in Hz as [Hz' | Hz']; [| done].
    by apply elem_of_empty in Hz'. }
  apply subseteq_size in Hsub. rewrite size_empty in Hsz. lia.
Qed.

(** *** No device is over-committed *)

Lemma load_unplaced k bs : load k bs (replicate (length bs) None) = 0.
Proof. unfold load. induction bs as [| b bs IH]; simpl; [done | lia]. Qed.

Lemma load_app k bs bs' ds ds' :
  length bs = length ds →
  load k (bs ++ bs') (ds ++ ds') = load k bs ds + load k bs' ds'.
Proof.
  intros Hlen. unfold load. rewrite zip_with_app by done.
  rewrite foldr_app.
  generalize (zip_with
    (λ b d, if decide (d = Some k) then BrickReq.TotalSize b else 0) bs ds).
  intros l. induction l as [| x l IH]; simpl; lia.
Qed.

Lemma load_insert k bs ds n b d b' d' :
  bs !! n = Some b → ds !! n = Some d →
  BrickReq.TotalSize b' = BrickReq.TotalSize b →
  load k (<[n := b']> bs) (<[n := d']> ds)
  = load k bs ds
    - (if decide (d = Some k) then BrickReq.TotalSize b else 0)
    + (if decide (d' = Some k) then BrickReq.TotalSize b else 0).
Proof.
  intros Hb Hd HT. unfold load.
  rewrite <- insert_zip_with.
  rewrite (sum_insert _ n
    (if decide (d = Some k) then BrickReq.TotalSize b else 0)).
  - by rewrite HT.
  - by rewrite lookup_zip_with, Hb, Hd.
Qed.

Lemma tryPlace_cap req fresh inv used st bidx :
  vgsByPointer = true →
  (∃ ds, capInv inv used st ds) →
  ∃ ds, capInv inv used (tryPlace req fresh st bidx) ds.
Proof.
  intros Hptr (ds & Hsized & Hsame & Hpos & Hon & Hload).
  destruct (tryPlace_cases req fresh st bidx)
    as [-> | (b & k0 & vg & Hb & Hk0 & (Hfit & _ & _) & ->)];
    [by exists ds |].
  destruct (Forall2_lookup_l _ _ _ _ _ Hon Hb) as (d & Hd & _).
  destruct (Forall2_lookup_r _ _ _ _ _ Hsame Hk0)
    as (vg0 & Hvg0 & (HP & HN & HZ & HD)).
  pose proof (Forall_lookup_1 _ _ _ _ Hsized Hk0) as Havail.
  pose proof (Forall_lookup_1 _ _ _ _ Hpos Hb) as HT. simpl in HT.
  assert (Vg.AvailableSize (consume b vg)
          = Vg.AvailableSize vg - BrickReq.TotalSize b) as Hcons.
  { simpl. apply wrapU64_id. unfold isU64 in *. lia. }
  exists (<[bidx := Some k0]> ds). unfold capInv, updateVg. simpl.
  rewrite Hptr. split_and!.
  - apply Forall_insert; [done |]. unfold isU64 in *. rewrite Hcons. lia.
  - rewrite <- (list_insert_id inv k0 vg0) by done.
    apply Forall2_insert; [done |]. by unfold sameDevice.
  - apply Forall_insert; [done |]. done.
  - apply Forall2_insert; [done |]. simpl. exists vg0.
    split_and!; try done. apply devicePath_nonempty.
  - intros k v0 v Hv0 Hv.
    rewrite (load_insert k _ _ _ b d) by done.
    destruct (decide (k = k0)) as [-> | Hne].
    + rewrite list_lookup_insert_eq in Hv
        by (by eapply lookup_lt_Some). simplify_eq.
      rewrite Hcons, (decide_True (P := Some k0 = Some k0)) by done.
      pose proof (Hload _ _ _ Hvg0 Hk0). case_decide; lia.
    + rewrite list_lookup_insert_ne in Hv by done.
      rewrite (decide_False (P := Some k0 = Some k)) by congruence.
      pose proof (Hload _ _ _ Hv0 Hv). case_decide; lia.
Qed.

Lemma planSubvol_cap req inv used vgs zones0 sv st :
  vgsByPointer = true →
  inventorySized vgs → Forall2 sameDevice inv vgs →
  Forall (λ b, 0 ≤ BrickReq.TotalSize b ∧ BrickReq.DevicePath b = "")
         (SubvolReq.Bricks sv) →
  (∀ k vg0 vg, inv !! k = Some vg0 → vgs !! k = Some vg →
     Vg.AvailableSize vg + used k ≤ Vg.AvailableSize vg0) →
  planSubvol req vgs zones0 sv = Some st →
  ∃ ds, capInv inv used st ds.
Proof.
  intros Hptr Hsized Hsame Hbs Hused. unfold planSubvol.
  set (st0 := Build_AllocState _ _ _ _).
  assert (∃ ds, capInv inv used st0 ds) as H0.
  { exists (replicate (length (SubvolReq.Bricks sv)) None).
    unfold capInv. simpl. split_and!; try done.
    - eapply Forall_impl; [exact Hbs |]. by intros b [? _].
    - apply Forall2_replicate_r; [done |].
      eapply Forall_impl; [exact Hbs |]. by intros b [_ ?].
    - intros k vg0 vg Hk0 Hk. rewrite load_unplaced.
      pose proof (Hused _ _ _ Hk0 Hk). lia. }
  assert (∃ ds, capInv inv used (firstPass req st0) ds) as H1.
  { apply (pass_preserves req true (λ s, ∃ ds, capInv inv used s ds));
      [| done].
    intros s i. by apply tryPlace_cap. }
  case_decide; [by intros ?; simplify_eq |].
  case_decide; [| done]. intros ?; simplify_eq.
  apply (pass_preserves req false (λ s, ∃ ds, capInv inv used s ds));
    [| done].
  intros s i. by apply tryPlace_cap.
Qed.

Lemma planSubvols_cap req inv used vgs zones0 subvols subvols' vgs' zones' :
  vgsByPointer = true →
  inventorySized vgs → Forall2 sameDevice inv vgs →
  Forall (λ sv,
    Forall (λ b, 0 ≤ BrickReq.TotalSize b ∧ BrickReq.DevicePath b = "")
           (SubvolReq.Bricks sv)) subvols →
  (∀ k vg0 vg, inv !! k = Some vg0 → vgs !! k = Some vg →
     Vg.AvailableSize vg + used k ≤ Vg.AvailableSize vg0) →
  planSubvols req vgs zones0 subvols = Some (subvols', vgs', zones') →
  ∃ ds,
    Forall2 (onDevice inv) (concat (SubvolReq.Bricks <$> subvols')) ds
    ∧ inventorySized vgs'
    ∧ Forall2 sameDevice inv vgs'
    ∧ ∀ k vg0 vg, inv !! k = Some vg0 → vgs' !! k = Some vg →
        Vg.AvailableSize vg + used k
        + load k (concat (SubvolReq.Bricks <$> subvols')) ds
        ≤ Vg.AvailableSize vg0.
Proof.
  intros Hptr. revert used vgs zones0 subvols' vgs' zones'.
  induction subvols as [| sv rest IH];
    intros used vgs zones0 subvols' vgs' zones' Hsized Hsame Hbs Hused; simpl.
  - intros ?; simplify_eq. exists []. simpl. split_and!; try done.
    intros k vg0 vg Hk0 Hk. pose proof (Hused _ _ _ Hk0 Hk).
    unfold load. simpl. lia.
  - destruct (planSubvol req vgs zones0 sv) as [st |] eqn:Ep; [| done].
    destruct (planSubvols req (availableVgs st) (zones st) rest)
      as [[[rest' vgs''] zones''] |] eqn:Er; [| done].
    intros ?; simplify_eq.
    apply Forall_cons in Hbs as [Hsv Hrest].
    destruct (planSubvol_cap _ _ _ _ _ _ _ Hptr Hsized Hsame Hsv Hused Ep)
      as (ds1 & Hsized1 & Hsame1 & _ & Hon1 & Hload1).
    assert (∀ k vg0 vg, inv !! k = Some vg0 → availableVgs st !! k = Some vg →
              Vg.AvailableSize vg + (used k + load k (bricks st) ds1)
              ≤ Vg.AvailableSize vg0) as Hused1.
    { intros k vg0 vg Hk0 Hk. pose proof (Hload1 _ _ _ Hk0 Hk). lia. }
    destruct (IH (λ k, used k + load k (bricks st) ds1) _ _ _ _ _
                Hsized1 Hsame1 Hrest Hused1 Er)
      as (ds2 & Hon2 & Hsized2 & Hsame2 & Hload2).
    exists (ds1 ++ ds2). rewrite fmap_cons. cbn [concat].
    cbn [withBricks SubvolReq.Bricks]. split_and!; try done.
    + by apply Forall2_app.
    + intros k vg0 vg Hk0 Hk.
      rewrite load_app by (by eapply Forall2_length).
      pose proof (Hload2 _ _ _ Hk0 Hk). lia.
Qed.

Lemma buildLayout_sized r subvols :
  buildLayout r = Ok subvols →
  Forall (λ sv,
    Forall (λ b, 0 ≤ BrickReq.TotalSize b ∧ BrickReq.DevicePath b = "")
           (SubvolReq.Bricks sv)) subvols.
Proof.
  intros Hb. destruct (buildLayout_Ok _ _ Hb) as (init & _ & HF).
  eapply Forall_impl; [exact HF |]. intros sv Hsv.
  eapply Forall_impl; [exact Hsv |].
  intros b (j & _ & _ & HT & Hpath). split; [| done].
  rewrite HT. apply wrapU64_range.
Qed.

(** X16. With an inventory whose devices the scan updates in place, a
    plan never asks more of a device than it has: every placed brick
    sits on one device of the inventory, and the total sizes of the
    bricks on a device add up to at most its available size. *)
Theorem no_device_overcommitted (req req' : t) (inv : list Vg.t) :
  vgsByPointer = true →
  GetAvailableVgs req = inr inv →
  inventorySized inv →
  PlanBricks req = (req', Ok tt) →
  ∃ ds,
    Forall2 (onDevice inv) (concat (SubvolReq.Bricks <$> Subvols req')) ds
    ∧ ∀ k vg, inv !! k = Some vg →
        load k (concat (SubvolReq.Bricks <$> Subvols req')) ds
        ≤ Vg.AvailableSize vg.
Proof.
  intros Hptr Hinv Hsized Hrun.
  apply PlanBricks_Ok in Hrun
    as (vgs & r & svs & svs' & vgs' & zs' & Hvgs & _ & Hres & Hb & Hp & ->).
  rewrite Hinv in Hvgs. simplify_eq. simpl.
  assert (∀ k vg0 vg, vgs !! k = Some vg0 → vgs !! k = Some vg →
            Vg.AvailableSize vg + 0 ≤ Vg.AvailableSize vg0) as Hused.
  { intros k vg0 vg Hk0 Hk. simplify_eq. lia. }
  destruct (planSubvols_cap r vgs (λ _, 0) vgs ∅ svs svs' vgs' zs'
              Hptr Hsized (sameDevice_refl _) (buildLayout_sized _ _ Hb)
              Hused Hp) as (ds & Hon & Hsized' & Hsame' & Hload).
  exists ds. split; [done |]. intros k vg0 Hk0.
  destruct (Forall2_lookup_l _ _ _ _ _ Hsame' Hk0) as (vg & Hk & _).
  pose proof (Hload _ _ _ Hk0 Hk).
  pose proof (Forall_lookup_1 _ _ _ _ Hsized' Hk) as Hv.
  unfold isU64 in Hv. lia.
Qed.

(** *** Enough zones suffice *)

Lemma size_remove (X : gset string) z :
  (size X ≤ size (X ∖ {[z]}) + 1)%nat.
Proof.
  destruct (decide (z ∈ X)) as [Hin | Hout].
  - rewrite size_difference by (by apply singleton_subseteq_l).
    rewrite size_singleton. lia.
  - rewrite difference_disjoint_L by (by apply disjoint_singleton_r). lia.
Qed.

Lemma tryPlace_untouched req fresh inv st bidx :
  untouched inv (zones st) (availableVgs st) →
  untouched inv (zones (tryPlace req fresh st bidx))
            (availableVgs (tryPlace req fresh st bidx)).
Proof.
  intros Hun.
  destruct (tryPlace_cases req fresh st bidx)
    as [-> | (b & k & vg & Hb & Hk & _ & ->)]; [done |].
  simpl. intros k1 v1 Hk1 Hz1.
  apply not_elem_of_union in Hz1 as [Hne Hz1].
  pose proof (Hun _ _ Hk1 Hz1) as Hv1.
  unfold updateVg. destruct vgsByPointer; [| done].
  rewrite list_lookup_insert_ne; [done |].
  intros ->. simplify_eq. by apply Hne, elem_of_singleton.
Qed.

Lemma firstPass_places req inv (G : gset string) vgs Z0 bs0 (more : nat) :
  untouched inv Z0 vgs →
  (∀ z b, z ∈ G → b ∈ bs0 → freshRoom inv b z) →
  (length bs0 + more ≤ size (G ∖ Z0))%nat →
  let st1 := firstPass req
    {| availableVgs := vgs; zones := Z0; bricks := bs0;
       numBricksAllocated := 0 |} in
  numBricksAllocated st1 = length bs0
  ∧ untouched inv (zones st1) (availableVgs st1)
  ∧ (more ≤ size (G ∖ zones st1))%nat.
Proof.
  intros Hun Hroom Hsize. simpl.
  set (st0 := Build_AllocState _ _ _ _).
  pose (P := λ (i : nat) (s : AllocState),
    numBricksAllocated s = i
    ∧ BrickReq.TotalSize <$> bricks s = BrickReq.TotalSize <$> bs0
    ∧ untouched inv (zones s) (availableVgs s)
    ∧ (size (G ∖ Z0) ≤ size (G ∖ zones s) + i)%nat).
  assert (P (0 + length (bricks st0))%nat (firstPass req st0))
    as (Hn & _ & Hun1 & Hsz1).
  { unfold firstPass.
    apply (pass_ind req true P 0 (length (bricks st0)) st0).
    - unfold P. simpl. split_and!; try done. lia.
    - intros i s [_ Hi] (Hn & HT & Huns & Hsz). simpl in Hi.
      assert (is_Some (bricks s !! i)) as [b Hb].
      { apply lookup_lt_is_Some.
        rewrite <- (length_fmap BrickReq.TotalSize), HT, length_fmap. done. }
      assert (is_Some (bs0 !! i)) as [b0 Hb0]
        by (by apply lookup_lt_is_Some).
      assert (BrickReq.TotalSize b = BrickReq.TotalSize b0) as HTb.
      { apply (f_equal (λ l, l !! i)) in HT.
        rewrite !list_lookup_fmap, Hb, Hb0 in HT. by simplify_eq/=. }
      assert (∃ z, z ∈ G ∖ zones s) as [z [HzG Hzs]%elem_of_difference].
      { apply size_pos_elem_of. lia. }
      destruct (Hroom z b0 HzG ltac:(by eapply list_elem_of_lookup_2))
        as (k & vg & Hk & HZ & HU & HA).
      pose proof (Huns k vg Hk ltac:(by rewrite HZ)) as Hkv.
      pose proof (tryPlace_TotalSize req true s i) as HT'.
      pose proof (tryPlace_untouched req true inv s i Huns) as Hun'.
      destruct (tryPlace_inv req true s i b Hb)
        as [[_ Hno] | (k' & vg' & Hk' & Hfit' & Heq)].
      { exfalso. apply (Hno vg); [by eapply list_elem_of_lookup_2 |].
        unfold fits. rewrite HZ, HTb. done. }
      unfold P. split_and!.
      + rewrite Heq. simpl. by rewrite Hn.
      + by rewrite HT'.
      + done.
      + rewrite Heq. simpl.
        replace (G ∖ ({[Vg.Zone vg']} ∪ zones s))
          with (G ∖ zones s ∖ {[Vg.Zone vg']})
          by (rewrite difference_difference_l_L; f_equal;
              apply (comm_L (∪))).
        pose proof (size_remove (G ∖ zones s) (Vg.Zone vg')). lia. }
  simpl in Hn, Hsz1. split_and!; [done | done | lia].
Qed.

Lemma planSubvol_succeeds req inv (G : gset string) vgs zones0 sv
    (more : nat) :
  SubvolZonesOverlap req = false →
  untouched inv zones0 vgs →
  (∀ z b, z ∈ G → b ∈ SubvolReq.Bricks sv → freshRoom inv b z) →
  (length (SubvolReq.Bricks sv) + more ≤ size (G ∖ zones0))%nat →
  ∃ st, planSubvol req vgs zones0 sv = Some st
    ∧ untouched inv (zones st) (availableVgs st)
    ∧ (more ≤ size (G ∖ zones st))%nat.
Proof.
  intros Hov Hun Hroom Hsize. unfold planSubvol. rewrite Hov.
  destruct (firstPass_places req inv G vgs zones0 (SubvolReq.Bricks sv) more
              Hun Hroom Hsize) as (Hn & Hun1 & Hsz1).
  rewrite decide_True by done. by eexists.
Qed.

Lemma planSubvols_succeeds req inv (G : gset string) vgs zones0 subvols :
  SubvolZonesOverlap req = false →
  untouched inv zones0 vgs →
  (∀ z b, z ∈ G → b ∈ concat (SubvolReq.Bricks <$> subvols) →
          freshRoom inv b z) →
  (length (concat (SubvolReq.Bricks <$> subvols)) ≤ size (G ∖ zones0))%nat →
  is_Some (planSubvols req vgs zones0 subvols).
Proof.
  intros Hov. revert vgs zones0.
  induction subvols as [| sv rest IH]; intros vgs zones0 Hun Hroom Hsize;
    [done |].
  rewrite fmap_cons in Hroom, Hsize. cbn [concat] in Hroom, Hsize.
  rewrite length_app in Hsize.
  destruct (planSubvol_succeeds req inv G vgs zones0 sv
              (length (concat (SubvolReq.Bricks <$> rest))) Hov Hun)
    as (st & Hst & Hun1 & Hsz1); [| done |].
  { intros z b Hz Hb. apply Hroom; [done |]. apply elem_of_app. by left. }
  cbn [planSubvols]. rewrite Hst.
  destruct (IH (availableVgs st) (zones st) Hun1) as [[[rest' vgs'] zs'] Hr];
    [| done |].
  { intros z b Hz Hb. apply Hroom; [done |]. apply elem_of_app. by right. }
  rewrite Hr. done.
Qed.

(** X17. Enough zones suffice: without the overlap flag the allocator
    finds a place for every brick of the layout when the inventory has
    as many zones as the layout has bricks, each with an unused device
    that has room for any of them; the first pass alone places them. *)
Theorem enough_zones_suffice (req r : t) (inv : list Vg.t)
    (subvols : list SubvolReq.t) (G : gset string) :
  GetAvailableVgs req = inr inv → inv ≠ [] →
  SubvolZonesOverlap req = false →
  getBricksLayout req = (r, Ok subvols) →
  (∀ z b, z ∈ G → b ∈ concat (SubvolReq.Bricks <$> subvols) →
          freshRoom inv b z) →
  (length (concat (SubvolReq.Bricks <$> subvols)) ≤ size G)%nat →
  (PlanBricks req).2 = Ok tt.
Proof.
  intros Hinv Hne Hov Hlay Hroom Hsize.
  rewrite getBricksLayout_unfold in Hlay.
  rewrite PlanBricks_unfold, Hinv.
  rewrite decide_False by (by destruct inv).
  destruct (resolveRequest req) as [r' [[] | e |]] eqn:Hres; [| done ..].
  injection Hlay as -> Hlay. rewrite Hlay.
  apply resolveRequest_sameInputs in Hres
    as (_ & _ & _ & _ & _ & _ & Hov' & _).
  rewrite Hov in Hov'.
  destruct (planSubvols_succeeds r inv G inv ∅ subvols (eq_sym Hov'))
    as [[[svs' vgs'] zs'] Hp]; [by intros k vg ? _ | done | |].
  - by rewrite difference_empty_L.
  - by rewrite Hp.
Qed.

End FurtherAllocatorProperties.

(** * Properties of the volume-delete handler *)

Section HandlerProperties.
Import VolDelete.
Context `{Daemon}.

Ltac in_run :=
  repeat first [apply list_elem_of_here | apply list_elem_of_further].

Ltac not_in_run Hin :=
  repeat (apply elem_of_cons in Hin as [? | Hin]; [done |]);
  by apply elem_of_nil in Hin.

(** The runs of the handler, by the outcomes of the calls: the locks
    are refused; the request is refused with the locks held; the
    description of the volume cannot be handed over; the transaction
    fails; the transaction succeeds. *)
Lemma volumeDeleteHandler_cases volname :
  (∃ err status body,
     NewTxnWithLocks volname = Some err
     ∧ volumeDeleteHandler volname =
         [StartSpan "/volumeDeleteHandler"; NewTxn volname;
          SendHTTPError status body; SpanEnd])
  ∨ (∃ status body,
       NewTxnWithLocks volname = None
       ∧ (∀ volinfo, GetVolume volname = inr volinfo →
            Started volinfo = true ∨ SnapList volinfo ≠ [])
       ∧ volumeDeleteHandler volname =
           [StartSpan "/volumeDeleteHandler"; NewTxn volname;
            SendHTTPError status body; TxnDone; SpanEnd])
  ∨ (∃ volinfo,
       NewTxnWithLocks volname = None
       ∧ GetVolume volname = inr volinfo
       ∧ Started volinfo = false
       ∧ SnapList volinfo = []
       ∧ ((∃ err,
             CtxSet "volinfo" volinfo = Some err
             ∧ volumeDeleteHandler volname =
                 [StartSpan "/volumeDeleteHandler"; NewTxn volname;
                  SetCtx "volinfo" volinfo;
                  SendHTTPError StatusInternalServerError (inl err);
                  TxnDone; SpanEnd])
          ∨ (∃ err,
               CtxSet "volinfo" volinfo = None
               ∧ Do (deleteSteps volinfo) = Some err
               ∧ volumeDeleteHandler volname =
                   [StartSpan "/volumeDeleteHandler"; NewTxn volname;
                    SetCtx "volinfo" volinfo; AddAttributes volname;
                    RunTxn (deleteSteps volinfo); LogError err;
                    SendHTTPError StatusInternalServerError (inl err);
                    TxnDone; SpanEnd])
          ∨ (CtxSet "volinfo" volinfo = None
             ∧ Do (deleteSteps volinfo) = None
             ∧ volumeDeleteHandler volname =
                 [StartSpan "/volumeDeleteHandler"; NewTxn volname;
                  SetCtx "volinfo" volinfo; AddAttributes volname;
                  RunTxn (deleteSteps volinfo); Broadcast volinfo;
                  SendHTTPResponse StatusNoContent; TxnDone; SpanEnd]))).
Proof.
  unfold volumeDeleteHandler, replyError.
  destruct (NewTxnWithLocks volname) as [err |] eqn:Htxn.
  { left. destruct (ErrToStatusCode err) as [status err'].
    by eexists _, _, _. }
  right.
  destruct (GetVolume volname) as [err | volinfo] eqn:Hvol.
  { left. destruct (ErrToStatusCode err) as [status err'].
    by eexists _, _. }
  destruct (Started volinfo) eqn:Hst.
  { left. eexists _, _. split_and!; [done | | done].
    intros v ?; simplify_eq. by left. }
  destruct (SnapList volinfo) as [| snap snaps] eqn:Hsn.
  2: { left. eexists _, _. split_and!; [done | | done].
       intros v ?; simplify_eq. right. by rewrite Hsn. }
  right. exists volinfo. split_and!; try done. simpl.
  destruct (CtxSet "volinfo" volinfo) as [err |].
  { left. by exists err. }
  right. destruct (Do (deleteSteps volinfo)) as [err |].
  - left. by exists err.
  - by right.
Qed.

(** X18. Every run of the handler answers the request exactly once.
    Before the answer nothing is sent, and after it only the deferred
    calls run: the transaction is closed exactly when it was opened,
    and the span is ended last. *)
Theorem handler_replies_once (volname : string) :
  ∃ pre reply post,
    volumeDeleteHandler volname = pre ++ reply :: post
    ∧ isReply reply = true
    ∧ Forall (λ e, isReply e = false) pre
    ∧ (match NewTxnWithLocks volname with
       | None => post = [TxnDone; SpanEnd]
       | Some _ => post = [SpanEnd]
       end).
Proof.
  destruct (volumeDeleteHandler_cases volname)
    as [(err & s & b & -> & ->)
       | [(s & b & -> & _ & ->)
         | (v & -> & _ & _ & _ &
            [(err & _ & ->) | [(err & _ & _ & ->) | (_ & _ & ->)]])]].
  - eexists [_; _], _, _.
    split_and!; [reflexivity | done | by repeat constructor | done].
  - eexists [_; _], _, _.
    split_and!; [reflexivity | done | by repeat constructor | done].
  - eexists [_; _; _], _, _.
    split_and!; [reflexivity | done | by repeat constructor | done].
  - eexists [_; _; _; _; _; _], _, _.
    split_and!; [reflexivity | done | by repeat constructor | done].
  - eexists [_; _; _; _; _; _], _, _.
    split_and!; [reflexivity | done | by repeat constructor | done].
Qed.

(** X19. The transaction runs for a stopped volume without snapshots
    only: when the handler runs it, the locks were taken, the volume
    exists, is not started and has no snapshot, and its description
    was handed to the transaction. The steps are then the two that the
    package registers, in this order: [vol-delete.CleanBricks], which
    is [txnCleanBricks], on the nodes of the volume, skipped exactly
    when the bricks were provisioned by hand; and
    [vol-delete.Store], which is [deleteVolume], on this node alone
    and synchronised. *)
Theorem transaction_for_stopped_volume_only (volname : string)
    (steps : list (Step UUID)) :
  RunTxn steps ∈ volumeDeleteHandler volname →
  ∃ volinfo clean store,
    NewTxnWithLocks volname = None
    ∧ GetVolume volname = inr volinfo
    ∧ Started volinfo = false
    ∧ SnapList volinfo = []
    ∧ SetCtx "volinfo" volinfo ∈ volumeDeleteHandler volname
    ∧ CtxSet "volinfo" volinfo = None
    ∧ steps = [clean; store]
    ∧ Forall (λ s, DoFunc s ∈ registerVolDeleteStepFuncs.*1) steps
    ∧ DoFunc clean = "vol-delete.CleanBricks"
    ∧ (DoFunc clean, txnCleanBricks) ∈ registerVolDeleteStepFuncs
    ∧ Nodes clean = VolNodes volinfo
    ∧ (Skip clean = true ↔
         IsAutoProvisioned volinfo = false
         ∧ IsSnapshotProvisioned volinfo = false)
    ∧ Sync clean = false
    ∧ DoFunc store = "vol-delete.Store"
    ∧ (DoFunc store, λ c, (deleteVolume c).2) ∈ registerVolDeleteStepFuncs
    ∧ Nodes store = [MyUUID] ∧ Skip store = false ∧ Sync store = true.
Proof.
  intros Hrun.
  assert (∃ volinfo,
    NewTxnWithLocks volname = None ∧ GetVolume volname = inr volinfo
    ∧ Started volinfo = false ∧ SnapList volinfo = []
    ∧ SetCtx "volinfo" volinfo ∈ volumeDeleteHandler volname
    ∧ CtxSet "volinfo" volinfo = None
    ∧ steps = deleteSteps volinfo)
    as (volinfo & Htxn & Hvol & Hst & Hsn & Hctx & Hset & ->).
  { destruct (volumeDeleteHandler_cases volname)
      as [(err & s & b & Htxn & Htr)
         | [(s & b & Htxn & _ & Htr)
           | (v & Htxn & Hvol & Hst & Hsn &
              [(err & Hset & Htr)
              | [(err & Hset & Hdo & Htr) | (Hset & Hdo & Htr)]])]];
      rewrite Htr in Hrun |- *; try (by not_in_run Hrun).
    - exists v. split_and!; try done; [in_run |].
      do 4 (apply elem_of_cons in Hrun as [? | Hrun]; [done |]).
      apply elem_of_cons in Hrun as [Heq | Hrun];
        [by injection Heq as -> | not_in_run Hrun].
    - exists v. split_and!; try done; [in_run |].
      do 4 (apply elem_of_cons in Hrun as [? | Hrun]; [done |]).
      apply elem_of_cons in Hrun as [Heq | Hrun];
        [by injection Heq as -> | not_in_run Hrun]. }
  eexists volinfo, _, _. split_and!; try done.
  - constructor; [| constructor; [| constructor]]; simpl; in_run.
  - in_run.
  - simpl. destruct (IsAutoProvisioned volinfo),
      (IsSnapshotProvisioned volinfo); simpl; split; try done;
      by intros [? ?].
  - in_run.
Qed.

(** X20. The deletion is announced when it happened and only then: the
    handler broadcasts the event and answers 204 exactly when the
    transaction ran without error; a transaction that fails is logged
    and answered with 500, and no other answer is a success. *)
Theorem deletion_announced_iff_done (volname : string) :
  (SendHTTPResponse StatusNoContent ∈ volumeDeleteHandler volname
   ↔ ∃ steps, RunTxn steps ∈ volumeDeleteHandler volname ∧ Do steps = None)
  ∧ (∀ volinfo, Broadcast volinfo ∈ volumeDeleteHandler volname
       ↔ GetVolume volname = inr volinfo
         ∧ SendHTTPResponse StatusNoContent ∈ volumeDeleteHandler volname)
  ∧ (∀ status, SendHTTPResponse status ∈ volumeDeleteHandler volname →
       status = StatusNoContent)
  ∧ (∀ steps err,
       RunTxn steps ∈ volumeDeleteHandler volname → Do steps = Some err →
       LogError err ∈ volumeDeleteHandler volname
       ∧ SendHTTPError StatusInternalServerError (inl err)
           ∈ volumeDeleteHandler volname).
Proof.
  destruct (volumeDeleteHandler_cases volname)
    as [(err & s & b & Htxn & ->)
       | [(s & b & Htxn & _ & ->)
         | (v & Htxn & Hvol & Hst & Hsn &
            [(err & Hset & ->)
            | [(err & Hset & Hdo & ->) | (Hset & Hdo & ->)]])]].
  - split_and!.
    + split; [intros Hin; not_in_run Hin |].
      intros (steps & Hin & _). not_in_run Hin.
    + intros v. split; [intros Hin; not_in_run Hin |].
      intros [_ Hin]. not_in_run Hin.
    + intros st Hin. not_in_run Hin.
    + intros steps e Hin. not_in_run Hin.
  - split_and!.
    + split; [intros Hin; not_in_run Hin |].
      intros (steps & Hin & _). not_in_run Hin.
    + intros v. split; [intros Hin; not_in_run Hin |].
      intros [_ Hin]. not_in_run Hin.
    + intros st Hin. not_in_run Hin.
    + intros steps e Hin. not_in_run Hin.
  - split_and!.
    + split; [intros Hin; not_in_run Hin |].
      intros (steps & Hin & _). not_in_run Hin.
    + intros v'. split; [intros Hin; not_in_run Hin |].
      intros [_ Hin]. not_in_run Hin.
    + intros st Hin. not_in_run Hin.
    + intros steps e Hin. not_in_run Hin.
  - split_and!.
    + split; [intros Hin; not_in_run Hin |].
      intros (steps & Hin & Hnone).
      do 4 (apply elem_of_cons in Hin as [? | Hin]; [done |]).
      apply elem_of_cons in Hin as [Heq | Hin]; [| not_in_run Hin].
      injection Heq as ->. by rewrite Hdo in Hnone.
    + intros v'. split; [intros Hin; not_in_run Hin |].
      intros [_ Hin]. not_in_run Hin.
    + intros st Hin. not_in_run Hin.
    + intros steps e Hin Hsome.
      do 4 (apply elem_of_cons in Hin as [? | Hin]; [done |]).
      apply elem_of_cons in Hin as [Heq | Hin]; [| not_in_run Hin].
      injection Heq as ->. rewrite Hdo in Hsome. injection Hsome as ->.
      split; in_run.
  - split_and!.
    + split; [intros _ | intros _; in_run].
      exists (deleteSteps v). split; [in_run | done].
    + intros v'. split.
      * intros Hin.
        do 5 (apply elem_of_cons in Hin as [? | Hin]; [done |]).
        apply elem_of_cons in Hin as [Heq | Hin]; [| not_in_run Hin].
        injection Heq as ->. split; [done | in_run].
      * intros [Hvol' _]. rewrite Hvol in Hvol'. injection Hvol' as ->.
        in_run.
    + intros st Hin.
      do 6 (apply elem_of_cons in Hin as [? | Hin]; [done |]).
      apply elem_of_cons in Hin as [Heq | Hin]; [| not_in_run Hin].
      by injection Heq.
    + intros steps e Hin Hsome.
      do 4 (apply elem_of_cons in Hin as [? | Hin]; [done |]).
      apply elem_of_cons in Hin as [Heq | Hin]; [| not_in_run Hin].
      injection Heq as ->. by rewrite Hdo in Hsome.
Qed.

End HandlerProperties.

(** * Further runs on the reference backend *)

Lemma dispersed_wf : VolCreateReq.wf Reference.dispersed.
Proof. split; unfold isU64, isInt; simpl; by compute. Qed.

Lemma dispersedByCounts_wf : VolCreateReq.wf Samples.dispersedByCounts.
Proof. split; unfold isU64, isInt; simpl; by compute. Qed.

Lemma table_knows inventory :
  @knowsResolverTypes (Reference.collaborators inventory).
Proof. by split_and!; vm_compute; eexists. Qed.

Lemma replicated_room z b :
  z ∈ Samples.zones123 →
  b ∈ concat (SubvolReq.Bricks <$> Samples.layoutOf Reference.replicated) →
  freshRoom Reference.threeZones b z.
Proof.
  intros Hz Hb.
  assert (Forall (λ b, BrickReq.TotalSize b ≤ 200 * GiB)
            (concat (SubvolReq.Bricks
                       <$> Samples.layoutOf Reference.replicated))) as Hall.
  { apply (bool_decide_unpack _). by vm_compute. }
  pose proof (proj1 (Forall_forall _ _) Hall b Hb) as HT. simpl in HT.
  unfold Samples.zones123 in Hz.
  apply elem_of_union in Hz as [[Hz | Hz]%elem_of_union | Hz];
    apply elem_of_singleton in Hz as ->.
  - by exists 0%nat, (Reference.device "peer1" "vg1" "zone1" (200 * GiB)).
  - by exists 1%nat, (Reference.device "peer2" "vg2" "zone2" (200 * GiB)).
  - by exists 2%nat, (Reference.device "peer3" "vg3" "zone3" (200 * GiB)).
Qed.

Section FurtherRuns.
Import Reference Samples.

(** A disperse count of 6 resolves to 4 data and 2 redundancy bricks,
    which add up to it. *)
Lemma disperse_counts_resolved_witness :
  VolCreateReq.wf dispersed
  ∧ @redundancyInRange (collaborators (inr threeZones)) dispersed
  ∧ triggersDisperse dispersed
  ∧ (@handleDisperseSubvolReq (collaborators (inr threeZones)) dispersed).2
    = Ok tt
  ∧ VolCreateReq.DisperseCount
      (@handleDisperseSubvolReq (collaborators (inr threeZones)) dispersed).1
    = VolCreateReq.DisperseDataCount
        (@handleDisperseSubvolReq (collaborators (inr threeZones))
           dispersed).1
      + VolCreateReq.DisperseRedundancyCount
          (@handleDisperseSubvolReq (collaborators (inr threeZones))
             dispersed).1.
Proof.
  split; [apply dispersed_wf |].
  split; [apply dispersed_in_range |].
  split; [apply dispersed_triggers |].
  split; [by vm_compute |].
  refine (proj1 (@disperse_counts_resolved (collaborators (inr threeZones))
                   dispersed _ dispersed_wf (dispersed_in_range _)
                   dispersed_triggers _)).
  vm_compute. reflexivity.
Defined.

(** With 4 data and 2 redundancy bricks given, a disperse count of 9
    changes nothing. *)
Lemma disperse_count_overwritten_witness :
  VolCreateReq.wf dispersedByCounts
  ∧ 0 < VolCreateReq.DisperseDataCount dispersedByCounts
  ∧ 0 < VolCreateReq.DisperseRedundancyCount dispersedByCounts < 2 ^ 62
  ∧ VolCreateReq.DisperseCount
      (@handleDisperseSubvolReq (collaborators (inr threeZones))
         (VolCreateReq.set_DisperseCount 9 dispersedByCounts)).1
    = VolCreateReq.DisperseCount
        (@handleDisperseSubvolReq (collaborators (inr threeZones))
           dispersedByCounts).1.
Proof.
  split; [apply dispersedByCounts_wf |].
  split; [by compute |]. split; [by compute |].
  apply (proj2 (@disperse_count_overwritten (collaborators (inr threeZones))
                  dispersedByCounts dispersedByCounts_wf
                  ltac:(by compute) ltac:(by compute))).
Defined.

(** Three replicas resolve to the type replicate, whatever type the
    request came with. *)
Lemma resolved_type_witness :
  (@resolveRequest (collaborators (inr threeZones)) replicated).2 = Ok tt
  ∧ VolCreateReq.SubvolType
      (@resolveRequest (collaborators (inr threeZones)) replicated).1
    = resolvedType replicated.
Proof.
  split; [by vm_compute |].
  refine (proj1 (@resolved_type (collaborators (inr threeZones))
                   replicated _ _)).
  vm_compute. reflexivity.
Defined.

(** The table of the reference backend has a strategy for every
    request. *)
Lemma strategy_always_found_witness :
  @knowsResolverTypes (collaborators (inr threeZones))
  ∧ (@getBricksLayout (collaborators (inr threeZones)) replicated).2
    ≠ Err ErrSubvolTypeNotSupported.
Proof.
  split; [apply table_knows |].
  apply (@strategy_always_found (collaborators (inr threeZones)) replicated
           (table_knows _)).
Defined.

(** 200 GiB over two subvolumes leave no remainder. *)
Lemma subvol_sizes_truncate_witness :
  isU64 (VolCreateReq.Size twoSubvols)
  ∧ isInt (VolCreateReq.DistributeCount twoSubvols)
  ∧ numSubvols twoSubvols * subvolSize twoSubvols
    ≤ VolCreateReq.Size twoSubvols.
Proof.
  split; [by compute |]. split; [by compute |].
  refine (proj1 (proj2 (subvol_sizes_truncate twoSubvols _ _)));
    by compute.
Defined.

(** 1 TiB on loop-back bricks of at most 100 GiB: the subvolumes stay
    below 100 GiB. *)
Lemma subvol_within_capacity_witness :
  VolCreateReq.wf loopTiB
  ∧ @redundancyInRange (collaborators (inr threeZones)) loopTiB
  ∧ (@resolveRequest (collaborators (inr threeZones)) loopTiB).2 = Ok tt
  ∧ subvolSize (@resolveRequest (collaborators (inr threeZones)) loopTiB).1
    ≤ subvolCapacity
        (@resolveRequest (collaborators (inr threeZones)) loopTiB).1.
Proof.
  split; [apply loopTiB_wf |].
  split; [apply loopTiB_in_range |].
  split; [by vm_compute |].
  apply (@subvol_within_capacity (collaborators (inr threeZones))
           loopTiB _ loopTiB_wf (loopTiB_in_range _)).
  - vm_compute. reflexivity.
  - by vm_compute.
  - by vm_compute.
Defined.

(** Two subvolumes of one brick each. *)
Lemma layout_shape_witness :
  @getBricksLayout backend twoSubvols
    = (resolved twoSubvols, Ok (layoutOf twoSubvols))
  ∧ length (layoutOf twoSubvols) = Z.to_nat (numSubvols (resolved twoSubvols)).
Proof.
  split; [by vm_compute |].
  refine (proj1 (@layout_shape backend twoSubvols (resolved twoSubvols)
                   Strategies.distribute (layoutOf twoSubvols) _ _));
    by vm_compute.
Defined.

(** The first brick of the first and of the second subvolume differ in
    their names. *)
Lemma layout_names_unique_witness :
  @getBricksLayout backend twoSubvols
    = (resolved twoSubvols, Ok (layoutOf twoSubvols))
  ∧ ∃ sv sv' b b',
      layoutOf twoSubvols !! 0%nat = Some sv
      ∧ SubvolReq.Bricks sv !! 0%nat = Some b
      ∧ layoutOf twoSubvols !! 1%nat = Some sv'
      ∧ SubvolReq.Bricks sv' !! 0%nat = Some b'
      ∧ BrickReq.LvName b ≠ BrickReq.LvName b'.
Proof.
  split; [by vm_compute |].
  eexists _, _, _, _.
  split; [by vm_compute |]. split; [by vm_compute |].
  split; [by vm_compute |]. split; [by vm_compute |].
  refine (proj1 (@layout_names_unique backend twoSubvols (resolved twoSubvols)
                   (layoutOf twoSubvols) 0 0 1 0 _ _ _ _ _ _ _ _ _ _));
    by vm_compute.
Defined.

(** The first brick of the first and of the second subvolume have the
    same size. *)
Lemma subvolumes_alike_witness :
  @getBricksLayout backend twoSubvols
    = (resolved twoSubvols, Ok (layoutOf twoSubvols))
  ∧ ∃ sv sv' b b',
      layoutOf twoSubvols !! 0%nat = Some sv
      ∧ SubvolReq.Bricks sv !! 0%nat = Some b
      ∧ layoutOf twoSubvols !! 1%nat = Some sv'
      ∧ SubvolReq.Bricks sv' !! 0%nat = Some b'
      ∧ BrickReq.Size b = BrickReq.Size b'.
Proof.
  split; [by vm_compute |].
  eexists _, _, _, _.
  split; [by vm_compute |]. split; [by vm_compute |].
  split; [by vm_compute |]. split; [by vm_compute |].
  refine (proj1 (proj2
            (@subvolumes_alike backend twoSubvols (resolved twoSubvols)
               (layoutOf twoSubvols) 0 1 0 _ _ _ _ _ _ _ _ _)));
    by vm_compute.
Defined.

(** The plan of three replicas is their layout with the bricks
    placed. *)
Lemma allocator_keeps_layout_witness :
  (@PlanBricks backend replicated).2 = Ok tt
  ∧ @getBricksLayout backend replicated
    = (resolved replicated, Ok (layoutOf replicated))
  ∧ Forall2 sameShape (layoutOf replicated)
      (VolCreateReq.Subvols (planned replicated)).
Proof.
  split; [by vm_compute |]. split; [by vm_compute |].
  refine (proj2 (@allocator_keeps_layout backend replicated
                   (planned replicated) (resolved replicated)
                   (layoutOf replicated) _ _));
    by vm_compute.
Defined.

(** The device paths of the three replicas. *)
Lemma device_path_format_witness :
  (@PlanBricks backend replicated).2 = Ok tt
  ∧ Forall (λ sv,
      Forall (λ b, BrickReq.DevicePath b ≠ "" →
                   BrickReq.DevicePath b = pathOnDevice replicated b)
             (SubvolReq.Bricks sv))
      (VolCreateReq.Subvols (planned replicated)).
Proof.
  split; [by vm_compute |].
  apply (@device_path_format backend replicated (planned replicated)).
  by vm_compute.
Defined.

(** Three replicas on three zones. *)
Lemma bricks_bounded_by_zones_witness :
  (@PlanBricks backend replicated).2 = Ok tt
  ∧ Forall (λ sv, (length (SubvolReq.Bricks sv) ≤ size (zonesOf threeZones))%nat)
      (VolCreateReq.Subvols (planned replicated)).
Proof.
  split; [by vm_compute |].
  refine (proj1 (@bricks_bounded_by_zones backend replicated
                   (planned replicated) threeZones eq_refl _)).
  by vm_compute.
Defined.

(** Three replicas of 100 GiB on three devices of 200 GiB. *)
Lemma no_device_overcommitted_witness :
  @vgsByPointer backend = true
  ∧ inventorySized threeZones
  ∧ (@PlanBricks backend replicated).2 = Ok tt
  ∧ ∃ ds,
      Forall2 (onDevice threeZones)
        (concat (SubvolReq.Bricks <$> VolCreateReq.Subvols (planned replicated)))
        ds
      ∧ ∀ k vg, threeZones !! k = Some vg →
          load k
            (concat (SubvolReq.Bricks
                       <$> VolCreateReq.Subvols (planned replicated))) ds
          ≤ Vg.AvailableSize vg.
Proof.
  split; [done |]. split; [apply threeZones_sized |].
  split; [by vm_compute |].
  apply (@no_device_overcommitted backend replicated (planned replicated)
           threeZones eq_refl eq_refl threeZones_sized).
  by vm_compute.
Defined.

(** Three replicas find their place on three zones with room. *)
Lemma enough_zones_suffice_witness :
  threeZones ≠ []
  ∧ VolCreateReq.SubvolZonesOverlap replicated = false
  ∧ @getBricksLayout backend replicated
    = (resolved replicated, Ok (layoutOf replicated))
  ∧ (length (concat (SubvolReq.Bricks <$> layoutOf replicated))
     ≤ size zones123)%nat
  ∧ (@PlanBricks backend replicated).2 = Ok tt.
Proof.
  split; [done |]. split; [done |].
  split; [by vm_compute |].
  split; [vm_compute; lia |].
  apply (@enough_zones_suffice backend replicated (resolved replicated)
           threeZones (layoutOf replicated) zones123 eq_refl).
  - done.
  - done.
  - by vm_compute.
  - apply replicated_room.
  - vm_compute. lia.
Defined.

(** The handler runs the transaction for a stopped volume that is
    known to the store. *)
Lemma transaction_for_stopped_volume_only_witness :
  VolDelete.RunTxn
    (@VolDelete.deleteSteps (VolDelete.reference [VolDelete.stopped] None)
       VolDelete.stopped)
    ∈ @VolDelete.volumeDeleteHandler
        (VolDelete.reference [VolDelete.stopped] None) "vol1"
  ∧ ∃ volinfo,
      @VolDelete.GetVolume (VolDelete.reference [VolDelete.stopped] None)
        "vol1" = inr volinfo
      ∧ @VolDelete.Started (VolDelete.reference [VolDelete.stopped] None)
          volinfo = false.
Proof.
  assert (VolDelete.RunTxn
            (@VolDelete.deleteSteps
               (VolDelete.reference [VolDelete.stopped] None)
               VolDelete.stopped)
          ∈ @VolDelete.volumeDeleteHandler
              (VolDelete.reference [VolDelete.stopped] None) "vol1") as Hrun.
  { vm_compute. do 4 apply list_elem_of_further. apply list_elem_of_here. }
  split; [exact Hrun |].
  destruct (@transaction_for_stopped_volume_only
              (VolDelete.reference [VolDelete.stopped] None) "vol1" _ Hrun)
    as (volinfo & _ & _ & _ & Hvol & Hst & _).
  by exists volinfo.
Defined.

(** With a data count of 2^32 and a maximum brick size of 4 GiB the
    capacity of a subvolume wraps to zero, and the planner panics. *)
Example capacity_wraps_to_panic : (@PlanBricks backend wrapping).2 = Panic.
Proof. by vm_compute. Qed.

(** A started volume is refused with 400, and the locks are given
    back. *)
Example started_volume_refused :
  @VolDelete.volumeDeleteHandler
    (VolDelete.reference [("vol1", true, [], true)] None) "vol1"
  = [VolDelete.StartSpan "/volumeDeleteHandler"; VolDelete.NewTxn "vol1";
     VolDelete.SendHTTPError VolDelete.StatusBadRequest
       (inr "Volume must be in stopped state before deleting.");
     VolDelete.TxnDone; VolDelete.SpanEnd].
Proof. by vm_compute. Qed.

(** A volume with two snapshots is refused with 424. *)
Example volume_with_snapshots_refused :
  @VolDelete.volumeDeleteHandler
    (VolDelete.reference [("vol1", false, ["snap1"; "snap2"], true)] None)
    "vol1"
  = [VolDelete.StartSpan "/volumeDeleteHandler"; VolDelete.NewTxn "vol1";
     VolDelete.SendHTTPError VolDelete.StatusFailedDependency
       (inr "Cannot delete Volume vol1 ,as it has 2 snapshots.");
     VolDelete.TxnDone; VolDelete.SpanEnd].
Proof. by vm_compute. Qed.

End FurtherRuns.
